(** * CrashDialog: the crash-report dialog of qrenderdoc

    A shallow embedding of [qrenderdoc/Windows/Dialogs/CrashDialog.cpp]:
    the dialog's members and widgets as a record, its slots and the three
    network callbacks of [sendReport] as functions on that record, and the
    event loop as a step function over user and network events.

    Conventions.
    - [QString] is [string]; [toUtf8]/[fromUtf8] are the identity on this
      representation, [isEmpty] is comparison with the empty string.
    - [tr] is the identity: no translation is installed.
    - [qint64], [qulonglong] and [int] are [Z]; [double] is IEEE-754
      binary64 as specified by [SpecFloat].
    - A widget is the value last given to its setter ([setText],
      [setValue], [setChecked], [show]/[hide], ...). *)

From Stdlib Require Import ZArith String Ascii List Bool Lia DecimalString.
From Stdlib Require Import Floats.SpecFloat.
From Stdlib Require Import Rbase Rfunctions Lra.
From stdpp Require Import gmap strings list sorting.

Open Scope string_scope.
Open Scope Z_scope.

(** ** QString helpers *)

Module QStr.

(** The characters that cannot be typed inside a string literal here. *)
Definition dquote : string := String "034" EmptyString.
Definition newline : string := String "010" EmptyString.

Definition isEmpty (s : string) : bool :=
  match s with EmptyString => true | String _ _ => false end.

Definition tr (s : string) : string := s.

(** [QChar::digitValue] on the ASCII digits. *)
Definition digitValue (c : ascii) : option nat :=
  let n := nat_of_ascii c in
  if (48 <=? n)%nat && (n <=? 57)%nat then Some (n - 48)%nat else None.

Definition is_percent (c : ascii) : bool := Ascii.eqb c "%".

(** A string cut at its place markers: [%d] or [%dd], the number they
    carry and the text they were written as. The locale form [%L1], which
    no string of this dialog uses, is not recognised. *)
Inductive piece :=
| PChar (c : ascii)
| PMark (n : nat) (raw : string).

Fixpoint escapes (s : string) : list piece :=
  match s with
  | EmptyString => []
  | String c s1 =>
      if is_percent c then
        match s1 with
        | EmptyString => [PChar c]
        | String d1 s2 =>
            match digitValue d1 with
            | None => PChar c :: escapes s1
            | Some v1 =>
                match s2 with
                | EmptyString => [PMark v1 (String c (String d1 EmptyString))]
                | String d2 s3 =>
                    match digitValue d2 with
                    | None =>
                        PMark v1 (String c (String d1 EmptyString)) :: escapes s2
                    | Some v2 =>
                        PMark (10 * v1 + v2)
                              (String c (String d1 (String d2 EmptyString)))
                          :: escapes s3
                    end
                end
            end
        end
      else PChar c :: escapes s1
  end.

(** The lowest marker number of a string, if it has a marker. *)
Fixpoint min_escape (ps : list piece) : option nat :=
  match ps with
  | [] => None
  | PChar _ :: ps' => min_escape ps'
  | PMark n _ :: ps' =>
      match min_escape ps' with
      | None => Some n
      | Some m => Some (Nat.min n m)
      end
  end.

Fixpoint substitute (n : nat) (a : string) (ps : list piece) : string :=
  match ps with
  | [] => EmptyString
  | PChar c :: ps' => String c (substitute n a ps')
  | PMark m raw :: ps' =>
      (if (m =? n)%nat then a else raw) ++ substitute n a ps'
  end.

(** [QString::arg(const QString &a)]: every occurrence of the
    lowest-numbered place marker is replaced by [a]; a string without a
    marker is returned as it is. *)
Definition arg (a : string) (s : string) : string :=
  let ps := escapes s in
  match min_escape ps with
  | None => s
  | Some n => substitute n a ps
  end.

Fixpoint fill (n : nat) (c : ascii) : string :=
  match n with
  | O => EmptyString
  | S n' => String c (fill n' c)
  end.

(** Right-aligned padding to a minimum field width. *)
Definition padLeft (fieldWidth : nat) (fillChar : ascii) (s : string) : string :=
  fill (fieldWidth - String.length s) fillChar ++ s.

(** The base-10 text of a non-negative integer. *)
Definition number (a : Z) : string :=
  NilZero.string_of_uint (N.to_uint (Z.to_N a)).

(** [QString::arg(qulonglong a, int fieldWidth, int base = 10, QChar fillChar)]
    for a non-negative field width. *)
Definition arg_num (a : Z) (fieldWidth : nat) (fillChar : ascii) (s : string)
  : string :=
  arg (padLeft fieldWidth fillChar (number a)) s.

Fixpoint no_percent (s : string) : bool :=
  match s with
  | EmptyString => true
  | String c s' => negb (is_percent c) && no_percent s'
  end.

Fixpoint of_chars (l : list ascii) : string :=
  match l with
  | [] => EmptyString
  | c :: l' => String c (of_chars l')
  end.

Fixpoint chars (s : string) : list ascii :=
  match s with
  | EmptyString => []
  | String c s' => c :: chars s'
  end.

(** Substring test, used to say that a text shows another one. *)
Fixpoint contains (needle hay : string) : bool :=
  String.prefix needle hay ||
  match hay with
  | EmptyString => false
  | String _ hay' => contains needle hay'
  end.

End QStr.

Import QStr.

(** ** The remaining-time string of the upload-progress callback *)

(** Lines 362-378: [secondsRemaining] is a [qulonglong]. *)
Definition remainString (secondsRemaining : Z) : string :=
  let minutesRemaining := (secondsRemaining / 60) mod 60 in
  let hoursRemaining := secondsRemaining / 3600 in
  let secondsRemaining := secondsRemaining mod 60 in
  if 0 <? hoursRemaining then
    arg_num secondsRemaining 2 "0"
      (arg_num minutesRemaining 2 "0"
         (arg_num hoursRemaining 2 "0" "%1:%2:%3"))
  else if 0 <? minutesRemaining then
    arg_num secondsRemaining 2 "0"
      (arg_num minutesRemaining 2 "0" "%1:%2")
  else
    arg_num secondsRemaining 0 " " (tr "%1 seconds").

(** ** C++ [double] as IEEE-754 binary64 *)

Module Double.

Definition double := spec_float.

Definition prec : Z := 53.
Definition emax : Z := 1024.

(** [double(z)] for an integer [z]: rounded to nearest, ties to even. *)
Definition of_int (z : Z) : double := binary_normalize prec emax z 0 false.

Definition mul : double -> double -> double := SFmul prec emax.
Definition div : double -> double -> double := SFdiv prec emax.
Definition sub : double -> double -> double := SFsub prec emax.

(** [x > y] *)
Definition gt (x y : double) : bool := SFltb y x.

(** The integer obtained by discarding the fractional part; none for an
    infinity or a NaN. *)
Definition truncate (x : double) : option Z :=
  match x with
  | S754_zero _ => Some 0
  | S754_infinity _ => None
  | S754_nan => None
  | S754_finite s m e =>
      let v := if 0 <=? e then Z.pos m * 2 ^ e else Z.pos m / 2 ^ (- e) in
      Some (if s then - v else v)
  end.

(** A conversion to an integer type is defined only when the truncated
    value fits the type. *)
Definition to_range (lo hi : Z) (x : double) : option Z :=
  match truncate x with
  | Some v => if (lo <=? v) && (v <? hi) then Some v else None
  | None => None
  end.

(** [int(x)] *)
Definition to_int : double -> option Z := to_range (- 2 ^ 31) (2 ^ 31).

(** [qulonglong(x)] *)
Definition to_qulonglong : double -> option Z := to_range 0 (2 ^ 64).

(** The literals of the progress callback. *)
Definition d10000 : double := of_int 10000.
Definition d1000000 : double := of_int 1000000.
Definition d1 : double := of_int 1.
(** [1.0e-9]: the double nearest to 1/10^9. *)
Definition d1e_9 : double := div (of_int 1) (of_int 1000000000).

(** A fixed-notation formatter with [digits] decimals, rounding the exact
    value half to even. It serves as an instance of the formatter the
    dialog is parameterised by. *)
Definition fixed (x : double) (digits : nat) : string :=
  match x with
  | S754_nan => "nan"
  | S754_infinity s => if s then "-inf" else "inf"
  | S754_zero s =>
      (if s then "-" else "") ++ "0." ++ fill digits "0"
  | S754_finite s m e =>
      let scale := 10 ^ Z.of_nat digits in
      let num := Z.pos m * scale in
      let q :=
        if 0 <=? e then num * 2 ^ e
        else
          let den := 2 ^ (- e) in
          let q0 := num / den in
          let r2 := 2 * (num mod den) in
          if r2 <? den then q0
          else if den <? r2 then q0 + 1
          else if Z.even q0 then q0 else q0 + 1 in
      (if s then "-" else "") ++ number (q / scale) ++ "." ++
        padLeft digits "0" (number (q mod scale))
  end.

(** *** Doubles as real numbers

    What the accuracy of the arithmetic of the progress callback is
    stated with. *)

(** The real number a double stands for; 0 for an infinity or a NaN. *)
Definition B2R (x : double) : R :=
  match x with
  | S754_finite s m e =>
      ((if s then -1 else 1) * (IZR (Z.pos m) * powerRZ 2 e))%R
  | _ => 0%R
  end.

(** A positive normal number with its exponent between [lo] and [hi]. *)
Definition normal (x : double) (lo hi : Z) : Prop :=
  exists m e, x = S754_finite false m e
              /\ 2 ^ 52 <= Z.pos m < 2 ^ 53 /\ lo <= e <= hi.

(** 2^-52, the relative error one operation is bounded by. *)
Definition eps : R := (/ 4503599627370496)%R.

(** [x] is the real number [X] up to the relative error [k * eps]. *)
Definition near (k : R) (x : double) (X : R) : Prop :=
  (X * (1 - k * eps) <= B2R x <= X * (1 + k * eps))%R.

End Double.

(** ** Data model *)

Inductive ReportStage := FillingDetails | Uploading | Reported.

(** The answer of [RDDialog::question]. *)
Inductive StandardButton := Yes | No | NoButton.

Inductive DialogCode := Rejected | Accepted.

Inductive TextFormat := PlainText | RichText | AutoText.

Inductive ReplayStatus := Succeeded | UnknownError.

Inductive FileType := Raw | JPG.

(** A [QDateTime]: milliseconds since the epoch, or the null date-time of a
    default-constructed value. *)
Definition QDateTime := option Z.

Definition QByteArray := string.

Record BugReport := {
  ID : string;
  SubmitDate : QDateTime;
  CheckDate : QDateTime
}.

(** The fields of [PersistantConfig] that the dialog touches. *)
Record PersistantConfig := {
  CrashReport_LastOpenedCapture : string;
  CrashReport_ShouldRememberEmail : bool;
  CrashReport_EmailAddress : string;
  CrashReport_EmailNagged : bool;
  CrashReport_ReportedBugs : list BugReport
}.

(** A [QVariant] is represented by what its two conversions used here
    return. *)
Record QVariant := {
  toString : string;
  toUInt : Z
}.

(** A default-constructed (invalid) variant. *)
Definition QVariant_invalid : QVariant := {| toString := ""; toUInt := 0 |}.

(** [map[key]]: the value stored under the key, a default-constructed one
    when there is none. *)
Definition value_at (m : gmap string QVariant) (key : string) : QVariant :=
  default QVariant_invalid (m !! key).

(** [map.keys()]: the keys of a [QMap], in ascending order. The order is
    that of the characters' codes, which is the order of [QString] on keys
    of ASCII characters. *)
Definition keys (m : gmap string QVariant) : list string :=
  merge_sort String.le (map_to_list m).*1.

Record Thumbnail := {
  thumb_data : QByteArray;
  thumb_width : Z;
  thumb_height : Z
}.

Inductive PartBody :=
| Body (b : QByteArray)
| BodyDevice (path : string).

Record QHttpPart := {
  ContentTypeHeader : option string;
  ContentDispositionHeader : string;
  part_body : PartBody
}.

(** The reply object of a posted request; [reply_running] holds until its
    [finished] signal has been delivered. *)
Record QNetworkReply := {
  request_url : string;
  request_multiPart : list QHttpPart;
  reply_running : bool
}.

(** What the file system and the capture-file reader answer. *)
Record World := {
  QFileInfo_exists : string -> bool;
  QFileInfo_fileName : string -> string;
  QFileInfo_absoluteFilePath : string -> string;
  OpenFile : string -> ReplayStatus;
  GetThumbnail : string -> FileType -> Z -> Thumbnail;
  QImage_isNull : Thumbnail -> bool
}.

(** ** The dialog

    The widgets of [Ui::CrashDialog] that the file reads or writes. Geometry
    ([adjustSize], [recentre], the window flags) is left out. *)
Record Ui := {
  reportGroup_visible : bool;
  uploadingGroup_visible : bool;
  reportedGroup_visible : bool;
  rememberEmail_checked : bool;
  email_text : string;
  email_focus : bool;
  description_text : string;
  captureLabel_visible : bool;
  captureUpload_visible : bool;
  captureUpload_checked : bool;
  captureFilename_visible : bool;
  captureFilename_text : string;
  capturePreviewFrame_visible : bool;
  capturePreview_pixmap : option Thumbnail;
  capturePreview_preserveAspectRatio : bool;
  reportText_format : TextFormat;
  reportText_text : string;
  progressBar_maximum : Z;
  progressBar_value : Z;
  progressText_text : string;
  uploadRetry_enabled : bool;
  finishedText_format : TextFormat;
  finishedText_text : string;
  checkUpdates_checked : bool
}.

(** The members of [CrashDialog]. [m_Config] is the configuration the dialog
    holds a reference to and [saved] the configurations written by
    [m_Config.Save()], newest first. [m_Request] is the reply object while it
    is allocated, [m_UploadTimer] whether the timer is, and [result] the code
    the dialog was closed with by [accept()] or [reject()]. *)
Record CrashDialog := {
  ui : Ui;
  m_Config : PersistantConfig;
  saved : list PersistantConfig;
  m_ReportPath : string;
  m_ReportMetadata : gmap string QVariant;
  m_CaptureFilename : string;
  m_Thumbnail : option Thumbnail;
  m_Stage : ReportStage;
  m_Request : option QNetworkReply;
  m_UploadTimer : bool;
  m_ReportID : string;
  result : option DialogCode
}.

(** Field updates. *)

Definition set_CrashReport_ShouldRememberEmail (v : bool) (c : PersistantConfig) : PersistantConfig :=
  {| CrashReport_LastOpenedCapture := CrashReport_LastOpenedCapture c;
     CrashReport_ShouldRememberEmail := v;
     CrashReport_EmailAddress := CrashReport_EmailAddress c;
     CrashReport_EmailNagged := CrashReport_EmailNagged c;
     CrashReport_ReportedBugs := CrashReport_ReportedBugs c |}.

Definition set_CrashReport_EmailAddress (v : string) (c : PersistantConfig) : PersistantConfig :=
  {| CrashReport_LastOpenedCapture := CrashReport_LastOpenedCapture c;
     CrashReport_ShouldRememberEmail := CrashReport_ShouldRememberEmail c;
     CrashReport_EmailAddress := v; CrashReport_EmailNagged := CrashReport_EmailNagged c;
     CrashReport_ReportedBugs := CrashReport_ReportedBugs c |}.

Definition set_CrashReport_EmailNagged (v : bool) (c : PersistantConfig) : PersistantConfig :=
  {| CrashReport_LastOpenedCapture := CrashReport_LastOpenedCapture c;
     CrashReport_ShouldRememberEmail := CrashReport_ShouldRememberEmail c;
     CrashReport_EmailAddress := CrashReport_EmailAddress c; CrashReport_EmailNagged := v;
     CrashReport_ReportedBugs := CrashReport_ReportedBugs c |}.

Definition set_CrashReport_ReportedBugs (v : list BugReport) (c : PersistantConfig) : PersistantConfig :=
  {| CrashReport_LastOpenedCapture := CrashReport_LastOpenedCapture c;
     CrashReport_ShouldRememberEmail := CrashReport_ShouldRememberEmail c;
     CrashReport_EmailAddress := CrashReport_EmailAddress c;
     CrashReport_EmailNagged := CrashReport_EmailNagged c; CrashReport_ReportedBugs := v |}.

Definition set_reportGroup_visible (v : bool) (u : Ui) : Ui :=
  {| reportGroup_visible := v; uploadingGroup_visible := uploadingGroup_visible u;
     reportedGroup_visible := reportedGroup_visible u;
     rememberEmail_checked := rememberEmail_checked u; email_text := email_text u;
     email_focus := email_focus u; description_text := description_text u;
     captureLabel_visible := captureLabel_visible u;
     captureUpload_visible := captureUpload_visible u;
     captureUpload_checked := captureUpload_checked u;
     captureFilename_visible := captureFilename_visible u;
     captureFilename_text := captureFilename_text u;
     capturePreviewFrame_visible := capturePreviewFrame_visible u;
     capturePreview_pixmap := capturePreview_pixmap u;
     capturePreview_preserveAspectRatio := capturePreview_preserveAspectRatio u;
     reportText_format := reportText_format u; reportText_text := reportText_text u;
     progressBar_maximum := progressBar_maximum u; progressBar_value := progressBar_value u;
     progressText_text := progressText_text u; uploadRetry_enabled := uploadRetry_enabled u;
     finishedText_format := finishedText_format u; finishedText_text := finishedText_text u;
     checkUpdates_checked := checkUpdates_checked u |}.

Definition set_uploadingGroup_visible (v : bool) (u : Ui) : Ui :=
  {| reportGroup_visible := reportGroup_visible u; uploadingGroup_visible := v;
     reportedGroup_visible := reportedGroup_visible u;
     rememberEmail_checked := rememberEmail_checked u; email_text := email_text u;
     email_focus := email_focus u; description_text := description_text u;
     captureLabel_visible := captureLabel_visible u;
     captureUpload_visible := captureUpload_visible u;
     captureUpload_checked := captureUpload_checked u;
     captureFilename_visible := captureFilename_visible u;
     captureFilename_text := captureFilename_text u;
     capturePreviewFrame_visible := capturePreviewFrame_visible u;
     capturePreview_pixmap := capturePreview_pixmap u;
     capturePreview_preserveAspectRatio := capturePreview_preserveAspectRatio u;
     reportText_format := reportText_format u; reportText_text := reportText_text u;
     progressBar_maximum := progressBar_maximum u; progressBar_value := progressBar_value u;
     progressText_text := progressText_text u; uploadRetry_enabled := uploadRetry_enabled u;
     finishedText_format := finishedText_format u; finishedText_text := finishedText_text u;
     checkUpdates_checked := checkUpdates_checked u |}.

Definition set_reportedGroup_visible (v : bool) (u : Ui) : Ui :=
  {| reportGroup_visible := reportGroup_visible u;
     uploadingGroup_visible := uploadingGroup_visible u; reportedGroup_visible := v;
     rememberEmail_checked := rememberEmail_checked u; email_text := email_text u;
     email_focus := email_focus u; description_text := description_text u;
     captureLabel_visible := captureLabel_visible u;
     captureUpload_visible := captureUpload_visible u;
     captureUpload_checked := captureUpload_checked u;
     captureFilename_visible := captureFilename_visible u;
     captureFilename_text := captureFilename_text u;
     capturePreviewFrame_visible := capturePreviewFrame_visible u;
     capturePreview_pixmap := capturePreview_pixmap u;
     capturePreview_preserveAspectRatio := capturePreview_preserveAspectRatio u;
     reportText_format := reportText_format u; reportText_text := reportText_text u;
     progressBar_maximum := progressBar_maximum u; progressBar_value := progressBar_value u;
     progressText_text := progressText_text u; uploadRetry_enabled := uploadRetry_enabled u;
     finishedText_format := finishedText_format u; finishedText_text := finishedText_text u;
     checkUpdates_checked := checkUpdates_checked u |}.

Definition set_rememberEmail_checked (v : bool) (u : Ui) : Ui :=
  {| reportGroup_visible := reportGroup_visible u;
     uploadingGroup_visible := uploadingGroup_visible u;
     reportedGroup_visible := reportedGroup_visible u; rememberEmail_checked := v;
     email_text := email_text u; email_focus := email_focus u;
     description_text := description_text u; captureLabel_visible := captureLabel_visible u;
     captureUpload_visible := captureUpload_visible u;
     captureUpload_checked := captureUpload_checked u;
     captureFilename_visible := captureFilename_visible u;
     captureFilename_text := captureFilename_text u;
     capturePreviewFrame_visible := capturePreviewFrame_visible u;
     capturePreview_pixmap := capturePreview_pixmap u;
     capturePreview_preserveAspectRatio := capturePreview_preserveAspectRatio u;
     reportText_format := reportText_format u; reportText_text := reportText_text u;
     progressBar_maximum := progressBar_maximum u; progressBar_value := progressBar_value u;
     progressText_text := progressText_text u; uploadRetry_enabled := uploadRetry_enabled u;
     finishedText_format := finishedText_format u; finishedText_text := finishedText_text u;
     checkUpdates_checked := checkUpdates_checked u |}.

Definition set_email_text (v : string) (u : Ui) : Ui :=
  {| reportGroup_visible := reportGroup_visible u;
     uploadingGroup_visible := uploadingGroup_visible u;
     reportedGroup_visible := reportedGroup_visible u;
     rememberEmail_checked := rememberEmail_checked u; email_text := v;
     email_focus := email_focus u; description_text := description_text u;
     captureLabel_visible := captureLabel_visible u;
     captureUpload_visible := captureUpload_visible u;
     captureUpload_checked := captureUpload_checked u;
     captureFilename_visible := captureFilename_visible u;
     captureFilename_text := captureFilename_text u;
     capturePreviewFrame_visible := capturePreviewFrame_visible u;
     capturePreview_pixmap := capturePreview_pixmap u;
     capturePreview_preserveAspectRatio := capturePreview_preserveAspectRatio u;
     reportText_format := reportText_format u; reportText_text := reportText_text u;
     progressBar_maximum := progressBar_maximum u; progressBar_value := progressBar_value u;
     progressText_text := progressText_text u; uploadRetry_enabled := uploadRetry_enabled u;
     finishedText_format := finishedText_format u; finishedText_text := finishedText_text u;
     checkUpdates_checked := checkUpdates_checked u |}.

Definition set_email_focus (v : bool) (u : Ui) : Ui :=
  {| reportGroup_visible := reportGroup_visible u;
     uploadingGroup_visible := uploadingGroup_visible u;
     reportedGroup_visible := reportedGroup_visible u;
     rememberEmail_checked := rememberEmail_checked u; email_text := email_text u;
     email_focus := v; description_text := description_text u;
     captureLabel_visible := captureLabel_visible u;
     captureUpload_visible := captureUpload_visible u;
     captureUpload_checked := captureUpload_checked u;
     captureFilename_visible := captureFilename_visible u;
     captureFilename_text := captureFilename_text u;
     capturePreviewFrame_visible := capturePreviewFrame_visible u;
     capturePreview_pixmap := capturePreview_pixmap u;
     capturePreview_preserveAspectRatio := capturePreview_preserveAspectRatio u;
     reportText_format := reportText_format u; reportText_text := reportText_text u;
     progressBar_maximum := progressBar_maximum u; progressBar_value := progressBar_value u;
     progressText_text := progressText_text u; uploadRetry_enabled := uploadRetry_enabled u;
     finishedText_format := finishedText_format u; finishedText_text := finishedText_text u;
     checkUpdates_checked := checkUpdates_checked u |}.

Definition set_description_text (v : string) (u : Ui) : Ui :=
  {| reportGroup_visible := reportGroup_visible u;
     uploadingGroup_visible := uploadingGroup_visible u;
     reportedGroup_visible := reportedGroup_visible u;
     rememberEmail_checked := rememberEmail_checked u; email_text := email_text u;
     email_focus := email_focus u; description_text := v;
     captureLabel_visible := captureLabel_visible u;
     captureUpload_visible := captureUpload_visible u;
     captureUpload_checked := captureUpload_checked u;
     captureFilename_visible := captureFilename_visible u;
     captureFilename_text := captureFilename_text u;
     capturePreviewFrame_visible := capturePreviewFrame_visible u;
     capturePreview_pixmap := capturePreview_pixmap u;
     capturePreview_preserveAspectRatio := capturePreview_preserveAspectRatio u;
     reportText_format := reportText_format u; reportText_text := reportText_text u;
     progressBar_maximum := progressBar_maximum u; progressBar_value := progressBar_value u;
     progressText_text := progressText_text u; uploadRetry_enabled := uploadRetry_enabled u;
     finishedText_format := finishedText_format u; finishedText_text := finishedText_text u;
     checkUpdates_checked := checkUpdates_checked u |}.

Definition set_captureLabel_visible (v : bool) (u : Ui) : Ui :=
  {| reportGroup_visible := reportGroup_visible u;
     uploadingGroup_visible := uploadingGroup_visible u;
     reportedGroup_visible := reportedGroup_visible u;
     rememberEmail_checked := rememberEmail_checked u; email_text := email_text u;
     email_focus := email_focus u; description_text := description_text u;
     captureLabel_visible := v; captureUpload_visible := captureUpload_visible u;
     captureUpload_checked := captureUpload_checked u;
     captureFilename_visible := captureFilename_visible u;
     captureFilename_text := captureFilename_text u;
     capturePreviewFrame_visible := capturePreviewFrame_visible u;
     capturePreview_pixmap := capturePreview_pixmap u;
     capturePreview_preserveAspectRatio := capturePreview_preserveAspectRatio u;
     reportText_format := reportText_format u; reportText_text := reportText_text u;
     progressBar_maximum := progressBar_maximum u; progressBar_value := progressBar_value u;
     progressText_text := progressText_text u; uploadRetry_enabled := uploadRetry_enabled u;
     finishedText_format := finishedText_format u; finishedText_text := finishedText_text u;
     checkUpdates_checked := checkUpdates_checked u |}.

Definition set_captureUpload_visible (v : bool) (u : Ui) : Ui :=
  {| reportGroup_visible := reportGroup_visible u;
     uploadingGroup_visible := uploadingGroup_visible u;
     reportedGroup_visible := reportedGroup_visible u;
     rememberEmail_checked := rememberEmail_checked u; email_text := email_text u;
     email_focus := email_focus u; description_text := description_text u;
     captureLabel_visible := captureLabel_visible u; captureUpload_visible := v;
     captureUpload_checked := captureUpload_checked u;
     captureFilename_visible := captureFilename_visible u;
     captureFilename_text := captureFilename_text u;
     capturePreviewFrame_visible := capturePreviewFrame_visible u;
     capturePreview_pixmap := capturePreview_pixmap u;
     capturePreview_preserveAspectRatio := capturePreview_preserveAspectRatio u;
     reportText_format := reportText_format u; reportText_text := reportText_text u;
     progressBar_maximum := progressBar_maximum u; progressBar_value := progressBar_value u;
     progressText_text := progressText_text u; uploadRetry_enabled := uploadRetry_enabled u;
     finishedText_format := finishedText_format u; finishedText_text := finishedText_text u;
     checkUpdates_checked := checkUpdates_checked u |}.

Definition set_captureUpload_checked (v : bool) (u : Ui) : Ui :=
  {| reportGroup_visible := reportGroup_visible u;
     uploadingGroup_visible := uploadingGroup_visible u;
     reportedGroup_visible := reportedGroup_visible u;
     rememberEmail_checked := rememberEmail_checked u; email_text := email_text u;
     email_focus := email_focus u; description_text := description_text u;
     captureLabel_visible := captureLabel_visible u;
     captureUpload_visible := captureUpload_visible u; captureUpload_checked := v;
     captureFilename_visible := captureFilename_visible u;
     captureFilename_text := captureFilename_text u;
     capturePreviewFrame_visible := capturePreviewFrame_visible u;
     capturePreview_pixmap := capturePreview_pixmap u;
     capturePreview_preserveAspectRatio := capturePreview_preserveAspectRatio u;
     reportText_format := reportText_format u; reportText_text := reportText_text u;
     progressBar_maximum := progressBar_maximum u; progressBar_value := progressBar_value u;
     progressText_text := progressText_text u; uploadRetry_enabled := uploadRetry_enabled u;
     finishedText_format := finishedText_format u; finishedText_text := finishedText_text u;
     checkUpdates_checked := checkUpdates_checked u |}.

Definition set_captureFilename_visible (v : bool) (u : Ui) : Ui :=
  {| reportGroup_visible := reportGroup_visible u;
     uploadingGroup_visible := uploadingGroup_visible u;
     reportedGroup_visible := reportedGroup_visible u;
     rememberEmail_checked := rememberEmail_checked u; email_text := email_text u;
     email_focus := email_focus u; description_text := description_text u;
     captureLabel_visible := captureLabel_visible u;
     captureUpload_visible := captureUpload_visible u;
     captureUpload_checked := captureUpload_checked u; captureFilename_visible := v;
     captureFilename_text := captureFilename_text u;
     capturePreviewFrame_visible := capturePreviewFrame_visible u;
     capturePreview_pixmap := capturePreview_pixmap u;
     capturePreview_preserveAspectRatio := capturePreview_preserveAspectRatio u;
     reportText_format := reportText_format u; reportText_text := reportText_text u;
     progressBar_maximum := progressBar_maximum u; progressBar_value := progressBar_value u;
     progressText_text := progressText_text u; uploadRetry_enabled := uploadRetry_enabled u;
     finishedText_format := finishedText_format u; finishedText_text := finishedText_text u;
     checkUpdates_checked := checkUpdates_checked u |}.

Definition set_captureFilename_text (v : string) (u : Ui) : Ui :=
  {| reportGroup_visible := reportGroup_visible u;
     uploadingGroup_visible := uploadingGroup_visible u;
     reportedGroup_visible := reportedGroup_visible u;
     rememberEmail_checked := rememberEmail_checked u; email_text := email_text u;
     email_focus := email_focus u; description_text := description_text u;
     captureLabel_visible := captureLabel_visible u;
     captureUpload_visible := captureUpload_visible u;
     captureUpload_checked := captureUpload_checked u;
     captureFilename_visible := captureFilename_visible u; captureFilename_text := v;
     capturePreviewFrame_visible := capturePreviewFrame_visible u;
     capturePreview_pixmap := capturePreview_pixmap u;
     capturePreview_preserveAspectRatio := capturePreview_preserveAspectRatio u;
     reportText_format := reportText_format u; reportText_text := reportText_text u;
     progressBar_maximum := progressBar_maximum u; progressBar_value := progressBar_value u;
     progressText_text := progressText_text u; uploadRetry_enabled := uploadRetry_enabled u;
     finishedText_format := finishedText_format u; finishedText_text := finishedText_text u;
     checkUpdates_checked := checkUpdates_checked u |}.

Definition set_capturePreviewFrame_visible (v : bool) (u : Ui) : Ui :=
  {| reportGroup_visible := reportGroup_visible u;
     uploadingGroup_visible := uploadingGroup_visible u;
     reportedGroup_visible := reportedGroup_visible u;
     rememberEmail_checked := rememberEmail_checked u; email_text := email_text u;
     email_focus := email_focus u; description_text := description_text u;
     captureLabel_visible := captureLabel_visible u;
     captureUpload_visible := captureUpload_visible u;
     captureUpload_checked := captureUpload_checked u;
     captureFilename_visible := captureFilename_visible u;
     captureFilename_text := captureFilename_text u; capturePreviewFrame_visible := v;
     capturePreview_pixmap := capturePreview_pixmap u;
     capturePreview_preserveAspectRatio := capturePreview_preserveAspectRatio u;
     reportText_format := reportText_format u; reportText_text := reportText_text u;
     progressBar_maximum := progressBar_maximum u; progressBar_value := progressBar_value u;
     progressText_text := progressText_text u; uploadRetry_enabled := uploadRetry_enabled u;
     finishedText_format := finishedText_format u; finishedText_text := finishedText_text u;
     checkUpdates_checked := checkUpdates_checked u |}.

Definition set_capturePreview_pixmap (v : option Thumbnail) (u : Ui) : Ui :=
  {| reportGroup_visible := reportGroup_visible u;
     uploadingGroup_visible := uploadingGroup_visible u;
     reportedGroup_visible := reportedGroup_visible u;
     rememberEmail_checked := rememberEmail_checked u; email_text := email_text u;
     email_focus := email_focus u; description_text := description_text u;
     captureLabel_visible := captureLabel_visible u;
     captureUpload_visible := captureUpload_visible u;
     captureUpload_checked := captureUpload_checked u;
     captureFilename_visible := captureFilename_visible u;
     captureFilename_text := captureFilename_text u;
     capturePreviewFrame_visible := capturePreviewFrame_visible u; capturePreview_pixmap := v;
     capturePreview_preserveAspectRatio := capturePreview_preserveAspectRatio u;
     reportText_format := reportText_format u; reportText_text := reportText_text u;
     progressBar_maximum := progressBar_maximum u; progressBar_value := progressBar_value u;
     progressText_text := progressText_text u; uploadRetry_enabled := uploadRetry_enabled u;
     finishedText_format := finishedText_format u; finishedText_text := finishedText_text u;
     checkUpdates_checked := checkUpdates_checked u |}.

Definition set_capturePreview_preserveAspectRatio (v : bool) (u : Ui) : Ui :=
  {| reportGroup_visible := reportGroup_visible u;
     uploadingGroup_visible := uploadingGroup_visible u;
     reportedGroup_visible := reportedGroup_visible u;
     rememberEmail_checked := rememberEmail_checked u; email_text := email_text u;
     email_focus := email_focus u; description_text := description_text u;
     captureLabel_visible := captureLabel_visible u;
     captureUpload_visible := captureUpload_visible u;
     captureUpload_checked := captureUpload_checked u;
     captureFilename_visible := captureFilename_visible u;
     captureFilename_text := captureFilename_text u;
     capturePreviewFrame_visible := capturePreviewFrame_visible u;
     capturePreview_pixmap := capturePreview_pixmap u; capturePreview_preserveAspectRatio := v;
     reportText_format := reportText_format u; reportText_text := reportText_text u;
     progressBar_maximum := progressBar_maximum u; progressBar_value := progressBar_value u;
     progressText_text := progressText_text u; uploadRetry_enabled := uploadRetry_enabled u;
     finishedText_format := finishedText_format u; finishedText_text := finishedText_text u;
     checkUpdates_checked := checkUpdates_checked u |}.

Definition set_reportText_format (v : TextFormat) (u : Ui) : Ui :=
  {| reportGroup_visible := reportGroup_visible u;
     uploadingGroup_visible := uploadingGroup_visible u;
     reportedGroup_visible := reportedGroup_visible u;
     rememberEmail_checked := rememberEmail_checked u; email_text := email_text u;
     email_focus := email_focus u; description_text := description_text u;
     captureLabel_visible := captureLabel_visible u;
     captureUpload_visible := captureUpload_visible u;
     captureUpload_checked := captureUpload_checked u;
     captureFilename_visible := captureFilename_visible u;
     captureFilename_text := captureFilename_text u;
     capturePreviewFrame_visible := capturePreviewFrame_visible u;
     capturePreview_pixmap := capturePreview_pixmap u;
     capturePreview_preserveAspectRatio := capturePreview_preserveAspectRatio u;
     reportText_format := v; reportText_text := reportText_text u;
     progressBar_maximum := progressBar_maximum u; progressBar_value := progressBar_value u;
     progressText_text := progressText_text u; uploadRetry_enabled := uploadRetry_enabled u;
     finishedText_format := finishedText_format u; finishedText_text := finishedText_text u;
     checkUpdates_checked := checkUpdates_checked u |}.

Definition set_reportText_text (v : string) (u : Ui) : Ui :=
  {| reportGroup_visible := reportGroup_visible u;
     uploadingGroup_visible := uploadingGroup_visible u;
     reportedGroup_visible := reportedGroup_visible u;
     rememberEmail_checked := rememberEmail_checked u; email_text := email_text u;
     email_focus := email_focus u; description_text := description_text u;
     captureLabel_visible := captureLabel_visible u;
     captureUpload_visible := captureUpload_visible u;
     captureUpload_checked := captureUpload_checked u;
     captureFilename_visible := captureFilename_visible u;
     captureFilename_text := captureFilename_text u;
     capturePreviewFrame_visible := capturePreviewFrame_visible u;
     capturePreview_pixmap := capturePreview_pixmap u;
     capturePreview_preserveAspectRatio := capturePreview_preserveAspectRatio u;
     reportText_format := reportText_format u; reportText_text := v;
     progressBar_maximum := progressBar_maximum u; progressBar_value := progressBar_value u;
     progressText_text := progressText_text u; uploadRetry_enabled := uploadRetry_enabled u;
     finishedText_format := finishedText_format u; finishedText_text := finishedText_text u;
     checkUpdates_checked := checkUpdates_checked u |}.

Definition set_progressBar_maximum (v : Z) (u : Ui) : Ui :=
  {| reportGroup_visible := reportGroup_visible u;
     uploadingGroup_visible := uploadingGroup_visible u;
     reportedGroup_visible := reportedGroup_visible u;
     rememberEmail_checked := rememberEmail_checked u; email_text := email_text u;
     email_focus := email_focus u; description_text := description_text u;
     captureLabel_visible := captureLabel_visible u;
     captureUpload_visible := captureUpload_visible u;
     captureUpload_checked := captureUpload_checked u;
     captureFilename_visible := captureFilename_visible u;
     captureFilename_text := captureFilename_text u;
     capturePreviewFrame_visible := capturePreviewFrame_visible u;
     capturePreview_pixmap := capturePreview_pixmap u;
     capturePreview_preserveAspectRatio := capturePreview_preserveAspectRatio u;
     reportText_format := reportText_format u; reportText_text := reportText_text u;
     progressBar_maximum := v; progressBar_value := progressBar_value u;
     progressText_text := progressText_text u; uploadRetry_enabled := uploadRetry_enabled u;
     finishedText_format := finishedText_format u; finishedText_text := finishedText_text u;
     checkUpdates_checked := checkUpdates_checked u |}.

Definition set_progressBar_value (v : Z) (u : Ui) : Ui :=
  {| reportGroup_visible := reportGroup_visible u;
     uploadingGroup_visible := uploadingGroup_visible u;
     reportedGroup_visible := reportedGroup_visible u;
     rememberEmail_checked := rememberEmail_checked u; email_text := email_text u;
     email_focus := email_focus u; description_text := description_text u;
     captureLabel_visible := captureLabel_visible u;
     captureUpload_visible := captureUpload_visible u;
     captureUpload_checked := captureUpload_checked u;
     captureFilename_visible := captureFilename_visible u;
     captureFilename_text := captureFilename_text u;
     capturePreviewFrame_visible := capturePreviewFrame_visible u;
     capturePreview_pixmap := capturePreview_pixmap u;
     capturePreview_preserveAspectRatio := capturePreview_preserveAspectRatio u;
     reportText_format := reportText_format u; reportText_text := reportText_text u;
     progressBar_maximum := progressBar_maximum u; progressBar_value := v;
     progressText_text := progressText_text u; uploadRetry_enabled := uploadRetry_enabled u;
     finishedText_format := finishedText_format u; finishedText_text := finishedText_text u;
     checkUpdates_checked := checkUpdates_checked u |}.

Definition set_progressText_text (v : string) (u : Ui) : Ui :=
  {| reportGroup_visible := reportGroup_visible u;
     uploadingGroup_visible := uploadingGroup_visible u;
     reportedGroup_visible := reportedGroup_visible u;
     rememberEmail_checked := rememberEmail_checked u; email_text := email_text u;
     email_focus := email_focus u; description_text := description_text u;
     captureLabel_visible := captureLabel_visible u;
     captureUpload_visible := captureUpload_visible u;
     captureUpload_checked := captureUpload_checked u;
     captureFilename_visible := captureFilename_visible u;
     captureFilename_text := captureFilename_text u;
     capturePreviewFrame_visible := capturePreviewFrame_visible u;
     capturePreview_pixmap := capturePreview_pixmap u;
     capturePreview_preserveAspectRatio := capturePreview_preserveAspectRatio u;
     reportText_format := reportText_format u; reportText_text := reportText_text u;
     progressBar_maximum := progressBar_maximum u; progressBar_value := progressBar_value u;
     progressText_text := v; uploadRetry_enabled := uploadRetry_enabled u;
     finishedText_format := finishedText_format u; finishedText_text := finishedText_text u;
     checkUpdates_checked := checkUpdates_checked u |}.

Definition set_uploadRetry_enabled (v : bool) (u : Ui) : Ui :=
  {| reportGroup_visible := reportGroup_visible u;
     uploadingGroup_visible := uploadingGroup_visible u;
     reportedGroup_visible := reportedGroup_visible u;
     rememberEmail_checked := rememberEmail_checked u; email_text := email_text u;
     email_focus := email_focus u; description_text := description_text u;
     captureLabel_visible := captureLabel_visible u;
     captureUpload_visible := captureUpload_visible u;
     captureUpload_checked := captureUpload_checked u;
     captureFilename_visible := captureFilename_visible u;
     captureFilename_text := captureFilename_text u;
     capturePreviewFrame_visible := capturePreviewFrame_visible u;
     capturePreview_pixmap := capturePreview_pixmap u;
     capturePreview_preserveAspectRatio := capturePreview_preserveAspectRatio u;
     reportText_format := reportText_format u; reportText_text := reportText_text u;
     progressBar_maximum := progressBar_maximum u; progressBar_value := progressBar_value u;
     progressText_text := progressText_text u; uploadRetry_enabled := v;
     finishedText_format := finishedText_format u; finishedText_text := finishedText_text u;
     checkUpdates_checked := checkUpdates_checked u |}.

Definition set_finishedText_format (v : TextFormat) (u : Ui) : Ui :=
  {| reportGroup_visible := reportGroup_visible u;
     uploadingGroup_visible := uploadingGroup_visible u;
     reportedGroup_visible := reportedGroup_visible u;
     rememberEmail_checked := rememberEmail_checked u; email_text := email_text u;
     email_focus := email_focus u; description_text := description_text u;
     captureLabel_visible := captureLabel_visible u;
     captureUpload_visible := captureUpload_visible u;
     captureUpload_checked := captureUpload_checked u;
     captureFilename_visible := captureFilename_visible u;
     captureFilename_text := captureFilename_text u;
     capturePreviewFrame_visible := capturePreviewFrame_visible u;
     capturePreview_pixmap := capturePreview_pixmap u;
     capturePreview_preserveAspectRatio := capturePreview_preserveAspectRatio u;
     reportText_format := reportText_format u; reportText_text := reportText_text u;
     progressBar_maximum := progressBar_maximum u; progressBar_value := progressBar_value u;
     progressText_text := progressText_text u; uploadRetry_enabled := uploadRetry_enabled u;
     finishedText_format := v; finishedText_text := finishedText_text u;
     checkUpdates_checked := checkUpdates_checked u |}.

Definition set_finishedText_text (v : string) (u : Ui) : Ui :=
  {| reportGroup_visible := reportGroup_visible u;
     uploadingGroup_visible := uploadingGroup_visible u;
     reportedGroup_visible := reportedGroup_visible u;
     rememberEmail_checked := rememberEmail_checked u; email_text := email_text u;
     email_focus := email_focus u; description_text := description_text u;
     captureLabel_visible := captureLabel_visible u;
     captureUpload_visible := captureUpload_visible u;
     captureUpload_checked := captureUpload_checked u;
     captureFilename_visible := captureFilename_visible u;
     captureFilename_text := captureFilename_text u;
     capturePreviewFrame_visible := capturePreviewFrame_visible u;
     capturePreview_pixmap := capturePreview_pixmap u;
     capturePreview_preserveAspectRatio := capturePreview_preserveAspectRatio u;
     reportText_format := reportText_format u; reportText_text := reportText_text u;
     progressBar_maximum := progressBar_maximum u; progressBar_value := progressBar_value u;
     progressText_text := progressText_text u; uploadRetry_enabled := uploadRetry_enabled u;
     finishedText_format := finishedText_format u; finishedText_text := v;
     checkUpdates_checked := checkUpdates_checked u |}.

Definition set_checkUpdates_checked (v : bool) (u : Ui) : Ui :=
  {| reportGroup_visible := reportGroup_visible u;
     uploadingGroup_visible := uploadingGroup_visible u;
     reportedGroup_visible := reportedGroup_visible u;
     rememberEmail_checked := rememberEmail_checked u; email_text := email_text u;
     email_focus := email_focus u; description_text := description_text u;
     captureLabel_visible := captureLabel_visible u;
     captureUpload_visible := captureUpload_visible u;
     captureUpload_checked := captureUpload_checked u;
     captureFilename_visible := captureFilename_visible u;
     captureFilename_text := captureFilename_text u;
     capturePreviewFrame_visible := capturePreviewFrame_visible u;
     capturePreview_pixmap := capturePreview_pixmap u;
     capturePreview_preserveAspectRatio := capturePreview_preserveAspectRatio u;
     reportText_format := reportText_format u; reportText_text := reportText_text u;
     progressBar_maximum := progressBar_maximum u; progressBar_value := progressBar_value u;
     progressText_text := progressText_text u; uploadRetry_enabled := uploadRetry_enabled u;
     finishedText_format := finishedText_format u; finishedText_text := finishedText_text u;
     checkUpdates_checked := v |}.

Definition set_ui (v : Ui) (d : CrashDialog) : CrashDialog :=
  {| ui := v; m_Config := m_Config d; saved := saved d; m_ReportPath := m_ReportPath d;
     m_ReportMetadata := m_ReportMetadata d; m_CaptureFilename := m_CaptureFilename d;
     m_Thumbnail := m_Thumbnail d; m_Stage := m_Stage d; m_Request := m_Request d;
     m_UploadTimer := m_UploadTimer d; m_ReportID := m_ReportID d; result := result d |}.

Definition set_m_Config (v : PersistantConfig) (d : CrashDialog) : CrashDialog :=
  {| ui := ui d; m_Config := v; saved := saved d; m_ReportPath := m_ReportPath d;
     m_ReportMetadata := m_ReportMetadata d; m_CaptureFilename := m_CaptureFilename d;
     m_Thumbnail := m_Thumbnail d; m_Stage := m_Stage d; m_Request := m_Request d;
     m_UploadTimer := m_UploadTimer d; m_ReportID := m_ReportID d; result := result d |}.

Definition set_saved (v : list PersistantConfig) (d : CrashDialog) : CrashDialog :=
  {| ui := ui d; m_Config := m_Config d; saved := v; m_ReportPath := m_ReportPath d;
     m_ReportMetadata := m_ReportMetadata d; m_CaptureFilename := m_CaptureFilename d;
     m_Thumbnail := m_Thumbnail d; m_Stage := m_Stage d; m_Request := m_Request d;
     m_UploadTimer := m_UploadTimer d; m_ReportID := m_ReportID d; result := result d |}.

Definition set_m_ReportPath (v : string) (d : CrashDialog) : CrashDialog :=
  {| ui := ui d; m_Config := m_Config d; saved := saved d; m_ReportPath := v;
     m_ReportMetadata := m_ReportMetadata d; m_CaptureFilename := m_CaptureFilename d;
     m_Thumbnail := m_Thumbnail d; m_Stage := m_Stage d; m_Request := m_Request d;
     m_UploadTimer := m_UploadTimer d; m_ReportID := m_ReportID d; result := result d |}.

Definition set_m_ReportMetadata (v : gmap string QVariant) (d : CrashDialog) : CrashDialog :=
  {| ui := ui d; m_Config := m_Config d; saved := saved d; m_ReportPath := m_ReportPath d;
     m_ReportMetadata := v; m_CaptureFilename := m_CaptureFilename d;
     m_Thumbnail := m_Thumbnail d; m_Stage := m_Stage d; m_Request := m_Request d;
     m_UploadTimer := m_UploadTimer d; m_ReportID := m_ReportID d; result := result d |}.

Definition set_m_CaptureFilename (v : string) (d : CrashDialog) : CrashDialog :=
  {| ui := ui d; m_Config := m_Config d; saved := saved d; m_ReportPath := m_ReportPath d;
     m_ReportMetadata := m_ReportMetadata d; m_CaptureFilename := v;
     m_Thumbnail := m_Thumbnail d; m_Stage := m_Stage d; m_Request := m_Request d;
     m_UploadTimer := m_UploadTimer d; m_ReportID := m_ReportID d; result := result d |}.

Definition set_m_Thumbnail (v : option Thumbnail) (d : CrashDialog) : CrashDialog :=
  {| ui := ui d; m_Config := m_Config d; saved := saved d; m_ReportPath := m_ReportPath d;
     m_ReportMetadata := m_ReportMetadata d; m_CaptureFilename := m_CaptureFilename d;
     m_Thumbnail := v; m_Stage := m_Stage d; m_Request := m_Request d;
     m_UploadTimer := m_UploadTimer d; m_ReportID := m_ReportID d; result := result d |}.

Definition set_m_Stage (v : ReportStage) (d : CrashDialog) : CrashDialog :=
  {| ui := ui d; m_Config := m_Config d; saved := saved d; m_ReportPath := m_ReportPath d;
     m_ReportMetadata := m_ReportMetadata d; m_CaptureFilename := m_CaptureFilename d;
     m_Thumbnail := m_Thumbnail d; m_Stage := v; m_Request := m_Request d;
     m_UploadTimer := m_UploadTimer d; m_ReportID := m_ReportID d; result := result d |}.

Definition set_m_Request (v : option QNetworkReply) (d : CrashDialog) : CrashDialog :=
  {| ui := ui d; m_Config := m_Config d; saved := saved d; m_ReportPath := m_ReportPath d;
     m_ReportMetadata := m_ReportMetadata d; m_CaptureFilename := m_CaptureFilename d;
     m_Thumbnail := m_Thumbnail d; m_Stage := m_Stage d; m_Request := v;
     m_UploadTimer := m_UploadTimer d; m_ReportID := m_ReportID d; result := result d |}.

Definition set_m_UploadTimer (v : bool) (d : CrashDialog) : CrashDialog :=
  {| ui := ui d; m_Config := m_Config d; saved := saved d; m_ReportPath := m_ReportPath d;
     m_ReportMetadata := m_ReportMetadata d; m_CaptureFilename := m_CaptureFilename d;
     m_Thumbnail := m_Thumbnail d; m_Stage := m_Stage d; m_Request := m_Request d;
     m_UploadTimer := v; m_ReportID := m_ReportID d; result := result d |}.

Definition set_m_ReportID (v : string) (d : CrashDialog) : CrashDialog :=
  {| ui := ui d; m_Config := m_Config d; saved := saved d; m_ReportPath := m_ReportPath d;
     m_ReportMetadata := m_ReportMetadata d; m_CaptureFilename := m_CaptureFilename d;
     m_Thumbnail := m_Thumbnail d; m_Stage := m_Stage d; m_Request := m_Request d;
     m_UploadTimer := m_UploadTimer d; m_ReportID := v; result := result d |}.

Definition set_result (v : option DialogCode) (d : CrashDialog) : CrashDialog :=
  {| ui := ui d; m_Config := m_Config d; saved := saved d; m_ReportPath := m_ReportPath d;
     m_ReportMetadata := m_ReportMetadata d; m_CaptureFilename := m_CaptureFilename d;
     m_Thumbnail := m_Thumbnail d; m_Stage := m_Stage d; m_Request := m_Request d;
     m_UploadTimer := m_UploadTimer d; m_ReportID := m_ReportID d; result := v |}.

Definition on_ui (f : Ui -> Ui) (d : CrashDialog) : CrashDialog :=
  set_ui (f (ui d)) d.

(** [m_Config.Save()] *)
Definition Save (d : CrashDialog) : CrashDialog :=
  set_saved (m_Config d :: saved d) d.

Definition on_config (f : PersistantConfig -> PersistantConfig) (d : CrashDialog)
  : CrashDialog :=
  set_m_Config (f (m_Config d)) d.

(** [QDialog::accept()] and [QDialog::reject()] *)
Definition accept (d : CrashDialog) : CrashDialog := set_result (Some Accepted) d.
Definition reject (d : CrashDialog) : CrashDialog := set_result (Some Rejected) d.

(** Modelled from the spec: the container of the persisted bug reports is
    declared outside this file. Its [push_back] appends at the end, [count]
    is the number of entries and [erase(offs)] removes the entry at that
    index (index 0 is the oldest entry), doing nothing past the end. *)
Definition push_back {A} (x : A) (l : list A) : list A := (l ++ [x])%list.
Definition count {A} (l : list A) : Z := Z.of_nat (length l).
Definition erase {A} (offs : nat) (l : list A) : list A := delete offs l.

(** What the dialog takes from outside this file: the endpoint macro
    [BUGREPORT_URL] and [BugReport::URL()], declared in headers that are not
    part of the sources, and from Qt the text of a local file's URL and
    [QString::number(double, 'f', precision)]. *)
Class Externals := {
  BUGREPORT_URL : string;
  BugReport_URL : BugReport -> string;
  QUrl_fromLocalFile : string -> string;
  number_f : Double.double -> nat -> string
}.

Section Dialog.

Context `{Externals}.

(** [QString::arg(double a, 0, 'f', precision)] *)
Definition arg_double (a : Double.double) (precision : nat) (s : string)
  : string :=
  arg (number_f a precision) s.

(** *** [CrashDialog::setStage] *)
Definition setStage (stage : ReportStage) (d : CrashDialog) : CrashDialog :=
  let d := set_m_Stage stage d in
  match stage with
  | FillingDetails =>
      on_ui (set_reportedGroup_visible false)
        (on_ui (set_uploadingGroup_visible false)
           (on_ui (set_reportGroup_visible true) d))
  | Uploading =>
      on_ui (set_reportedGroup_visible false)
        (on_ui (set_uploadingGroup_visible true)
           (on_ui (set_reportGroup_visible false) d))
  | Reported =>
      on_ui (set_reportedGroup_visible true)
        (on_ui (set_uploadingGroup_visible false)
           (on_ui (set_reportGroup_visible false) d))
  end.

(** *** The constructor *)

Definition reportText_html (reportPath : string) : string :=
  tr ("<p>RenderDoc encountered a serious problem. Please take a moment to look over this "
      ++ "form and send it off so that RenderDoc can get better!</p>")
  ++ arg (QUrl_fromLocalFile reportPath)
       (tr ("<p>The contents of the report can be found <a href=" ++ dquote ++ "%1"
            ++ dquote ++ ">in this zip</a> which "
            ++ "you can edit/censor if you wish.</p>"))
  ++ tr ("<p>More information about <a href=" ++ dquote ++ BUGREPORT_URL ++ dquote
         ++ ">the bug "
         ++ "reporter</a> and <a href=" ++ dquote ++ BUGREPORT_URL
         ++ "/privacy" ++ dquote ++ ">privacy statement</a> "
         ++ "for submissions.").

(** [setupUi] is the state of the widgets as the generated form code
    leaves them. The pointer members start null and the strings empty.
    [operator[]] on the descriptor inserts a default value under a missing
    key, which for ["report"] happens before the copy into
    [m_ReportMetadata]. *)
Definition CrashDialog_new (w : World) (setupUi : Ui) (cfg : PersistantConfig)
    (crashReportJSON : gmap string QVariant) : CrashDialog :=
  let reportPath := toString (value_at crashReportJSON "report") in
  let crashReportJSON :=
    <["report" := value_at crashReportJSON "report"]> crashReportJSON in
  let metadata := crashReportJSON in
  let replayCrash :=
    negb (toUInt (value_at crashReportJSON "replaycrash") =? 0) in
  let metadata := delete "replaycrash" (delete "report" metadata) in
  let d :=
    {| ui := setupUi; m_Config := cfg; saved := [];
       m_ReportPath := reportPath; m_ReportMetadata := metadata;
       m_CaptureFilename := ""; m_Thumbnail := None;
       m_Stage := FillingDetails; m_Request := None; m_UploadTimer := false;
       m_ReportID := ""; result := None |} in
  let d := setStage FillingDetails d in
  let d := set_m_CaptureFilename (CrashReport_LastOpenedCapture (m_Config d)) d in
  let d :=
    on_ui (set_rememberEmail_checked
             (CrashReport_ShouldRememberEmail (m_Config d))) d in
  let d := on_ui (set_email_text (CrashReport_EmailAddress (m_Config d))) d in
  let capInfo := m_CaptureFilename d in
  let d :=
    if replayCrash && QFileInfo_exists w capInfo then
      let d := on_ui (set_captureFilename_text (QFileInfo_fileName w capInfo)) d in
      let d := on_ui (set_capturePreviewFrame_visible false) d in
      let cap := QFileInfo_absoluteFilePath w capInfo in
      match OpenFile w cap with
      | Succeeded =>
          let thumb := GetThumbnail w cap Raw 320 in
          if negb (QImage_isNull w thumb) then
            let d := on_ui (set_capturePreview_pixmap (Some thumb)) d in
            let d := on_ui (set_capturePreview_preserveAspectRatio true) d in
            let d := on_ui (set_capturePreviewFrame_visible true) d in
            set_m_Thumbnail (Some (GetThumbnail w cap JPG 0)) d
          else d
      | UnknownError => d
      end
    else
      let d := set_m_CaptureFilename "" d in
      let d := on_ui (set_captureLabel_visible false) d in
      let d := on_ui (set_captureUpload_visible false) d in
      let d := on_ui (set_captureFilename_visible false) d in
      on_ui (set_capturePreviewFrame_visible false) d in
  let d := on_ui (set_reportText_format RichText) d in
  on_ui (set_reportText_text (reportText_html (m_ReportPath d))) d.

(** *** [CrashDialog::sendReport]: the multipart body *)

Definition metadata_part (m : gmap string QVariant) (key : string) : QHttpPart :=
  {| ContentTypeHeader := None;
     ContentDispositionHeader :=
       arg key ("form-data; name=" ++ dquote ++ "%1" ++ dquote);
     part_body := Body (toString (value_at m key)) |}.

Definition email_part (email : string) : QHttpPart :=
  {| ContentTypeHeader := None;
     ContentDispositionHeader := "form-data; name=" ++ dquote ++ "email" ++ dquote;
     part_body := Body email |}.

Definition description_part (description : string) : QHttpPart :=
  {| ContentTypeHeader := None;
     ContentDispositionHeader :=
       "form-data; name=" ++ dquote ++ "description" ++ dquote;
     part_body := Body description |}.

Definition capture_part (captureFilename : string) : QHttpPart :=
  {| ContentTypeHeader := Some "application/x-renderdoc-capture";
     ContentDispositionHeader :=
       "form-data; name=" ++ dquote ++ "capture" ++ dquote ++ "; filename="
       ++ dquote ++ "capture.rdc" ++ dquote;
     part_body := BodyDevice captureFilename |}.

Definition thumb_part (thumbnail : Thumbnail) : QHttpPart :=
  {| ContentTypeHeader := Some "image/jpeg";
     ContentDispositionHeader :=
       "form-data; name=" ++ dquote ++ "thumb" ++ dquote ++ "; filename="
       ++ dquote ++ "thumb.jpg" ++ dquote;
     part_body := Body (thumb_data thumbnail) |}.

Definition report_part (reportPath : string) : QHttpPart :=
  {| ContentTypeHeader := Some "application/zip";
     ContentDispositionHeader :=
       "form-data; name=" ++ dquote ++ "report" ++ dquote ++ "; filename="
       ++ dquote ++ "report.zip" ++ dquote;
     part_body := BodyDevice reportPath |}.

(** Lines 240-322, one [append] after the other. *)
Definition multiPart (d : CrashDialog) : list QHttpPart :=
  let parts := [] in
  let parts :=
    foldl (fun parts key => push_back (metadata_part (m_ReportMetadata d) key) parts)
      parts (keys (m_ReportMetadata d)) in
  let email := email_text (ui d) in
  let description := description_text (ui d) in
  let parts :=
    if negb (isEmpty email) then push_back (email_part email) parts else parts in
  let parts :=
    if negb (isEmpty description) then push_back (description_part description) parts
    else parts in
  let parts :=
    if negb (isEmpty (m_CaptureFilename d)) && captureUpload_checked (ui d) then
      let parts := push_back (capture_part (m_CaptureFilename d)) parts in
      match m_Thumbnail d with
      | Some thumbnail => push_back (thumb_part thumbnail) parts
      | None => parts
      end
    else parts in
  push_back (report_part (m_ReportPath d)) parts.

Definition sendReport (d : CrashDialog) : CrashDialog :=
  let d := set_m_Request None d in
  let request := BUGREPORT_URL in
  let d :=
    set_m_Request
      (Some {| request_url := request; request_multiPart := multiPart d;
               reply_running := true |}) d in
  let d := on_ui (set_progressBar_maximum 10000) d in
  let d := on_ui (set_progressBar_value 0) d in
  let d :=
    on_ui (set_progressText_text
             (tr ("Uploading report..." ++ newline ++ "Calculating time remaining")))
      d in
  set_m_UploadTimer true d.

(** *** The callbacks connected to the reply *)

(** The [error] callback; [errorString] is [m_Request->errorString()]. *)
Definition reply_error (errorString : string) (d : CrashDialog) : CrashDialog :=
  let d := on_ui (set_progressBar_value 0) d in
  let d :=
    on_ui (set_progressText_text
             (arg errorString (tr ("Network error uploading:" ++ newline ++ "%1"))))
      d in
  on_ui (set_uploadRetry_enabled true) d.

Definition progressText_template : string :=
  "Uploading report..." ++ newline
  ++ "%1 MB / %2 MB. %3 remaining (%4 MB/s)".

(** The [uploadProgress] callback; [nsecsElapsed] is what
    [m_UploadTimer->nsecsElapsed()] returns. The result is [None] when a
    conversion from [double] to an integer type has no defined value. *)
Definition reply_uploadProgress (sent total nsecsElapsed : Z) (d : CrashDialog)
  : option CrashDialog :=
  if (0 <? total) && (sent <? total) then
    value ← Double.to_int
              (Double.mul Double.d10000
                 (Double.div (Double.of_int sent) (Double.of_int total)));
    let d := on_ui (set_progressBar_value value) d in
    let sentMB := Double.div (Double.of_int sent) Double.d1000000 in
    let totalMB := Double.div (Double.of_int total) Double.d1000000 in
    let secondsElapsed := Double.mul (Double.of_int nsecsElapsed) Double.d1e_9 in
    let speedMBS := Double.div sentMB secondsElapsed in
    secondsRemaining ← Double.to_qulonglong
                         (Double.div (Double.sub totalMB sentMB) speedMBS);
    if Double.gt secondsElapsed Double.d1 then
      Some (on_ui (set_progressText_text
                     (arg_double speedMBS 2
                        (arg (remainString secondsRemaining)
                           (arg_double totalMB 2
                              (arg_double sentMB 2 (tr progressText_template))))))
              d)
    else Some d
  else Some d.

Definition thanks_html : string :=
  "<p>Your report has been uploaded, thank you for your help!</p>".

Definition url_html : string :=
  "<p>The unique anonymous URL for your report is <a href=" ++ dquote ++ "%1"
  ++ dquote ++ ">%1</a>.</p>".

(** The [finished] callback; [readAll] is what [m_Request->readAll()]
    returns. *)
Definition reply_finished (readAll : QByteArray) (d : CrashDialog) : CrashDialog :=
  if uploadRetry_enabled (ui d) then d
  else
    let text := tr thanks_html in
    let d := set_m_ReportID readAll d in
    let text :=
      if negb (isEmpty (m_ReportID d)) then
        let bug := {| ID := m_ReportID d; SubmitDate := None; CheckDate := None |} in
        let url := BugReport_URL bug in
        text ++ arg url (tr url_html)
      else text in
    let d := on_ui (set_finishedText_format RichText) d in
    let d := on_ui (set_finishedText_text text) d in
    setStage Reported d.

(** *** The slots *)

Definition is_Yes (b : StandardButton) : bool :=
  match b with Yes => true | _ => false end.

(** [captureAnswer] and [emailAnswer] are the answers to the two
    questions, each used only if its question is asked. *)
Definition on_send_clicked (captureAnswer emailAnswer : StandardButton)
    (d : CrashDialog) : CrashDialog :=
  if captureUpload_checked (ui d) && negb (is_Yes captureAnswer) then
    on_ui (set_captureUpload_checked false) d
  else
    let nag :=
      negb (CrashReport_EmailNagged (m_Config d)) && isEmpty (email_text (ui d)) in
    let d :=
      if nag then Save (on_config (set_CrashReport_EmailNagged true) d) else d in
    if nag && is_Yes emailAnswer then
      on_ui (set_email_focus true) d
    else
      let d :=
        on_config (set_CrashReport_ShouldRememberEmail
                     (rememberEmail_checked (ui d))) d in
      let d :=
        if rememberEmail_checked (ui d) && negb (isEmpty (email_text (ui d))) then
          on_config (set_CrashReport_EmailAddress (email_text (ui d))) d
        else d in
      let d := Save d in
      let d := sendReport d in
      setStage Uploading d.

Definition on_cancel_clicked (d : CrashDialog) : CrashDialog := reject d.

(** [QNetworkReply::abort()]: a reply that has not finished yet reports the
    cancellation through its [error] and [finished] signals before [abort]
    returns; [errorString] is the text of that error. *)
Definition abort (errorString : string) (d : CrashDialog) : CrashDialog :=
  match m_Request d with
  | Some r =>
      if reply_running r then
        let d :=
          set_m_Request
            (Some {| request_url := request_url r;
                     request_multiPart := request_multiPart r;
                     reply_running := false |}) d in
        reply_finished "" (reply_error errorString d)
      else d
  | None => d
  end.

Definition on_uploadCancel_clicked (answer : StandardButton) (errorString : string)
    (d : CrashDialog) : CrashDialog :=
  match answer with
  | Yes =>
      let d := abort errorString d in
      let d := set_m_Request None d in
      reject d
  | _ => d
  end.

Definition on_uploadRetry_clicked (d : CrashDialog) : CrashDialog :=
  let d := sendReport d in
  on_ui (set_uploadRetry_enabled false) d.

(** [now1] and [now2] are the two readings of the clock. *)
Definition on_buttonBox_accepted (now1 now2 : Z) (d : CrashDialog) : CrashDialog :=
  let d :=
    if negb (isEmpty (m_ReportID d)) && checkUpdates_checked (ui d) then
      let bug :=
        {| ID := m_ReportID d; SubmitDate := Some now1; CheckDate := Some now2 |} in
      let d :=
        on_config (fun c =>
                     set_CrashReport_ReportedBugs
                       (push_back bug (CrashReport_ReportedBugs c)) c) d in
      let d :=
        if 20 <? count (CrashReport_ReportedBugs (m_Config d)) then
          on_config (fun c =>
                       set_CrashReport_ReportedBugs
                         (erase 0 (CrashReport_ReportedBugs c)) c) d
        else d in
      Save d
    else d in
  accept d.

(** ** The event loop

    The dialog reacts to clicks and edits of the user and to the signals
    of the reply in flight, one event at a time. *)

Inductive UserEdit :=
| TypeEmail (text : string)
| TypeDescription (text : string)
| CheckRememberEmail (on : bool)
| CheckCaptureUpload (on : bool)
| CheckCheckUpdates (on : bool).

Inductive Event :=
| Edited (e : UserEdit)
| SendClicked (captureAnswer emailAnswer : StandardButton)
| CancelClicked
| UploadCancelClicked
| UploadCancelAnswered (answer : StandardButton) (errorString : string)
| UploadRetryClicked
| ReplyError (errorString : string)
| ReplyUploadProgress (sent total nsecsElapsed : Z)
| ReplyFinished (readAll : QByteArray)
| ButtonBoxAccepted (now1 now2 : Z).

(** The dialog together with the modal question of
    [on_uploadCancel_clicked], which keeps the user out of the dialog while
    the signals of the reply are still delivered. *)
Record Session := {
  dialog : CrashDialog;
  cancelQuestion : bool
}.

Definition apply_edit (e : UserEdit) (d : CrashDialog) : CrashDialog :=
  match e with
  | TypeEmail text => on_ui (set_email_text text) d
  | TypeDescription text => on_ui (set_description_text text) d
  | CheckRememberEmail on => on_ui (set_rememberEmail_checked on) d
  | CheckCaptureUpload on => on_ui (set_captureUpload_checked on) d
  | CheckCheckUpdates on => on_ui (set_checkUpdates_checked on) d
  end.

(** Modelled from the spec: the form (ui_CrashDialog.h) is not part of the
    sources. Its three panel groups belong to the three stages: the email
    and description fields, the remember and capture-upload boxes and the
    send and cancel buttons are in the report group; the progress bar, the
    status text and the retry and cancel-upload buttons in the uploading
    group; the finished text, the check-for-updates box and the button box
    in the reported group. A control takes input only while its group is
    shown (and, for a button, while it is enabled). *)
Definition edit_visible (e : UserEdit) (u : Ui) : bool :=
  match e with
  | TypeEmail _ | TypeDescription _ | CheckRememberEmail _ => reportGroup_visible u
  | CheckCaptureUpload _ => reportGroup_visible u && captureUpload_visible u
  | CheckCheckUpdates _ => reportedGroup_visible u
  end.

Definition is_open (d : CrashDialog) : bool :=
  match result d with None => true | Some _ => false end.

(** The reply delivers signals while it is allocated and has not
    finished. *)
Definition reply_live (d : CrashDialog) : bool :=
  match m_Request d with
  | Some r => reply_running r
  | None => false
  end.

Definition mark_finished (d : CrashDialog) : CrashDialog :=
  match m_Request d with
  | Some r =>
      set_m_Request
        (Some {| request_url := request_url r;
                 request_multiPart := request_multiPart r;
                 reply_running := false |}) d
  | None => d
  end.

Definition user (guard : bool) (s : Session) (d : CrashDialog) : option Session :=
  if is_open (dialog s) && negb (cancelQuestion s) && guard then
    Some {| dialog := d; cancelQuestion := false |}
  else None.

Definition network (s : Session) (d : option CrashDialog) : option Session :=
  if is_open (dialog s) && reply_live (dialog s) then
    d ← d; Some {| dialog := d; cancelQuestion := cancelQuestion s |}
  else None.

(** One event; [None] when the event cannot happen in this state or the
    callback has no defined result. *)
Definition step (s : Session) (ev : Event) : option Session :=
  let d := dialog s in
  match ev with
  | Edited e => user (edit_visible e (ui d)) s (apply_edit e d)
  | SendClicked a1 a2 => user (reportGroup_visible (ui d)) s (on_send_clicked a1 a2 d)
  | CancelClicked => user (reportGroup_visible (ui d)) s (on_cancel_clicked d)
  | UploadCancelClicked =>
      if is_open d && negb (cancelQuestion s) && uploadingGroup_visible (ui d) then
        Some {| dialog := d; cancelQuestion := true |}
      else None
  | UploadCancelAnswered answer errorString =>
      if is_open d && cancelQuestion s then
        Some {| dialog := on_uploadCancel_clicked answer errorString d;
                cancelQuestion := false |}
      else None
  | UploadRetryClicked =>
      user (uploadingGroup_visible (ui d) && uploadRetry_enabled (ui d)) s
        (on_uploadRetry_clicked d)
  | ReplyError errorString => network s (Some (reply_error errorString d))
  | ReplyUploadProgress sent total nsecsElapsed =>
      network s (reply_uploadProgress sent total nsecsElapsed d)
  | ReplyFinished readAll =>
      network s (Some (reply_finished readAll (mark_finished d)))
  | ButtonBoxAccepted now1 now2 =>
      user (reportedGroup_visible (ui d)) s (on_buttonBox_accepted now1 now2 d)
  end.

(** The steps a sequence of events takes: the state before, the event and
    the state after. The sequence stops at an event that cannot happen. *)
Fixpoint run (s : Session) (evs : list Event) : list (Session * Event * Session) :=
  match evs with
  | [] => []
  | ev :: evs' =>
      match step s ev with
      | Some s' => (s, ev, s') :: run s' evs'
      | None => []
      end
  end.

Definition start (w : World) (setupUi : Ui) (cfg : PersistantConfig)
    (crashReportJSON : gmap string QVariant) : Session :=
  {| dialog := CrashDialog_new w setupUi cfg crashReportJSON;
     cancelQuestion := false |}.

(** *** The order of the stages *)

Definition stage_eqb (a b : ReportStage) : bool :=
  match a, b with
  | FillingDetails, FillingDetails | Uploading, Uploading | Reported, Reported => true
  | _, _ => false
  end.

(** A stage is followed by itself or by the next one. *)
Definition stage_follows (a b : ReportStage) : bool :=
  match a, b with
  | FillingDetails, (FillingDetails | Uploading) => true
  | Uploading, (Uploading | Reported) => true
  | Reported, Reported => true
  | _, _ => false
  end.

(** A step is orderly when the stage stays or advances by one, and when a
    dialog in the Uploading stage is closed by it only through a Yes to the
    cancel question. *)
Definition orderly (t : Session * Event * Session) : Prop :=
  let '(s, ev, s') := t in
  stage_follows (m_Stage (dialog s)) (m_Stage (dialog s')) = true
  /\ (m_Stage (dialog s) = Uploading ->
      is_open (dialog s') = false ->
      exists errorString, ev = UploadCancelAnswered Yes errorString).

(** The stage and the visibility of the three groups. *)
Definition core (d : CrashDialog) : ReportStage * bool * bool * bool :=
  (m_Stage d, reportGroup_visible (ui d), uploadingGroup_visible (ui d),
   reportedGroup_visible (ui d)).

(** The group of the current stage, and no other, is shown, and no request
    exists while the details are being filled in. *)
Definition consistent (d : CrashDialog) : Prop :=
  reportGroup_visible (ui d) = stage_eqb (m_Stage d) FillingDetails
  /\ uploadingGroup_visible (ui d) = stage_eqb (m_Stage d) Uploading
  /\ reportedGroup_visible (ui d) = stage_eqb (m_Stage d) Reported
  /\ (m_Stage d = FillingDetails -> m_Request d = None).

(** What the constructor settles for the whole life of the dialog: the
    report, its metadata, the capture and its thumbnail. *)
Definition attachments (d : CrashDialog)
  : string * gmap string QVariant * string * option Thumbnail :=
  (m_ReportPath d, m_ReportMetadata d, m_CaptureFilename d, m_Thumbnail d).

(** The configuration in memory is the one last saved, or the one the
    dialog was given when nothing has been saved yet. *)
Definition in_step_with_disk (given : PersistantConfig) (d : CrashDialog) : Prop :=
  match saved d with
  | [] => m_Config d = given
  | last_saved :: _ => m_Config d = last_saved
  end.

(** A part that names a content type other than that of the zipped
    report: the capture or its thumbnail. *)
Definition is_attachment (part : QHttpPart) : bool :=
  match ContentTypeHeader part with
  | Some type => negb (String.eqb type "application/zip")
  | None => false
  end.

Definition attached (r : QNetworkReply) : list QHttpPart :=
  List.filter is_attachment (request_multiPart r).

(** A progress signal as the network layer sends it: a count of bytes that
    is not negative, of a total below 2^53 bytes. *)
Definition plausible (ev : Event) : Prop :=
  match ev with
  | ReplyUploadProgress sent total _ => 0 <= sent /\ total < 2 ^ 53
  | _ => True
  end.

End Dialog.

(** ** Sample data, used to run the dialog on concrete inputs *)

Module Sample.

Definition externals : Externals :=
  {| BUGREPORT_URL := "https://renderdoc.example/bugreporter";
     BugReport_URL := fun bug => "https://renderdoc.example/bugreporter/report/" ++ ID bug;
     QUrl_fromLocalFile := fun path => "file://" ++ path;
     number_f := Double.fixed |}.

Definition setupUi : Ui :=
  {| reportGroup_visible := true; uploadingGroup_visible := true;
     reportedGroup_visible := true;
     rememberEmail_checked := false; email_text := ""; email_focus := false;
     description_text := "";
     captureLabel_visible := true; captureUpload_visible := true;
     captureUpload_checked := false;
     captureFilename_visible := true; captureFilename_text := "";
     capturePreviewFrame_visible := true; capturePreview_pixmap := None;
     capturePreview_preserveAspectRatio := false;
     reportText_format := AutoText; reportText_text := "";
     progressBar_maximum := 100; progressBar_value := 0; progressText_text := "";
     uploadRetry_enabled := false;
     finishedText_format := AutoText; finishedText_text := "";
     checkUpdates_checked := true |}.

Definition config : PersistantConfig :=
  {| CrashReport_LastOpenedCapture := "/captures/last.rdc";
     CrashReport_ShouldRememberEmail := false;
     CrashReport_EmailAddress := "old@example.org";
     CrashReport_EmailNagged := true;
     CrashReport_ReportedBugs := [] |}.

Definition thumbnail : Thumbnail :=
  {| thumb_data := "JFIF"; thumb_width := 4; thumb_height := 3 |}.

(** A machine on which the last capture is still there and opens. *)
Definition world : World :=
  {| QFileInfo_exists := fun path => String.eqb path "/captures/last.rdc";
     QFileInfo_fileName := fun _ => "last.rdc";
     QFileInfo_absoluteFilePath := fun path => path;
     OpenFile := fun _ => Succeeded;
     GetThumbnail := fun _ _ _ => thumbnail;
     QImage_isNull := fun _ => false |}.

Definition variant (s : string) (n : Z) : QVariant :=
  {| toString := s; toUInt := n |}.

(** A descriptor of a crash in the replay, and one of a crash elsewhere. *)
Definition replayCrashJSON : gmap string QVariant :=
  <["report" := variant "/tmp/report.zip" 0]>
    (<["replaycrash" := variant "1" 1]>
       (<["version" := variant "v1.0" 0]> ∅)).

Definition otherCrashJSON : gmap string QVariant :=
  <["report" := variant "/tmp/report.zip" 0]>
    (<["replaycrash" := variant "0" 0]>
       (<["version" := variant "v1.0" 0]> ∅)).

Definition fresh : CrashDialog :=
  @CrashDialog_new externals world setupUi config replayCrashJSON.

Definition bug (n : Z) : BugReport :=
  {| ID := number n; SubmitDate := Some n; CheckDate := Some n |}.

(** A dialog whose upload succeeded with the given report ID, over a
    configuration that already lists [n] reports. *)
Definition reported (n : nat) (id : string) : CrashDialog :=
  let d := @on_send_clicked externals Yes No fresh in
  let d := @reply_finished externals id d in
  on_config (set_CrashReport_ReportedBugs (map bug (map Z.of_nat (seq 0 n)))) d.

(** The dialog after a click on send, with the upload under way. *)
Definition uploading : CrashDialog :=
  @on_send_clicked externals Yes No fresh.

(** A dialog in which the user asked for the capture to be uploaded. *)
Definition withCapture : CrashDialog :=
  on_ui (set_captureUpload_checked true) fresh.

(** A dialog in which the user typed an email and asked to remember it. *)
Definition withEmail : CrashDialog :=
  on_ui (set_rememberEmail_checked true)
    (on_ui (set_email_text "me@example.org") fresh).

(** A session with a failed upload, a retry and a successful one. *)
Definition events : list Event :=
  [Edited (TypeDescription "It crashed.");
   SendClicked Yes No;
   ReplyUploadProgress 1500000 10000000 2000000000;
   ReplyError "Connection closed";
   ReplyFinished "";
   UploadRetryClicked;
   UploadCancelClicked;
   UploadCancelAnswered No "";
   ReplyFinished "abc123";
   ButtonBoxAccepted 1 2].

(** A first-time user: no email stored and never asked for one. *)
Definition firstConfig : PersistantConfig :=
  {| CrashReport_LastOpenedCapture := "/captures/last.rdc";
     CrashReport_ShouldRememberEmail := false;
     CrashReport_EmailAddress := "";
     CrashReport_EmailNagged := false;
     CrashReport_ReportedBugs := [] |}.

Definition firstTime : CrashDialog :=
  @CrashDialog_new externals world setupUi firstConfig replayCrashJSON.

(** A machine on which the last capture is there but does not open. *)
Definition brokenWorld : World :=
  {| QFileInfo_exists := fun path => String.eqb path "/captures/last.rdc";
     QFileInfo_fileName := fun _ => "last.rdc";
     QFileInfo_absoluteFilePath := fun path => path;
     OpenFile := fun _ => UnknownError;
     GetThumbnail := fun _ _ _ => thumbnail;
     QImage_isNull := fun _ => false |}.

(** A descriptor with more metadata, and a dialog on it in which the user
    described the crash and asked for the capture to be uploaded. *)
Definition detailedJSON : gmap string QVariant :=
  <["os" := variant "Linux" 0]>
    (<["gpu" := variant "Radeon" 0]> replayCrashJSON).

Definition detailed : CrashDialog :=
  on_ui (set_description_text "It crashed.")
    (on_ui (set_captureUpload_checked true)
       (@CrashDialog_new externals world setupUi config detailedJSON)).

End Sample.

(** * Properties *)

(** ** Place markers and text without percent signs *)

Module QStrFacts.

Lemma app_cons (c : ascii) (a b : string) : String c a ++ b = String c (a ++ b).
Proof. reflexivity. Qed.

Lemma app_empty_l (b : string) : "" ++ b = b.
Proof. reflexivity. Qed.

Lemma append_empty_r (s : string) : s ++ "" = s.
Proof.
  induction s as [|c s IH]; [reflexivity|]. now rewrite app_cons, IH.
Qed.

Lemma append_assoc (a b c : string) : (a ++ b) ++ c = a ++ (b ++ c).
Proof.
  induction a as [|x a IH]; [reflexivity|]. now rewrite !app_cons, IH.
Qed.

Lemma of_chars_chars (s : string) : of_chars (chars s) = s.
Proof. induction s as [|c s IH]; simpl; [reflexivity | now rewrite IH]. Qed.

Lemma no_percent_app (a b : string) :
  no_percent (a ++ b) = no_percent a && no_percent b.
Proof.
  induction a as [|c a IH]; [reflexivity|].
  rewrite app_cons. simpl. rewrite IH. now rewrite andb_assoc.
Qed.

(** Scanning past text without a percent sign finds no marker in it. *)
Lemma escapes_app (h t : string) :
  no_percent h = true ->
  escapes (h ++ t) = (map PChar (chars h) ++ escapes t)%list.
Proof.
  induction h as [|c h IH]; intros Hh; [reflexivity|].
  simpl in Hh. apply andb_prop in Hh as [Hc Hh].
  rewrite app_cons. simpl. destruct (is_percent c); [discriminate|].
  now rewrite IH.
Qed.

Lemma min_escape_chars (l : list ascii) (ps : list piece) :
  min_escape (map PChar l ++ ps)%list = min_escape ps.
Proof. induction l as [|c l IH]; simpl; auto. Qed.

Lemma substitute_chars (n : nat) (a : string) (l : list ascii) (ps : list piece) :
  substitute n a (map PChar l ++ ps)%list = of_chars l ++ substitute n a ps.
Proof.
  induction l as [|c l IH]; simpl; [reflexivity|]. now rewrite IH, app_cons.
Qed.

(** [arg] leaves a prefix without percent signs alone. *)
Lemma arg_app (a h t : string) :
  no_percent h = true -> arg a (h ++ t) = h ++ arg a t.
Proof.
  intros Hh. unfold arg. rewrite (escapes_app h t Hh), min_escape_chars.
  destruct (min_escape (escapes t)); [|reflexivity].
  now rewrite substitute_chars, of_chars_chars.
Qed.

Lemma no_percent_fill (n : nat) (c : ascii) :
  is_percent c = false -> no_percent (fill n c) = true.
Proof. intros Hc. induction n as [|n IH]; simpl; [reflexivity | now rewrite Hc]. Qed.

Lemma no_percent_uint (d : Decimal.uint) :
  no_percent (NilEmpty.string_of_uint d) = true.
Proof. induction d; simpl; auto. Qed.

Lemma no_percent_number (a : Z) : no_percent (number a) = true.
Proof.
  unfold number, NilZero.string_of_uint.
  destruct (N.to_uint (Z.to_N a)) eqn:E; try reflexivity;
    rewrite <- E; apply no_percent_uint.
Qed.

Lemma no_percent_padLeft (w : nat) (c : ascii) (s : string) :
  is_percent c = false -> no_percent s = true -> no_percent (padLeft w c s) = true.
Proof.
  intros Hc Hs. unfold padLeft.
  now rewrite no_percent_app, no_percent_fill, Hs.
Qed.

(** A needle is found in any text built around it. *)
Lemma prefix_app (a b : string) : String.prefix a (a ++ b) = true.
Proof.
  induction a as [|c a IH]; [destruct b; reflexivity|].
  rewrite app_cons. simpl.
  destruct (ascii_dec c c); [assumption | contradiction].
Qed.

Lemma contains_app (needle a b : string) :
  contains needle (a ++ needle ++ b) = true.
Proof.
  induction a as [|c a IH].
  - rewrite app_empty_l.
    assert (Hc : forall hay, String.prefix needle hay = true ->
                             contains needle hay = true).
    { intros hay Hp. destruct hay as [|x hay].
      - change (contains needle "") with (String.prefix needle "" || false).
        now rewrite Hp.
      - change (contains needle (String x hay))
          with (String.prefix needle (String x hay) || contains needle hay).
        now rewrite Hp. }
    apply Hc, prefix_app.
  - rewrite app_cons.
    change (contains needle (String c (a ++ needle ++ b)))
      with (String.prefix needle (String c (a ++ needle ++ b))
            || contains needle (a ++ needle ++ b)).
    rewrite IH. apply orb_true_r.
Qed.

End QStrFacts.

Import QStrFacts.

(** ** The remaining-time string *)


Lemma no_percent_field (a : Z) : no_percent (padLeft 2 "0" (number a)) = true.
Proof. apply no_percent_padLeft; [reflexivity | apply no_percent_number]. Qed.

Lemma arg_hms (h m s : Z) :
  arg_num s 2 "0" (arg_num m 2 "0" (arg_num h 2 "0" "%1:%2:%3")) =
  padLeft 2 "0" (number h) ++ ":" ++ padLeft 2 "0" (number m) ++ ":"
  ++ padLeft 2 "0" (number s).
Proof.
  unfold arg_num.
  pose proof (no_percent_field h) as Hh. pose proof (no_percent_field m) as Hm.
  set (H := padLeft 2 "0" (number h)) in *.
  set (M := padLeft 2 "0" (number m)) in *.
  set (S := padLeft 2 "0" (number s)).
  change (arg H "%1:%2:%3") with (H ++ ":%2:%3").
  rewrite (arg_app M H) by assumption.
  change (arg M ":%2:%3") with (":" ++ M ++ ":%3").
  rewrite (arg_app S H) by assumption.
  rewrite (arg_app S ":") by reflexivity.
  rewrite (arg_app S M) by assumption.
  change (arg S ":%3") with (":" ++ S ++ "").
  now rewrite append_empty_r.
Qed.

Lemma arg_ms (m s : Z) :
  arg_num s 2 "0" (arg_num m 2 "0" "%1:%2") =
  padLeft 2 "0" (number m) ++ ":" ++ padLeft 2 "0" (number s).
Proof.
  unfold arg_num.
  pose proof (no_percent_field m) as Hm.
  set (M := padLeft 2 "0" (number m)) in *.
  set (S := padLeft 2 "0" (number s)).
  change (arg M "%1:%2") with (M ++ ":%2").
  rewrite (arg_app S M) by assumption.
  change (arg S ":%2") with (":" ++ S ++ "").
  now rewrite append_empty_r.
Qed.

Lemma arg_seconds (s : Z) :
  arg_num s 0 " " (tr "%1 seconds") = number s ++ " seconds".
Proof. reflexivity. Qed.

(** C1 (as amended). The remaining-time string is the hours, minutes and
    seconds separated by colons, every field padded with zeros to at least
    two digits, from one hour on; the minutes and seconds, padded the same
    way, from one minute on; and the number followed by " seconds" below one
    minute. So 11 seconds read "11 seconds", 125 seconds "02:05" and 3700
    seconds "01:01:40". *)
Theorem remainString_format (r : Z) (Hr : 0 <= r) :
  remainString r =
    (if 3600 <=? r then
       padLeft 2 "0" (number (r / 3600)) ++ ":"
       ++ padLeft 2 "0" (number ((r / 60) mod 60)) ++ ":"
       ++ padLeft 2 "0" (number (r mod 60))
     else if 60 <=? r then
       padLeft 2 "0" (number (r / 60)) ++ ":" ++ padLeft 2 "0" (number (r mod 60))
     else number r ++ " seconds")
  /\ remainString 11 = "11 seconds"
  /\ remainString 125 = "02:05"
  /\ remainString 3700 = "01:01:40".
Proof.
  split; [|repeat split; reflexivity].
  unfold remainString.
  destruct (Z.leb_spec 3600 r) as [Hh | Hh].
  - assert (0 < r / 3600) as ->%Z.ltb_lt
        by (apply Z.div_str_pos; lia).
    apply arg_hms.
  - assert (r / 3600 = 0) as -> by (apply Z.div_small; lia).
    change (0 <? 0) with false. cbv iota.
    assert (Hm : (r / 60) mod 60 = r / 60).
    { apply Z.mod_small. split; [apply Z.div_pos; lia|].
      apply Z.div_lt_upper_bound; lia. }
    rewrite Hm.
    destruct (Z.leb_spec 60 r) as [Hr60 | Hr60].
    + assert (0 < r / 60) as ->%Z.ltb_lt by (apply Z.div_str_pos; lia).
      apply arg_ms.
    + assert (r / 60 = 0) as -> by (apply Z.div_small; lia).
      change (0 <? 0) with false. cbv iota.
      rewrite (Z.mod_small r 60) by lia.
      apply arg_seconds.
Qed.

(** C1 as stated fails: 125 seconds are not shown as "2:05", nor 3700
    seconds as "1:01:40". *)
Lemma remainString_not_unpadded :
  remainString 125 <> "2:05" /\ remainString 3700 <> "1:01:40".
Proof. split; vm_compute; discriminate. Qed.

Lemma remainString_format_witness :
  0 <= 125 /\ remainString 125 = "02:05".
Proof.
  split; [lia|]. exact (proj1 (proj2 (proj2 (remainString_format 125 ltac:(lia))))).
Defined.

(** ** The list of reported bugs *)


Lemma count_push_back {A} (x : A) (l : list A) :
  count (push_back x l) = Z.of_nat (length l) + 1.
Proof. unfold count, push_back. rewrite length_app. simpl. lia. Qed.

(** Appending and then dropping the front entry of a list grown past 20. *)
Lemma capped_push_back {A} (x : A) (l : list A) :
  (if 20 <? count (push_back x l) then erase 0 (push_back x l) else push_back x l)
  = ((if (20 <=? length l)%nat then drop 1 l else l) ++ [x])%list.
Proof.
  rewrite count_push_back.
  destruct (Nat.leb_spec 20 (length l)) as [Hlen | Hlen].
  - assert ((20 <? Z.of_nat (length l) + 1) = true) as -> by (apply Z.ltb_lt; lia).
    destruct l as [|y l']; [simpl in Hlen; lia|].
    unfold push_back. simpl. now rewrite drop_0.
  - assert ((20 <? Z.of_nat (length l) + 1) = false) as -> by (apply Z.ltb_ge; lia).
    reflexivity.
Qed.

(** C2 (as amended). On acceptance with a report ID and the
    check-for-updates box checked, the new record is appended last; when the
    list then holds more than 20 entries the entry at index 0, and no other,
    is removed. A list that held at most 20 entries holds at most 20
    afterwards, and appending a 21st record leaves 20 entries with the new one
    last. The configuration is saved and the dialog accepted. *)
Theorem accepted_appends_report (now1 now2 : Z) (d : CrashDialog)
    (Hid : isEmpty (m_ReportID d) = false)
    (Hcheck : checkUpdates_checked (ui d) = true) :
  let old := CrashReport_ReportedBugs (m_Config d) in
  let bug := {| ID := m_ReportID d; SubmitDate := Some now1; CheckDate := Some now2 |} in
  let d' := on_buttonBox_accepted now1 now2 d in
  let new := CrashReport_ReportedBugs (m_Config d') in
  new = ((if (20 <=? length old)%nat then drop 1 old else old) ++ [bug])%list
  /\ last new = Some bug
  /\ ((length old <= 20)%nat -> (length new <= 20)%nat)
  /\ (length old = 20%nat -> length new = 20%nat /\ new = (drop 1 old ++ [bug])%list)
  /\ saved d' = m_Config d' :: saved d
  /\ result d' = Some Accepted.
Proof.
  intros old bug d' new.
  assert (Hnew : new = ((if (20 <=? length old)%nat then drop 1 old else old)
                          ++ [bug])%list).
  { etransitivity; [|apply capped_push_back].
    subst new d'. unfold on_buttonBox_accepted. rewrite Hid, Hcheck.
    match goal with |- context [20 <? ?x] => destruct (20 <? x) eqn:E end;
      simpl in E; fold old in E; fold bug in E; rewrite E; reflexivity. }
  split; [exact Hnew|]. split; [rewrite Hnew; apply last_snoc|].
  split; [|split; [|split]].
  - intros Hle. rewrite Hnew, length_app.
    destruct (Nat.leb_spec 20 (length old)); rewrite ?length_drop; simpl; lia.
  - intros Heq. rewrite Hnew, Heq. change (20 <=? 20)%nat with true. cbv iota.
    split; [|reflexivity].
    rewrite length_app, length_drop. simpl. lia.
  - subst d'. unfold on_buttonBox_accepted. rewrite Hid, Hcheck.
    match goal with |- context [20 <? ?x] => destruct (20 <? x) end; reflexivity.
  - subst d'. unfold on_buttonBox_accepted. rewrite Hid, Hcheck.
    match goal with |- context [20 <? ?x] => destruct (20 <? x) end; reflexivity.
Qed.

(** C2 as stated fails for a list that is already longer than 20: with 21
    records stored, acceptance leaves 21. *)
Lemma accepted_overfull_stays_overfull :
  let d := Sample.reported 21 "abc123" in
  isEmpty (m_ReportID d) = false
  /\ checkUpdates_checked (ui d) = true
  /\ ~ (length (CrashReport_ReportedBugs
                  (m_Config (on_buttonBox_accepted 1 2 d))) <= 20)%nat.
Proof.
  repeat split; try reflexivity.
  assert (length (CrashReport_ReportedBugs
                    (m_Config (on_buttonBox_accepted 1 2
                                 (Sample.reported 21 "abc123")))) = 21%nat) as ->
      by (vm_compute; reflexivity).
  lia.
Qed.

Lemma accepted_appends_report_witness :
  let d := Sample.reported 20 "abc123" in
  let d' := on_buttonBox_accepted 1 2 d in
  isEmpty (m_ReportID d) = false
  /\ checkUpdates_checked (ui d) = true
  /\ length (CrashReport_ReportedBugs (m_Config d)) = 20%nat
  /\ length (CrashReport_ReportedBugs (m_Config d')) = 20%nat
  /\ last (CrashReport_ReportedBugs (m_Config d'))
     = Some {| ID := "abc123"; SubmitDate := Some 1; CheckDate := Some 2 |}.
Proof.
  pose proof (accepted_appends_report 1 2 (Sample.reported 20 "abc123")
                eq_refl eq_refl) as (_ & Hlast & _ & H20 & _).
  split; [reflexivity|]. split; [reflexivity|]. split; [reflexivity|].
  split; [exact (proj1 (H20 eq_refl)) | exact Hlast].
Defined.

(** ** The arithmetic of the progress bar

    Rounding to 53 bits, followed through the conversion of the byte counts,
    their quotient and its product with [10000.0]. *)

Module DoubleFacts.

Import Double.

Lemma digits2_pos_log2 (m : positive) :
  Z.pos (digits2_pos m) = Z.log2 (Z.pos m) + 1.
Proof.
  induction m as [m IH | m IH |]; simpl digits2_pos.
  - rewrite Pos2Z.inj_succ, IH. 
    change (Z.pos m~1) with (2 * Z.pos m + 1).
    rewrite Z.log2_succ_double by lia. lia.
  - rewrite Pos2Z.inj_succ, IH.
    change (Z.pos m~0) with (2 * Z.pos m).
    rewrite Z.log2_double by lia. lia.
  - reflexivity.
Qed.

Lemma Zdigits2_log2 (m : Z) : 0 < m -> Zdigits2 m = Z.log2 m + 1.
Proof. destruct m; try lia. intros _. apply digits2_pos_log2. Qed.

Lemma shr_1_m (mrs : shr_record) :
  0 <= shr_m mrs -> shr_m (shr_1 mrs) = shr_m mrs / 2.
Proof.
  destruct mrs as [m r s]. simpl. intros Hm.
  destruct m as [|p|p]; try lia; [reflexivity|].
  destruct p as [p|p|]; simpl.
  - change (Z.pos p~1) with (2 * Z.pos p + 1).
    apply Z.div_unique with 1; lia.
  - change (Z.pos p~0) with (2 * Z.pos p).
    apply Z.div_unique with 0; lia.
  - reflexivity.
Qed.

Lemma pow2_xO (p : positive) : 2 ^ Z.pos p~0 = 2 ^ Z.pos p * 2 ^ Z.pos p.
Proof.
  change (Z.pos p~0) with (2 * Z.pos p).
  replace (2 * Z.pos p) with (Z.pos p + Z.pos p) by lia.
  apply Z.pow_add_r; lia.
Qed.

Lemma pow2_xI (p : positive) : 2 ^ Z.pos p~1 = 2 * (2 ^ Z.pos p * 2 ^ Z.pos p).
Proof.
  change (Z.pos p~1) with (2 * Z.pos p + 1).
  replace (2 * Z.pos p + 1) with (1 + Z.pos p~0) by lia.
  rewrite Z.pow_add_r by lia. now rewrite pow2_xO.
Qed.

Lemma iter_pos_shr_m (p : positive) (mrs : shr_record) :
  0 <= shr_m mrs ->
  shr_m (SpecFloat.iter_pos shr_1 p mrs) = shr_m mrs / 2 ^ Z.pos p.
Proof.
  revert mrs. induction p as [p IH | p IH |]; intros mrs Hm; simpl SpecFloat.iter_pos.
  - assert (H1 : 0 <= shr_m (shr_1 mrs)) by (rewrite shr_1_m by lia; apply Z.div_pos; lia).
    assert (H2 : 0 <= shr_m (SpecFloat.iter_pos shr_1 p (shr_1 mrs)))
      by (rewrite IH by lia; apply Z.div_pos; lia).
    rewrite IH, IH, shr_1_m by lia.
    rewrite !Z.div_div by lia. now rewrite pow2_xI.
  - assert (H2 : 0 <= shr_m (SpecFloat.iter_pos shr_1 p mrs))
      by (rewrite IH by lia; apply Z.div_pos; lia).
    rewrite IH, IH by lia.
    rewrite !Z.div_div by lia. now rewrite pow2_xO.
  - rewrite shr_1_m by lia. reflexivity.
Qed.


Lemma fexp_normal (e : Z) : fexp prec emax e = Z.max (e - 53) (-1074).
Proof. reflexivity. Qed.

Lemma shr_spec (mrs : shr_record) (e n : Z) :
  0 <= shr_m mrs ->
  shr_m (fst (shr mrs e n)) = shr_m mrs / 2 ^ Z.max 0 n
  /\ snd (shr mrs e n) = e + Z.max 0 n.
Proof.
  intros Hm. destruct n as [|p|p]; simpl.
  - rewrite Z.div_1_r. split; [reflexivity | lia].
  - rewrite iter_pos_shr_m by lia. split; reflexivity.
  - rewrite Z.div_1_r. split; [reflexivity | lia].
Qed.

Lemma round_nearest_even_bounds (m : Z) (l : location) :
  m <= round_nearest_even m l <= m + 1.
Proof.
  destruct l as [|[| |]]; simpl; try lia.
  destruct (Z.even m); lia.
Qed.

Lemma shr_record_of_loc_m (m : Z) (l : location) : shr_m (shr_record_of_loc m l) = m.
Proof. destruct l as [|[| |]]; reflexivity. Qed.

Lemma pow2_le_self (m n : Z) : 0 < m -> n <= Z.log2 m -> 2 ^ n <= m.
Proof.
  intros Hm Hn. destruct (Z.le_gt_cases 0 n) as [H0 | H0].
  - apply Z.le_trans with (2 ^ Z.log2 m).
    + apply Z.pow_le_mono_r; lia.
    + apply Z.log2_spec; lia.
  - rewrite Z.pow_neg_r by lia. lia.
Qed.

(** Rounding to 53 bits never passes a multiple of the unit in the last
    place that lies above the mantissa. *)
Lemma binary_round_aux_upper (mx ex : Z) (lx : location) (C : Z) :
  0 < mx -> -1074 <= ex ->
  let n := Z.max 0 (Zdigits2 mx - 53) in
  ex + n + 1 <= 971 ->
  mx < C * 2 ^ n ->
  exists m e,
    binary_round_aux prec emax false mx ex lx = S754_finite false m e
    /\ ex + n <= e /\ Z.pos m * 2 ^ (e - (ex + n)) <= C.
Proof.
  intros Hmx Hex n Hover HC.
  assert (Hd : Zdigits2 mx = Z.log2 mx + 1) by (apply Zdigits2_log2; lia).
  assert (Hlog : 0 <= Z.log2 mx) by apply Z.log2_nonneg.
  assert (Hn : Z.max 0 (fexp prec emax (Zdigits2 mx + ex) - ex) = n).
  { rewrite fexp_normal. unfold n. lia. }
  unfold binary_round_aux, shr_fexp.
  destruct (shr (shr_record_of_loc mx lx) ex
              (fexp prec emax (Zdigits2 mx + ex) - ex)) as [mrs1 e1] eqn:E1.
  pose proof (shr_spec (shr_record_of_loc mx lx) ex
                (fexp prec emax (Zdigits2 mx + ex) - ex)) as [Hm1 He1];
    [rewrite shr_record_of_loc_m; lia|].
  rewrite E1, shr_record_of_loc_m, Hn in Hm1. rewrite E1, Hn in He1.
  simpl in Hm1, He1.
  set (m0 := mx / 2 ^ n) in *.
  assert (Hm0 : 1 <= m0 < C).
  { unfold m0. split.
    - apply Z.div_le_lower_bound; [apply Z.pow_pos_nonneg; unfold n; lia|].
      rewrite Z.mul_1_r. apply pow2_le_self; [lia | unfold n; lia].
    - apply Z.div_lt_upper_bound; [apply Z.pow_pos_nonneg; unfold n; lia | lia]. }
  assert (Hm0' : m0 < 2 ^ 53).
  { unfold m0. apply Z.div_lt_upper_bound; [apply Z.pow_pos_nonneg; unfold n; lia|].
    rewrite <- Z.pow_add_r by (unfold n; lia).
    apply Z.lt_le_trans with (2 ^ (Z.succ (Z.log2 mx))); [apply Z.log2_spec; lia|].
    apply Z.pow_le_mono_r; unfold n; lia. }
  set (m1 := round_nearest_even (shr_m mrs1) (loc_of_shr_record mrs1)).
  assert (Hm1b : m0 <= m1 <= m0 + 1)
    by (unfold m1; rewrite Hm1; apply round_nearest_even_bounds).
  assert (Hd1 : Zdigits2 m1 = Z.log2 m1 + 1) by (apply Zdigits2_log2; lia).
  assert (Hlog1 : 0 <= Z.log2 m1 <= 53).
  { split; [apply Z.log2_nonneg|].
    assert (m1 <= 2 ^ 53) by lia.
    apply Z.log2_le_mono in H. rewrite Z.log2_pow2 in H; lia. }
  set (n2 := Z.max 0 (Zdigits2 m1 - 53)).
  assert (Hn2 : fexp prec emax (Zdigits2 m1 + e1) - e1 <= n2
                /\ Z.max 0 (fexp prec emax (Zdigits2 m1 + e1) - e1) = n2).
  { rewrite fexp_normal. unfold n2. lia. }
  destruct (shr (shr_record_of_loc m1 loc_Exact) e1
              (fexp prec emax (Zdigits2 m1 + e1) - e1)) as [mrs2 e2] eqn:E2.
  pose proof (shr_spec (shr_record_of_loc m1 loc_Exact) e1
                (fexp prec emax (Zdigits2 m1 + e1) - e1)) as [Hm2 He2];
    [simpl; lia|].
  rewrite E2 in Hm2, He2. simpl in Hm2, He2.
  destruct Hn2 as [_ Hn2]. rewrite Hn2 in Hm2, He2.
  assert (Hpow : 0 < 2 ^ n2) by (apply Z.pow_pos_nonneg; unfold n2; lia).
  assert (Hm2b : 1 <= shr_m mrs2 /\ shr_m mrs2 * 2 ^ n2 <= m1).
  { rewrite Hm2. split.
    - apply Z.div_le_lower_bound; [lia|]. rewrite Z.mul_1_r.
      apply pow2_le_self; [lia | unfold n2; lia].
    - rewrite Z.mul_comm. apply Z.mul_div_le. lia. }
  destruct (shr_m mrs2) as [|m2|m2] eqn:Em2; try lia.
  assert ((e2 <=? emax - prec) = true) as ->.
  { apply Z.leb_le. change (emax - prec) with 971. unfold n2 in *. lia. }
  exists m2, e2. split; [reflexivity|]. split; [lia|].
  replace (e2 - (ex + n)) with n2 by lia. lia.
Qed.

Lemma iter_xO (p k : positive) : Z.pos (Pos.iter xO p k) = Z.pos p * 2 ^ Z.pos k.
Proof.
  induction k as [|k IH] using Pos.peano_ind.
  - simpl. lia.
  - rewrite Pos.iter_succ, Pos2Z.inj_succ, Z.pow_succ_r by lia.
    change (Z.pos (Pos.iter xO p k)~0) with (2 * Z.pos (Pos.iter xO p k)).
    rewrite IH. ring.
Qed.

(** A mantissa of 53 bits is not rounded. *)
Lemma binary_round_aux_exact (m : positive) (e : Z) :
  Zdigits2 (Z.pos m) = 53 -> -1074 <= e <= 971 ->
  binary_round_aux prec emax false (Z.pos m) e loc_Exact = S754_finite false m e.
Proof.
  intros Hd He. unfold binary_round_aux, shr_fexp.
  rewrite Hd, fexp_normal.
  replace (Z.max (53 + e - 53) (-1074) - e) with 0 by lia.
  simpl shr. cbv beta iota. simpl loc_of_shr_record. simpl round_nearest_even.
  rewrite Hd, fexp_normal.
  replace (Z.max (53 + e - 53) (-1074) - e) with 0 by lia.
  cbn [shr shr_record_of_loc shr_m fst snd].
  assert ((e <=? emax - prec) = true) as -> by (apply Z.leb_le; change (emax - prec) with 971; lia).
  reflexivity.
Qed.

(** An integer below 2^53 converts to a double of the same value, with a
    mantissa of 53 bits. *)
Lemma of_int_exact (z : Z) :
  0 < z < 2 ^ 53 ->
  exists m e,
    of_int z = S754_finite false m e
    /\ Zdigits2 (Z.pos m) = 53 /\ -52 <= e <= 0 /\ Z.pos m = z * 2 ^ (- e).
Proof.
  intros [Hz Hlt]. destruct z as [|p|p]; try lia.
  assert (Hd : Z.pos (digits2_pos p) = Z.log2 (Z.pos p) + 1) by apply digits2_pos_log2.
  assert (Hlog : 0 <= Z.log2 (Z.pos p) < 53).
  { split; [apply Z.log2_nonneg|]. apply Z.log2_lt_pow2; lia. }
  unfold of_int, binary_normalize, binary_round, shl_align.
  rewrite Z.add_0_r, fexp_normal, Z.sub_0_r.
  set (d := Z.pos (digits2_pos p)) in *.
  replace (Z.max (d - 53) (-1074)) with (d - 53) by lia.
  destruct (d - 53) as [|k|k] eqn:Ek; try lia.
  - (* already 53 bits *)
    exists p, 0. split; [apply binary_round_aux_exact; simpl; lia|].
    split; [simpl; lia|]. split; [lia|]. simpl. lia.
  - exists (Pos.iter xO p k), (Z.neg k).
    assert (Hval : Z.pos (Pos.iter xO p k) = Z.pos p * 2 ^ Z.pos k) by apply iter_xO.
    assert (Hdig : Zdigits2 (Z.pos (Pos.iter xO p k)) = 53).
    { rewrite Zdigits2_log2 by lia. rewrite Hval.
      rewrite Z.log2_mul_pow2 by lia. lia. }
    split; [apply binary_round_aux_exact; [exact Hdig | lia]|].
    split; [exact Hdig|]. split; [lia|]. exact Hval.
Qed.

Lemma digits_53 (m : positive) :
  Zdigits2 (Z.pos m) = 53 -> 2 ^ 52 <= Z.pos m < 2 ^ 53.
Proof.
  rewrite Zdigits2_log2 by lia. intros Hd.
  assert (Hl : Z.log2 (Z.pos m) = 52) by lia.
  pose proof (Z.log2_spec (Z.pos m) ltac:(lia)) as Hs. rewrite Hl in Hs.
  exact Hs.
Qed.

Lemma digits_le (m k : Z) : 0 < m -> 0 <= k -> m < 2 ^ k -> Zdigits2 m <= k.
Proof.
  intros Hm Hk Hlt. rewrite Zdigits2_log2 by lia.
  assert (Z.log2 m < k) by (apply Z.log2_lt_pow2; lia). lia.
Qed.

(** The quotient of two 53-bit mantissas before it is rounded. *)
Lemma SFdiv_core_binary_53 (m1 m2 : positive) (e1 e2 : Z) :
  Zdigits2 (Z.pos m1) = 53 -> Zdigits2 (Z.pos m2) = 53 ->
  -52 <= e1 <= 0 -> -52 <= e2 <= 0 ->
  exists l,
    SFdiv_core_binary prec emax (Z.pos m1) e1 (Z.pos m2) e2
    = (Z.pos m1 * 2 ^ 53 / Z.pos m2, e1 - e2 - 53, l).
Proof.
  intros Hd1 Hd2 He1 He2. unfold SFdiv_core_binary.
  rewrite Hd1, Hd2, fexp_normal.
  replace (Z.min (Z.max (53 + e1 - (53 + e2) - 53) (-1074)) (e1 - e2))
    with (e1 - e2 - 53) by lia.
  replace (e1 - e2 - (e1 - e2 - 53)) with 53 by lia.
  cbv iota. rewrite Z.shiftl_mul_pow2 by lia.
  unfold Z.div.
  destruct (Z.div_eucl (Z.pos m1 * 2 ^ 53) (Z.pos m2)) as [q r].
  eexists. reflexivity.
Qed.

(** The quotient of two integers below 2^53, the smaller by the larger, is
    a double below one. *)
Lemma div_below_one (s t : Z) :
  0 < s -> s < t -> t < 2 ^ 53 ->
  exists m e,
    div (of_int s) (of_int t) = S754_finite false m e
    /\ -105 <= e < 0 /\ Z.pos m < 2 ^ (- e).
Proof.
  intros Hs Hst Ht.
  destruct (of_int_exact s) as (m1 & e1 & Hx & Hd1 & He1 & Hv1); [lia|].
  destruct (of_int_exact t) as (m2 & e2 & Hy & Hd2 & He2 & Hv2); [lia|].
  pose proof (digits_53 m1 Hd1) as Hb1. pose proof (digits_53 m2 Hd2) as Hb2.
  assert (H12 : e1 <= e2).
  { destruct (Z.le_gt_cases e1 e2) as [Hle | Hgt]; [exact Hle|]. exfalso.
    assert (Hp : 2 ^ (- e2) = 2 ^ (- e1) * 2 ^ (e1 - e2)).
    { rewrite <- Z.pow_add_r by lia. f_equal; lia. }
    assert (2 <= 2 ^ (e1 - e2)).
    { change 2 with (2 ^ 1) at 1. apply Z.pow_le_mono_r; lia. }
    assert (0 < 2 ^ (- e1)) by (apply Z.pow_pos_nonneg; lia).
    nia. }
  unfold div, SFdiv. rewrite Hx, Hy.
  destruct (SFdiv_core_binary_53 m1 m2 e1 e2 Hd1 Hd2 He1 He2) as [l ->].
  set (Q := Z.pos m1 * 2 ^ 53 / Z.pos m2).
  assert (Hpe : 0 < 2 ^ (e2 - e1)) by (apply Z.pow_pos_nonneg; lia).
  assert (HQ : 2 ^ 52 <= Q < (2 ^ 53 - 1) * 2 ^ (e2 - e1)).
  { unfold Q. split.
    - apply Z.div_le_lower_bound; [lia|]. nia.
    - apply Z.div_lt_upper_bound; [lia|].
      assert (Hp1 : 2 ^ (- e1) = 2 ^ (e2 - e1) * 2 ^ (- e2)).
      { rewrite <- Z.pow_add_r by lia. f_equal; lia. }
      assert (0 < 2 ^ (- e2)) by (apply Z.pow_pos_nonneg; lia).
      rewrite Hv1, Hv2, Hp1.
      assert (s * 2 ^ 53 < (2 ^ 53 - 1) * t) by lia.
      nia. }
  set (n := Z.max 0 (Zdigits2 Q - 53)).
  assert (Hn : 0 <= n <= e2 - e1).
  { unfold n. split; [lia|].
    assert (Zdigits2 Q <= 53 + (e2 - e1)).
    { apply digits_le; [lia | lia|].
      rewrite Z.pow_add_r by lia. nia. }
    lia. }
  destruct (binary_round_aux_upper Q (e1 - e2 - 53) l
              ((2 ^ 53 - 1) * 2 ^ (e2 - e1 - n)))
    as (m & e & Hr & He & Hm).
  - lia.
  - lia.
  - fold n. lia.
  - fold n. rewrite <- Z.mul_assoc, <- Z.pow_add_r by lia.
    replace (e2 - e1 - n + n) with (e2 - e1) by lia. lia.
  - fold n in He, Hm. exists m, e. split; [exact Hr|].
    assert (Hlt : Z.pos m * 2 ^ (e - (e1 - e2 - 53 + n)) < 2 ^ 53 * 2 ^ (e2 - e1 - n)).
    { assert (0 < 2 ^ (e2 - e1 - n)) by (apply Z.pow_pos_nonneg; lia). nia. }
    rewrite <- Z.pow_add_r in Hlt by lia.
    replace (53 + (e2 - e1 - n)) with (- (e1 - e2 - 53 + n)) in Hlt by lia.
    set (g := e1 - e2 - 53 + n) in *.
    assert (He0 : e < 0).
    { destruct (Z.lt_ge_cases e 0) as [Hneg | Hpos]; [exact Hneg|]. exfalso.
      assert (2 ^ (- g) <= 2 ^ (e - g)) by (apply Z.pow_le_mono_r; lia).
      assert (0 < 2 ^ (e - g)) by (apply Z.pow_pos_nonneg; lia).
      nia. }
    split; [unfold g in *; lia|].
    assert (Hsplit : 2 ^ (- g) = 2 ^ (e - g) * 2 ^ (- e)).
    { rewrite <- Z.pow_add_r by lia. f_equal; lia. }
    rewrite Hsplit in Hlt.
    assert (0 < 2 ^ (e - g)) by (apply Z.pow_pos_nonneg; lia).
    nia.
Qed.

Lemma d10000_value : d10000 = S754_finite false 5497558138880000 (-39).
Proof. vm_compute. reflexivity. Qed.

(** Ten thousand times a double below one is at most ten thousand, and so
    is its integer part. *)
Lemma to_int_mul_d10000 (m : positive) (e : Z) :
  -105 <= e < 0 -> Z.pos m < 2 ^ (- e) ->
  exists value,
    to_int (mul d10000 (S754_finite false m e)) = Some value
    /\ 0 <= value <= 10000.
Proof.
  intros He Hm. rewrite d10000_value. unfold mul, SFmul. cbn [xorb].
  set (M := Z.pos (5497558138880000 * m)).
  assert (HM : M = 10000 * 2 ^ 39 * Z.pos m) by (unfold M; rewrite Pos2Z.inj_mul; reflexivity).
  assert (Hpe : 0 < 2 ^ (- e)) by (apply Z.pow_pos_nonneg; lia).
  assert (HMlt : M < 10000 * 2 ^ 39 * 2 ^ (- e)) by (rewrite HM; nia).
  set (n := Z.max 0 (Zdigits2 M - 53)).
  assert (Hn : 0 <= n <= - e).
  { unfold n. split; [lia|].
    assert (Zdigits2 M <= 53 - e).
    { apply digits_le; [lia | lia|].
      replace (53 - e) with (14 + 39 + - e) by lia.
      rewrite !Z.pow_add_r by lia.
      assert (0 < 2 ^ 39 * 2 ^ (- e)) by lia.
      change (2 ^ 14) with 16384. nia. }
    lia. }
  set (g := -39 + e + n).
  destruct (binary_round_aux_upper M (-39 + e) loc_Exact (10000 * 2 ^ (- g)))
    as (mp & ep & Hr & Hep & Hmp).
  - lia.
  - lia.
  - fold n. lia.
  - fold n. rewrite <- Z.mul_assoc, <- Z.pow_add_r by (unfold g; lia).
    replace (- g + n) with (39 + - e) by (unfold g; lia).
    rewrite Z.pow_add_r by lia. lia.
  - fold n in Hep, Hmp. fold g in Hep, Hmp. rewrite Hr.
    assert (Hg : g <= -39) by (unfold g; lia).
    assert (Hpg : 0 < 2 ^ (ep - g)) by (apply Z.pow_pos_nonneg; lia).
    unfold to_int, to_range, truncate.
    destruct (Z.leb_spec 0 ep) as [Hpos | Hneg].
    + assert (Hv : Z.pos mp * 2 ^ ep <= 10000).
      { assert (Hs : 2 ^ (ep - g) = 2 ^ ep * 2 ^ (- g)).
        { rewrite <- Z.pow_add_r by lia. f_equal; lia. }
        assert (0 < 2 ^ (- g)) by (apply Z.pow_pos_nonneg; lia).
        assert (0 < 2 ^ ep) by (apply Z.pow_pos_nonneg; lia).
        rewrite Hs in Hmp. nia. }
      assert (0 < 2 ^ ep) by (apply Z.pow_pos_nonneg; lia).
      exists (Z.pos mp * 2 ^ ep).
      assert ((- 2 ^ 31 <=? Z.pos mp * 2 ^ ep) && (Z.pos mp * 2 ^ ep <? 2 ^ 31) = true)
        as ->.
      { apply andb_true_intro. split; [apply Z.leb_le | apply Z.ltb_lt]; lia. }
      split; [reflexivity | lia].
    + assert (Hv : Z.pos mp / 2 ^ (- ep) <= 10000).
      { assert (Hs : 2 ^ (- g) = 2 ^ (ep - g) * 2 ^ (- ep)).
        { rewrite <- Z.pow_add_r by lia. f_equal; lia. }
        assert (0 < 2 ^ (- ep)) by (apply Z.pow_pos_nonneg; lia).
        rewrite Hs in Hmp.
        apply Z.div_le_upper_bound; [lia|]. nia. }
      assert (H0 : 0 <= Z.pos mp / 2 ^ (- ep)).
      { apply Z.div_pos; [lia | apply Z.pow_pos_nonneg; lia]. }
      exists (Z.pos mp / 2 ^ (- ep)).
      assert ((- 2 ^ 31 <=? Z.pos mp / 2 ^ (- ep))
              && (Z.pos mp / 2 ^ (- ep) <? 2 ^ 31) = true) as ->.
      { apply andb_true_intro. split; [apply Z.leb_le | apply Z.ltb_lt]; lia. }
      split; [reflexivity | lia].
Qed.

(** The value given to the progress bar is defined and lies between 0 and
    10000 for every upload of less than 2^53 bytes. *)
Lemma bar_value_in_range (sent total : Z) :
  0 < sent -> sent < total -> total < 2 ^ 53 ->
  exists value,
    to_int (mul d10000 (div (of_int sent) (of_int total))) = Some value
    /\ 0 <= value <= 10000.
Proof.
  intros Hs Hst Ht.
  destruct (div_below_one sent total Hs Hst Ht) as (m & e & -> & He & Hm).
  now apply to_int_mul_d10000.
Qed.

End DoubleFacts.

(** ** The progress bar below its maximum *)

Module DoubleNearest.

Import Double DoubleFacts.

Lemma shr_1_r (mrs : shr_record) :
  0 <= shr_m mrs -> shr_r (shr_1 mrs) = Z.odd (shr_m mrs).
Proof.
  destruct mrs as [m r s]. simpl. intros Hm.
  destruct m as [|p|p]; try lia; [reflexivity|].
  destruct p; reflexivity.
Qed.

Lemma testbit_div_pow2 (m a b : Z) :
  0 <= a -> 0 <= b -> Z.testbit (m / 2 ^ a) b = Z.testbit m (b + a).
Proof. intros Ha Hb. rewrite <- Z.shiftr_div_pow2 by lia. apply Z.shiftr_spec. lia. Qed.

Lemma iter_pos_shr_r (p : positive) (mrs : shr_record) :
  0 <= shr_m mrs ->
  shr_r (SpecFloat.iter_pos shr_1 p mrs) = Z.testbit (shr_m mrs) (Z.pos p - 1).
Proof.
  revert mrs. induction p as [p IH | p IH |]; intros mrs Hm; simpl SpecFloat.iter_pos.
  - assert (H1 : 0 <= shr_m (shr_1 mrs)) by (rewrite shr_1_m by lia; apply Z.div_pos; lia).
    assert (H2 : 0 <= shr_m (SpecFloat.iter_pos shr_1 p (shr_1 mrs)))
      by (rewrite iter_pos_shr_m by lia; apply Z.div_pos; lia).
    rewrite IH, iter_pos_shr_m, shr_1_m by lia.
    rewrite Z.div_div by lia.
    replace (2 * 2 ^ Z.pos p) with (2 ^ (Z.pos p + 1)) by (rewrite Z.pow_add_r; lia).
    rewrite testbit_div_pow2 by lia. f_equal. lia.
  - assert (H2 : 0 <= shr_m (SpecFloat.iter_pos shr_1 p mrs))
      by (rewrite iter_pos_shr_m by lia; apply Z.div_pos; lia).
    rewrite IH, iter_pos_shr_m by lia.
    rewrite testbit_div_pow2 by lia. f_equal. lia.
  - rewrite shr_1_r by lia. now rewrite Z.bit0_odd.
Qed.

(** The round bit after a shift is the highest bit shifted out. *)
Lemma shr_r_spec (mrs : shr_record) (e n : Z) :
  0 <= shr_m mrs -> 0 < n ->
  shr_r (fst (shr mrs e n)) = Z.testbit (shr_m mrs) (n - 1).
Proof.
  intros Hm Hn. destruct n as [|p|p]; try lia. simpl.
  now apply iter_pos_shr_r.
Qed.

Lemma round_nearest_even_low (mrs : shr_record) :
  shr_r mrs = false ->
  round_nearest_even (shr_m mrs) (loc_of_shr_record mrs) = shr_m mrs.
Proof. destruct mrs as [m r s]. simpl. intros ->. now destruct s. Qed.

(** A remainder below half a unit has its highest bit clear. *)
Lemma testbit_low (mx n c : Z) :
  0 < n -> 0 <= mx -> c * 2 ^ n <= mx -> 2 * mx < (2 * c + 1) * 2 ^ n ->
  Z.testbit mx (n - 1) = false.
Proof.
  intros Hn Hmx Hlo Hhi. apply Z.testbit_false; [lia|].
  assert (Hp : 2 ^ n = 2 * 2 ^ (n - 1)).
  { replace n with (1 + (n - 1)) at 1 by lia. rewrite Z.pow_add_r by lia. reflexivity. }
  assert (Hpos : 0 < 2 ^ (n - 1)) by (apply Z.pow_pos_nonneg; lia).
  assert (Hq : mx / 2 ^ (n - 1) = 2 * c).
  { symmetry. apply Z.div_unique with (mx - 2 * c * 2 ^ (n - 1)); [|lia].
    left. nia. }
  rewrite Hq. now rewrite Z.mul_comm, Z.mod_mul.
Qed.

(** Rounding to 53 bits goes down from a mantissa that is below the middle
    of two neighbouring multiples of the unit in the last place. *)
Lemma binary_round_aux_nearest (mx ex : Z) (C : Z) :
  0 < mx -> -1074 <= ex ->
  let n := Z.max 0 (Zdigits2 mx - 53) in
  ex + n + 1 <= 971 ->
  2 * mx < (2 * C - 1) * 2 ^ n ->
  exists m e,
    binary_round_aux prec emax false mx ex loc_Exact = S754_finite false m e
    /\ ex + n <= e /\ Z.pos m * 2 ^ (e - (ex + n)) <= C - 1.
Proof.
  intros Hmx Hex n Hover HC.
  assert (Hd : Zdigits2 mx = Z.log2 mx + 1) by (apply Zdigits2_log2; lia).
  assert (Hlog : 0 <= Z.log2 mx) by apply Z.log2_nonneg.
  assert (Hn0 : 0 <= n) by (unfold n; lia).
  assert (Hpn : 0 < 2 ^ n) by (apply Z.pow_pos_nonneg; lia).
  assert (Hn : Z.max 0 (fexp prec emax (Zdigits2 mx + ex) - ex) = n).
  { rewrite fexp_normal. unfold n. lia. }
  assert (Hraw : 0 < n -> fexp prec emax (Zdigits2 mx + ex) - ex = n).
  { rewrite fexp_normal. unfold n. lia. }
  assert (Hraw0 : n = 0 -> fexp prec emax (Zdigits2 mx + ex) - ex <= 0).
  { rewrite fexp_normal. unfold n. lia. }
  unfold binary_round_aux, shr_fexp.
  destruct (shr (shr_record_of_loc mx loc_Exact) ex
              (fexp prec emax (Zdigits2 mx + ex) - ex)) as [mrs1 e1] eqn:E1.
  pose proof (shr_spec (shr_record_of_loc mx loc_Exact) ex
                (fexp prec emax (Zdigits2 mx + ex) - ex)) as [Hm1 He1];
    [simpl; lia|].
  rewrite E1, Hn in Hm1. rewrite E1, Hn in He1.
  simpl in Hm1, He1.
  set (m0 := mx / 2 ^ n) in *.
  assert (Hm0 : 1 <= m0 <= C - 1).
  { unfold m0. split.
    - apply Z.div_le_lower_bound; [lia|].
      rewrite Z.mul_1_r. apply pow2_le_self; [lia | unfold n; lia].
    - assert (mx / 2 ^ n < C); [|lia].
      apply Z.div_lt_upper_bound; [lia | nia]. }
  assert (Hm0' : m0 < 2 ^ 53).
  { unfold m0. apply Z.div_lt_upper_bound; [lia|].
    rewrite <- Z.pow_add_r by lia.
    apply Z.lt_le_trans with (2 ^ (Z.succ (Z.log2 mx))); [apply Z.log2_spec; lia|].
    apply Z.pow_le_mono_r; unfold n; lia. }
  set (m1 := round_nearest_even (shr_m mrs1) (loc_of_shr_record mrs1)).
  assert (Hm1b : m0 <= m1 <= C - 1).
  { assert (Hb : m0 <= m1 <= m0 + 1)
      by (unfold m1; rewrite Hm1; apply round_nearest_even_bounds).
    destruct (Z.eq_dec m0 (C - 1)) as [Htop | Hlow]; [|lia].
    assert (m1 = m0); [|lia].
    unfold m1. rewrite <- Hm1. apply round_nearest_even_low.
    destruct (Z.eq_dec n 0) as [Hz | Hnz].
    - specialize (Hraw0 Hz).
      assert (Hsame : mrs1 = shr_record_of_loc mx loc_Exact).
      { revert E1. destruct (fexp prec emax (Zdigits2 mx + ex) - ex); try lia;
          simpl; congruence. }
      rewrite Hsame. reflexivity.
    - assert (Hr : shr_r mrs1 = Z.testbit mx (n - 1)).
      { pose proof (shr_r_spec (shr_record_of_loc mx loc_Exact) ex
                      (fexp prec emax (Zdigits2 mx + ex) - ex)) as Hr.
        rewrite E1, Hraw in Hr by lia. simpl in Hr. apply Hr; lia. }
      rewrite Hr. apply (testbit_low mx n (C - 1)); [lia | lia | |lia].
      rewrite <- Htop. unfold m0. rewrite Z.mul_comm. apply Z.mul_div_le. lia. }
  assert (Hd1 : Zdigits2 m1 = Z.log2 m1 + 1) by (apply Zdigits2_log2; lia).
  assert (Hlog1 : 0 <= Z.log2 m1 <= 53).
  { split; [apply Z.log2_nonneg|].
    assert (Hb : m0 <= m1 <= m0 + 1)
      by (unfold m1; rewrite Hm1; apply round_nearest_even_bounds).
    assert (Hle : m1 <= 2 ^ 53) by lia.
    apply Z.log2_le_mono in Hle. rewrite Z.log2_pow2 in Hle; lia. }
  set (n2 := Z.max 0 (Zdigits2 m1 - 53)).
  assert (Hn2 : Z.max 0 (fexp prec emax (Zdigits2 m1 + e1) - e1) = n2).
  { rewrite fexp_normal. unfold n2. lia. }
  destruct (shr (shr_record_of_loc m1 loc_Exact) e1
              (fexp prec emax (Zdigits2 m1 + e1) - e1)) as [mrs2 e2] eqn:E2.
  pose proof (shr_spec (shr_record_of_loc m1 loc_Exact) e1
                (fexp prec emax (Zdigits2 m1 + e1) - e1)) as [Hm2 He2];
    [simpl; lia|].
  rewrite E2 in Hm2, He2. simpl in Hm2, He2.
  rewrite Hn2 in Hm2, He2.
  assert (Hpow : 0 < 2 ^ n2) by (apply Z.pow_pos_nonneg; unfold n2; lia).
  assert (Hm2b : 1 <= shr_m mrs2 /\ shr_m mrs2 * 2 ^ n2 <= m1).
  { rewrite Hm2. split.
    - apply Z.div_le_lower_bound; [lia|]. rewrite Z.mul_1_r.
      apply pow2_le_self; [lia | unfold n2; lia].
    - rewrite Z.mul_comm. apply Z.mul_div_le. lia. }
  destruct (shr_m mrs2) as [|m2|m2] eqn:Em2; try lia.
  assert ((e2 <=? emax - prec) = true) as ->.
  { apply Z.leb_le. change (emax - prec) with 971. unfold n2 in *. lia. }
  exists m2, e2. split; [reflexivity|]. split; [lia|].
  replace (e2 - (ex + n)) with n2 by lia. lia.
Qed.

End DoubleNearest.

Module BarFacts.

Import Double DoubleFacts DoubleNearest.

(** The quotient of two integers below 2^53, the smaller by the larger, is
    a double that is at most 1 - 2^-53. *)
Lemma div_below_one_ulp (s t : Z) :
  0 < s -> s < t -> t < 2 ^ 53 ->
  exists m e,
    div (of_int s) (of_int t) = S754_finite false m e
    /\ -105 <= e < 0 /\ Z.pos m * 2 ^ 53 <= (2 ^ 53 - 1) * 2 ^ (- e).
Proof.
  intros Hs Hst Ht.
  destruct (of_int_exact s) as (m1 & e1 & Hx & Hd1 & He1 & Hv1); [lia|].
  destruct (of_int_exact t) as (m2 & e2 & Hy & Hd2 & He2 & Hv2); [lia|].
  pose proof (digits_53 m1 Hd1) as Hb1. pose proof (digits_53 m2 Hd2) as Hb2.
  assert (H12 : e1 <= e2).
  { destruct (Z.le_gt_cases e1 e2) as [Hle | Hgt]; [exact Hle|]. exfalso.
    assert (Hp : 2 ^ (- e2) = 2 ^ (- e1) * 2 ^ (e1 - e2)).
    { rewrite <- Z.pow_add_r by lia. f_equal; lia. }
    assert (2 <= 2 ^ (e1 - e2)).
    { change 2 with (2 ^ 1) at 1. apply Z.pow_le_mono_r; lia. }
    assert (0 < 2 ^ (- e1)) by (apply Z.pow_pos_nonneg; lia).
    nia. }
  unfold div, SFdiv. rewrite Hx, Hy.
  destruct (SFdiv_core_binary_53 m1 m2 e1 e2 Hd1 Hd2 He1 He2) as [l ->].
  set (Q := Z.pos m1 * 2 ^ 53 / Z.pos m2).
  assert (Hpe : 0 < 2 ^ (e2 - e1)) by (apply Z.pow_pos_nonneg; lia).
  assert (HQ : 2 ^ 52 <= Q < (2 ^ 53 - 1) * 2 ^ (e2 - e1)).
  { unfold Q. split.
    - apply Z.div_le_lower_bound; [lia|]. nia.
    - apply Z.div_lt_upper_bound; [lia|].
      assert (Hp1 : 2 ^ (- e1) = 2 ^ (e2 - e1) * 2 ^ (- e2)).
      { rewrite <- Z.pow_add_r by lia. f_equal; lia. }
      assert (0 < 2 ^ (- e2)) by (apply Z.pow_pos_nonneg; lia).
      rewrite Hv1, Hv2, Hp1.
      assert (s * 2 ^ 53 < (2 ^ 53 - 1) * t) by lia.
      nia. }
  set (n := Z.max 0 (Zdigits2 Q - 53)).
  assert (Hn : 0 <= n <= e2 - e1).
  { unfold n. split; [lia|].
    assert (Zdigits2 Q <= 53 + (e2 - e1)).
    { apply digits_le; [lia | lia|].
      rewrite Z.pow_add_r by lia. nia. }
    lia. }
  destruct (binary_round_aux_upper Q (e1 - e2 - 53) l
              ((2 ^ 53 - 1) * 2 ^ (e2 - e1 - n)))
    as (m & e & Hr & He & Hm).
  - lia.
  - lia.
  - fold n. lia.
  - fold n. rewrite <- Z.mul_assoc, <- Z.pow_add_r by lia.
    replace (e2 - e1 - n + n) with (e2 - e1) by lia. lia.
  - fold n in He, Hm. exists m, e. split; [exact Hr|].
    set (g := e1 - e2 - 53 + n) in *.
    replace (e2 - e1 - n) with (- g - 53) in Hm by (unfold g; lia).
    assert (Hg53 : 0 <= - g - 53) by (unfold g; lia).
    assert (Hpg : 0 < 2 ^ (- g - 53)) by (apply Z.pow_pos_nonneg; lia).
    assert (Hpeg : 0 < 2 ^ (e - g)) by (apply Z.pow_pos_nonneg; lia).
    assert (Hgs : 2 ^ (- g) = 2 ^ (- g - 53) * 2 ^ 53).
    { rewrite <- Z.pow_add_r by lia. f_equal; lia. }
    assert (He0 : e < 0).
    { destruct (Z.lt_ge_cases e 0) as [Hneg | Hpos]; [exact Hneg|]. exfalso.
      assert (2 ^ (- g) <= 2 ^ (e - g)) by (apply Z.pow_le_mono_r; lia).
      nia. }
    split; [unfold g in *; lia|].
    assert (Hsplit : 2 ^ (- g) = 2 ^ (e - g) * 2 ^ (- e)).
    { rewrite <- Z.pow_add_r by lia. f_equal; lia. }
    assert (Hpe' : 0 < 2 ^ (- e)) by (apply Z.pow_pos_nonneg; lia).
    assert (Hmul : Z.pos m * 2 ^ (e - g) * 2 ^ 53 <= (2 ^ 53 - 1) * (2 ^ (e - g) * 2 ^ (- e))).
    { rewrite <- Hsplit, Hgs. nia. }
    apply Z.mul_le_mono_pos_l with (2 ^ (e - g)); [lia|]. lia.
Qed.

(** Ten thousand times a double that is at most 1 - 2^-53 rounds to a
    double below ten thousand, so that its integer part is at most 9999. *)
Lemma to_int_mul_d10000_below (m : positive) (e : Z) :
  -105 <= e < 0 -> Z.pos m * 2 ^ 53 <= (2 ^ 53 - 1) * 2 ^ (- e) ->
  exists value,
    to_int (mul d10000 (S754_finite false m e)) = Some value
    /\ 0 <= value <= 9999.
Proof.
  intros He Hm. rewrite d10000_value. unfold mul, SFmul. cbn [xorb].
  set (M := Z.pos (5497558138880000 * m)).
  assert (HM : M = 10000 * 2 ^ 39 * Z.pos m) by (unfold M; rewrite Pos2Z.inj_mul; reflexivity).
  assert (Hpe : 0 < 2 ^ (- e)) by (apply Z.pow_pos_nonneg; lia).
  assert (Hm' : Z.pos m < 2 ^ (- e)) by lia.
  assert (HMlt : M < 10000 * 2 ^ 39 * 2 ^ (- e)) by (rewrite HM; nia).
  set (n := Z.max 0 (Zdigits2 M - 53)).
  assert (Hn : 0 <= n <= - e).
  { unfold n. split; [lia|].
    assert (Zdigits2 M <= 53 - e).
    { apply digits_le; [lia | lia|].
      replace (53 - e) with (14 + 39 + - e) by lia.
      rewrite !Z.pow_add_r by lia.
      assert (0 < 2 ^ 39 * 2 ^ (- e)) by lia.
      change (2 ^ 14) with 16384. nia. }
    lia. }
  set (g := -39 + e + n).
  assert (Hpn : 0 < 2 ^ n) by (apply Z.pow_pos_nonneg; lia).
  assert (Hne : 2 ^ n <= 2 ^ (- e)) by (apply Z.pow_le_mono_r; lia).
  assert (Hgn : 2 ^ (- g) * 2 ^ n = 2 ^ 39 * 2 ^ (- e)).
  { rewrite <- !Z.pow_add_r by (unfold g; lia). f_equal. unfold g. lia. }
  destruct (binary_round_aux_nearest M (-39 + e) (10000 * 2 ^ (- g)))
    as (mp & ep & Hr & Hep & Hmp).
  - lia.
  - lia.
  - fold n. lia.
  - fold n.
    assert (H53 : 2 * M * 2 ^ 53 < (2 * (10000 * 2 ^ (- g)) - 1) * 2 ^ n * 2 ^ 53).
    { replace ((2 * (10000 * 2 ^ (- g)) - 1) * 2 ^ n)
        with (20000 * (2 ^ (- g) * 2 ^ n) - 2 ^ n) by ring.
      rewrite Hgn, HM. change (2 ^ 39) with 549755813888 in *.
      change (2 ^ 53) with 9007199254740992 in *. nia. }
    change (2 ^ 53) with 9007199254740992 in H53. lia.
  - fold n in Hep, Hmp. fold g in Hep, Hmp. rewrite Hr.
    assert (Hg : g <= -39) by (unfold g; lia).
    assert (Hpg : 0 < 2 ^ (ep - g)) by (apply Z.pow_pos_nonneg; lia).
    unfold to_int, to_range, truncate.
    destruct (Z.leb_spec 0 ep) as [Hpos | Hneg].
    + assert (Hv : Z.pos mp * 2 ^ ep <= 9999).
      { assert (Hs : 2 ^ (ep - g) = 2 ^ ep * 2 ^ (- g)).
        { rewrite <- Z.pow_add_r by lia. f_equal; lia. }
        assert (0 < 2 ^ (- g)) by (apply Z.pow_pos_nonneg; lia).
        assert (0 < 2 ^ ep) by (apply Z.pow_pos_nonneg; lia).
        rewrite Hs in Hmp. nia. }
      assert (0 < 2 ^ ep) by (apply Z.pow_pos_nonneg; lia).
      exists (Z.pos mp * 2 ^ ep).
      assert ((- 2 ^ 31 <=? Z.pos mp * 2 ^ ep) && (Z.pos mp * 2 ^ ep <? 2 ^ 31) = true)
        as ->.
      { apply andb_true_intro. split; [apply Z.leb_le | apply Z.ltb_lt]; lia. }
      split; [reflexivity | lia].
    + assert (Hv : Z.pos mp / 2 ^ (- ep) <= 9999).
      { assert (Hs : 2 ^ (- g) = 2 ^ (ep - g) * 2 ^ (- ep)).
        { rewrite <- Z.pow_add_r by lia. f_equal; lia. }
        assert (0 < 2 ^ (- ep)) by (apply Z.pow_pos_nonneg; lia).
        rewrite Hs in Hmp.
        assert (Z.pos mp / 2 ^ (- ep) < 10000); [|lia].
        apply Z.div_lt_upper_bound; [lia|]. nia. }
      assert (H0 : 0 <= Z.pos mp / 2 ^ (- ep)).
      { apply Z.div_pos; [lia | apply Z.pow_pos_nonneg; lia]. }
      exists (Z.pos mp / 2 ^ (- ep)).
      assert ((- 2 ^ 31 <=? Z.pos mp / 2 ^ (- ep))
              && (Z.pos mp / 2 ^ (- ep) <? 2 ^ 31) = true) as ->.
      { apply andb_true_intro. split; [apply Z.leb_le | apply Z.ltb_lt]; lia. }
      split; [reflexivity | lia].
Qed.

(** The value given to the progress bar stays below its maximum of 10000
    for every upload of less than 2^53 bytes that is not complete. *)
Lemma bar_value_below_full (sent total : Z) :
  0 < sent -> sent < total -> total < 2 ^ 53 ->
  exists value,
    to_int (mul d10000 (div (of_int sent) (of_int total))) = Some value
    /\ 0 <= value <= 9999.
Proof.
  intros Hs Hst Ht.
  destruct (div_below_one_ulp sent total Hs Hst Ht) as (m & e & -> & He & Hm).
  now apply to_int_mul_d10000_below.
Qed.

End BarFacts.

(** ** The arithmetic of the progress callback

    Each operation on normal numbers returns the double next below or
    next above the exact result, so with a relative error of at most
    2^-52; the exponents are followed through the callback to show that
    nothing overflows or underflows. *)

Module DoubleRound.

Import Double DoubleFacts.

Lemma log2_ge_52 (mx : Z) : 2 ^ 52 <= mx -> 52 <= Z.log2 mx.
Proof.
  intros Hmx. change 52 with (Z.log2 (2 ^ 52)) at 1. now apply Z.log2_le_mono.
Qed.

(** Rounding a mantissa of at least 53 bits: the result is a normal number
    whose mantissa, counted in units of the last place kept, is the mantissa
    given with its low bits cut off, or one more. *)
Lemma binary_round_aux_faithful (mx ex : Z) (lx : location) :
  2 ^ 52 <= mx -> -1074 <= ex ->
  let n := Zdigits2 mx - 53 in
  ex + n + 1 <= 971 ->
  exists m e,
    binary_round_aux prec emax false mx ex lx = S754_finite false m e
    /\ 2 ^ 52 <= Z.pos m < 2 ^ 53
    /\ ex + n <= e <= ex + n + 1
    /\ mx / 2 ^ n <= Z.pos m * 2 ^ (e - (ex + n)) <= mx / 2 ^ n + 1.
Proof.
  intros Hmx Hex n Hover.
  assert (Hpos : 0 < mx) by (change (2 ^ 52) with 4503599627370496 in Hmx; lia).
  assert (Hd : Zdigits2 mx = Z.log2 mx + 1) by (apply Zdigits2_log2; lia).
  pose proof (log2_ge_52 mx Hmx) as Hlog.
  assert (Hn0 : 0 <= n) by (unfold n; lia).
  assert (Hpn : 0 < 2 ^ n) by (apply Z.pow_pos_nonneg; lia).
  assert (Hn : Z.max 0 (fexp prec emax (Zdigits2 mx + ex) - ex) = n).
  { rewrite fexp_normal. unfold n. lia. }
  unfold binary_round_aux, shr_fexp.
  destruct (shr (shr_record_of_loc mx lx) ex
              (fexp prec emax (Zdigits2 mx + ex) - ex)) as [mrs1 e1] eqn:E1.
  pose proof (shr_spec (shr_record_of_loc mx lx) ex
                (fexp prec emax (Zdigits2 mx + ex) - ex)) as [Hm1 He1];
    [rewrite shr_record_of_loc_m; lia|].
  rewrite E1, shr_record_of_loc_m, Hn in Hm1. rewrite E1, Hn in He1.
  simpl in Hm1, He1.
  set (m0 := mx / 2 ^ n) in *.
  assert (Hm0 : 2 ^ 52 <= m0 < 2 ^ 53).
  { unfold m0. split.
    - apply Z.div_le_lower_bound; [lia|].
      rewrite <- Z.pow_add_r by lia.
      apply pow2_le_self; [lia | unfold n; lia].
    - apply Z.div_lt_upper_bound; [lia|].
      rewrite <- Z.pow_add_r by lia.
      apply Z.lt_le_trans with (2 ^ (Z.succ (Z.log2 mx))); [apply Z.log2_spec; lia|].
      apply Z.pow_le_mono_r; unfold n; lia. }
  set (m1 := round_nearest_even (shr_m mrs1) (loc_of_shr_record mrs1)).
  assert (Hm1b : m0 <= m1 <= m0 + 1)
    by (unfold m1; rewrite Hm1; apply round_nearest_even_bounds).
  assert (H52 : 0 < 2 ^ 52) by reflexivity.
  assert (Hd1 : Zdigits2 m1 = Z.log2 m1 + 1) by (apply Zdigits2_log2; lia).
  assert (Hcase : (m1 < 2 ^ 53 /\ Z.log2 m1 = 52) \/ (m1 = 2 ^ 53 /\ Z.log2 m1 = 53)).
  { destruct (Z.eq_dec m1 (2 ^ 53)) as [-> | Hne]; [right; split; reflexivity|].
    left. split; [lia|]. apply Z.log2_unique; [lia|]. split; [lia|].
    change (2 ^ Z.succ 52) with (2 ^ 53). lia. }
  set (n2 := Zdigits2 m1 - 53).
  assert (Hn2 : fexp prec emax (Zdigits2 m1 + e1) - e1 = n2).
  { rewrite fexp_normal. unfold n2. lia. }
  destruct (shr (shr_record_of_loc m1 loc_Exact) e1
              (fexp prec emax (Zdigits2 m1 + e1) - e1)) as [mrs2 e2] eqn:E2.
  pose proof (shr_spec (shr_record_of_loc m1 loc_Exact) e1
                (fexp prec emax (Zdigits2 m1 + e1) - e1)) as [Hm2 He2];
    [simpl; lia|].
  rewrite E2 in Hm2, He2. simpl in Hm2, He2. rewrite Hn2 in Hm2, He2.
  assert (Hres : 2 ^ 52 <= shr_m mrs2 < 2 ^ 53 /\ 0 <= n2 <= 1
                 /\ shr_m mrs2 * 2 ^ n2 = m1).
  { destruct Hcase as [(Hlt & Hl) | (Heq & Hl)].
    - assert (n2 = 0) as -> by (unfold n2; lia).
      rewrite Hm2. change (Z.max 0 0) with 0. rewrite Z.pow_0_r, Z.div_1_r. lia.
    - assert (n2 = 1) as -> by (unfold n2; lia).
      rewrite Hm2, Heq. split; [|split]; [split| |]; reflexivity || lia. }
  destruct Hres as (Hcan & Hn2b & Hk).
  destruct (shr_m mrs2) as [|m2|m2] eqn:Em2; try lia.
  assert ((e2 <=? emax - prec) = true) as ->.
  { apply Z.leb_le. change (emax - prec) with 971. lia. }
  exists m2, e2. split; [reflexivity|]. split; [exact Hcan|].
  split; [lia|].
  replace (e2 - (ex + n)) with n2 by lia. rewrite Hk. exact Hm1b.
Qed.

End DoubleRound.

Module DoubleReal.

Import Double DoubleFacts DoubleRound.

Lemma two_neq_0 : (2 <> 0)%R.
Proof. lra. Qed.

Lemma bpow_pos (e : Z) : (0 < powerRZ 2 e)%R.
Proof. apply powerRZ_lt. lra. Qed.

Lemma IZR_pow2 (k : Z) : 0 <= k -> IZR (2 ^ k) = powerRZ 2 k.
Proof.
  intros Hk. destruct k as [|p|p]; [reflexivity | | lia].
  change (2 ^ Z.pos p) with (Z.pow_pos 2 p). apply Zpower_pos_powerRZ.
Qed.

(** Moving a power of two from the mantissa to the exponent. *)
Lemma scale_mantissa (m k e : Z) :
  0 <= k -> (IZR (m * 2 ^ k) * powerRZ 2 e = IZR m * powerRZ 2 (e + k))%R.
Proof.
  intros Hk. rewrite mult_IZR, IZR_pow2 by exact Hk.
  rewrite (Z.add_comm e k), powerRZ_add by apply two_neq_0. ring.
Qed.

Lemma eps_pow : eps = powerRZ 2 (-52).
Proof.
  unfold eps. change (-52) with (- (52)). rewrite powerRZ_neg'.
  rewrite <- IZR_pow2 by lia. reflexivity.
Qed.

(** Rounding keeps the relative error below 2^-52: [X] is the exact value,
    of which [mx] is the integer part in units of [2^ex]. *)
Lemma round_R (mx ex : Z) (lx : location) (X : R) :
  2 ^ 52 <= mx -> -1074 <= ex ->
  let n := Zdigits2 mx - 53 in
  ex + n + 1 <= 971 ->
  (IZR mx * powerRZ 2 ex <= X < (IZR mx + 1) * powerRZ 2 ex)%R ->
  exists m e,
    binary_round_aux prec emax false mx ex lx = S754_finite false m e
    /\ 2 ^ 52 <= Z.pos m < 2 ^ 53
    /\ ex + n <= e <= ex + n + 1
    /\ (X * (1 - eps) <= IZR (Z.pos m) * powerRZ 2 e <= X * (1 + eps))%R.
Proof.
  intros Hmx Hex n Hover HX.
  destruct (binary_round_aux_faithful mx ex lx Hmx Hex Hover)
    as (m & e & Hr & Hcan & He & HK).
  fold n in He, HK. exists m, e.
  split; [exact Hr|]. split; [exact Hcan|]. split; [exact He|].
  assert (Hpos : 0 < mx) by (change (2 ^ 52) with 4503599627370496 in Hmx; lia).
  assert (Hn0 : 0 <= n).
  { unfold n. rewrite Zdigits2_log2 by lia. pose proof (log2_ge_52 mx Hmx). lia. }
  assert (Hpn : 0 < 2 ^ n) by (apply Z.pow_pos_nonneg; lia).
  set (g := ex + n) in *. set (m0 := mx / 2 ^ n) in *.
  set (K := Z.pos m * 2 ^ (e - g)) in *.
  set (u := powerRZ 2 g).
  assert (Hu : (0 < u)%R) by apply bpow_pos.
  assert (HF : (IZR (Z.pos m) * powerRZ 2 e = IZR K * u)%R).
  { unfold K, u. rewrite scale_mantissa by lia. f_equal. f_equal. lia. }
  assert (Hm0 : m0 * 2 ^ n <= mx < (m0 + 1) * 2 ^ n).
  { pose proof (Z.mul_div_le mx (2 ^ n) ltac:(lia)) as H1.
    pose proof (Z.mul_succ_div_gt mx (2 ^ n) ltac:(lia)) as H2.
    fold m0 in H1, H2. lia. }
  assert (H52 : 2 ^ 52 <= m0).
  { unfold m0. apply Z.div_le_lower_bound; [lia|].
    rewrite <- Z.pow_add_r by lia.
    apply pow2_le_self; [lia|]. unfold n. rewrite Zdigits2_log2 by lia. lia. }
  assert (Hlow : (IZR m0 * u <= IZR mx * powerRZ 2 ex)%R).
  { unfold u, g. rewrite <- scale_mantissa by lia.
    apply Rmult_le_compat_r; [left; apply bpow_pos | apply IZR_le; lia]. }
  assert (Hhigh : ((IZR mx + 1) * powerRZ 2 ex <= (IZR m0 + 1) * u)%R).
  { unfold u, g. rewrite <- !plus_IZR, <- scale_mantissa by lia.
    apply Rmult_le_compat_r; [left; apply bpow_pos | apply IZR_le; lia]. }
  assert (HKr : (IZR m0 <= IZR K <= IZR m0 + 1)%R).
  { rewrite <- plus_IZR. split; apply IZR_le; lia. }
  assert (Hu52 : (u * 4503599627370496 <= X)%R).
  { apply Rle_trans with (IZR m0 * u)%R; [|lra].
    rewrite Rmult_comm. apply Rmult_le_compat_r; [lra|].
    change 4503599627370496%R with (IZR (2 ^ 52)). now apply IZR_le. }
  rewrite HF. unfold eps.
  assert (Hx1 : (IZR K * u <= (IZR m0 + 1) * u)%R)
    by (apply Rmult_le_compat_r; lra).
  assert (Hx2 : (IZR m0 * u <= IZR K * u)%R)
    by (apply Rmult_le_compat_r; lra).
  split; lra.
Qed.


Lemma B2R_finite (m : positive) (e : Z) :
  B2R (S754_finite false m e) = (IZR (Z.pos m) * powerRZ 2 e)%R.
Proof. simpl. ring. Qed.

Lemma normal_pos (x : double) (lo hi : Z) : normal x lo hi -> (0 < B2R x)%R.
Proof.
  intros (m & e & -> & Hm & _). simpl.
  assert (0 < IZR (Z.pos m))%R by (apply IZR_lt; lia).
  pose proof (bpow_pos e). nra.
Qed.

Lemma normal_weaken (x : double) (lo hi lo' hi' : Z) :
  normal x lo hi -> lo' <= lo -> hi <= hi' -> normal x lo' hi'.
Proof.
  intros (m & e & Hx & Hm & He) Hlo Hhi. exists m, e. repeat split; try tauto; lia.
Qed.

(** An integer below 2^53 converts exactly. *)
Lemma of_int_R (z : Z) :
  0 < z < 2 ^ 53 -> normal (of_int z) (-52) 0 /\ B2R (of_int z) = IZR z.
Proof.
  intros Hz. destruct (of_int_exact z Hz) as (m & e & Hx & Hd & He & Hv).
  pose proof (digits_53 m Hd) as Hm. split.
  - exists m, e. repeat split; try tauto; lia.
  - rewrite Hx. simpl. rewrite Hv, scale_mantissa by lia.
    replace (e + - e) with 0 by lia. simpl. ring.
Qed.

Lemma digits_between (m k : Z) :
  0 <= k -> 2 ^ k <= m < 2 ^ (k + 2) -> k + 1 <= Zdigits2 m <= k + 2.
Proof.
  intros Hk [Hlo Hhi].
  assert (0 < 2 ^ k) by (apply Z.pow_pos_nonneg; lia).
  rewrite Zdigits2_log2 by lia.
  assert (k <= Z.log2 m) by (apply Z.log2_le_pow2; lia).
  assert (Z.log2 m < k + 2) by (apply Z.log2_lt_pow2; lia).
  lia.
Qed.

(** The product of two normal numbers. *)
Lemma mul_R (x y : double) (lo1 hi1 lo2 hi2 : Z) :
  normal x lo1 hi1 -> normal y lo2 hi2 ->
  -1074 <= lo1 + lo2 -> hi1 + hi2 + 54 <= 971 ->
  normal (mul x y) (lo1 + lo2 + 52) (hi1 + hi2 + 54)
  /\ near 1 (mul x y) (B2R x * B2R y).
Proof.
  intros (m1 & e1 & -> & Hm1 & He1) (m2 & e2 & -> & Hm2 & He2) Hlo Hhi.
  unfold mul, SFmul. cbn [xorb].
  assert (Hprod : 2 ^ 104 <= Z.pos m1 * Z.pos m2 < 2 ^ 106).
  { change (2 ^ 104) with (2 ^ 52 * 2 ^ 52). change (2 ^ 106) with (2 ^ 53 * 2 ^ 53).
    change (2 ^ 52) with 4503599627370496 in *.
    change (2 ^ 53) with 9007199254740992 in *. nia. }
  pose proof (digits_between (Z.pos m1 * Z.pos m2) 104 ltac:(lia) Hprod) as Hd.
  change (Z.pos (m1 * m2)) with (Z.pos m1 * Z.pos m2).
  destruct (round_R (Z.pos m1 * Z.pos m2) (e1 + e2) loc_Exact
              (B2R (S754_finite false m1 e1) * B2R (S754_finite false m2 e2)))
    as (m & e & Hr & Hm & He & HX).
  - change (2 ^ 104) with (2 ^ 52 * 2 ^ 52) in Hprod.
    change (2 ^ 52) with 4503599627370496 in *. nia.
  - lia.
  - lia.
  - simpl. rewrite mult_IZR, powerRZ_add by apply two_neq_0.
    pose proof (bpow_pos e1). pose proof (bpow_pos e2).
    assert (0 < powerRZ 2 e1 * powerRZ 2 e2)%R by nra.
    split; [right; ring|]. nra.
  - rewrite Hr. split.
    + exists m, e. repeat split; try tauto; lia.
    + unfold near. replace (1 * eps)%R with eps by ring.
      rewrite (B2R_finite m e). exact HX.
Qed.

(** The quotient of two 53-bit mantissas before it is rounded, whatever
    their exponents. *)
Lemma SFdiv_core_normal (m1 m2 : positive) (e1 e2 : Z) :
  2 ^ 52 <= Z.pos m1 < 2 ^ 53 -> 2 ^ 52 <= Z.pos m2 < 2 ^ 53 ->
  -1074 <= e1 - e2 - 53 ->
  exists l,
    SFdiv_core_binary prec emax (Z.pos m1) e1 (Z.pos m2) e2
    = (Z.pos m1 * 2 ^ 53 / Z.pos m2, e1 - e2 - 53, l).
Proof.
  intros Hm1 Hm2 He. unfold SFdiv_core_binary.
  assert (Hd1 : Zdigits2 (Z.pos m1) = 53).
  { rewrite Zdigits2_log2 by lia.
    rewrite (Z.log2_unique (Z.pos m1) 52); [reflexivity | lia | exact Hm1]. }
  assert (Hd2 : Zdigits2 (Z.pos m2) = 53).
  { rewrite Zdigits2_log2 by lia.
    rewrite (Z.log2_unique (Z.pos m2) 52); [reflexivity | lia | exact Hm2]. }
  rewrite Hd1, Hd2, fexp_normal.
  replace (Z.min (Z.max (53 + e1 - (53 + e2) - 53) (-1074)) (e1 - e2))
    with (e1 - e2 - 53) by lia.
  replace (e1 - e2 - (e1 - e2 - 53)) with 53 by lia.
  cbv iota. rewrite Z.shiftl_mul_pow2 by lia.
  unfold Z.div.
  destruct (Z.div_eucl (Z.pos m1 * 2 ^ 53) (Z.pos m2)) as [q r].
  eexists. reflexivity.
Qed.

(** The quotient of two normal numbers. *)
Lemma div_R (x y : double) (lo1 hi1 lo2 hi2 : Z) :
  normal x lo1 hi1 -> normal y lo2 hi2 ->
  -1074 <= lo1 - hi2 - 53 -> hi1 - lo2 - 51 <= 971 ->
  normal (div x y) (lo1 - hi2 - 53) (hi1 - lo2 - 51)
  /\ near 1 (div x y) (B2R x / B2R y).
Proof.
  intros (m1 & e1 & -> & Hm1 & He1) (m2 & e2 & -> & Hm2 & He2) Hlo Hhi.
  unfold div, SFdiv.
  destruct (SFdiv_core_normal m1 m2 e1 e2 Hm1 Hm2 ltac:(lia)) as [l ->].
  cbn [xorb].
  set (Q := Z.pos m1 * 2 ^ 53 / Z.pos m2).
  assert (HQ : Q * Z.pos m2 <= Z.pos m1 * 2 ^ 53 < (Q + 1) * Z.pos m2).
  { pose proof (Z.mul_div_le (Z.pos m1 * 2 ^ 53) (Z.pos m2) ltac:(lia)) as H1.
    pose proof (Z.mul_succ_div_gt (Z.pos m1 * 2 ^ 53) (Z.pos m2) ltac:(lia)) as H2.
    fold Q in H1, H2. lia. }
  assert (HQb : 2 ^ 52 <= Q < 2 ^ 54).
  { change (2 ^ 54) with 18014398509481984. change (2 ^ 52) with 4503599627370496 in *.
    change (2 ^ 53) with 9007199254740992 in *. nia. }
  pose proof (digits_between Q 52 ltac:(lia) HQb) as Hd.
  destruct (round_R Q (e1 - e2 - 53) l
              (B2R (S754_finite false m1 e1) / B2R (S754_finite false m2 e2)))
    as (m & e & Hr & Hm & He & HX).
  - lia.
  - lia.
  - lia.
  - simpl. rewrite !Rmult_1_l.
    assert (H1 : (0 < IZR (Z.pos m1))%R) by (apply IZR_lt; lia).
    assert (H2 : (0 < IZR (Z.pos m2))%R) by (apply IZR_lt; lia).
    pose proof (bpow_pos e1) as P1. pose proof (bpow_pos e2) as P2.
    pose proof (bpow_pos (e1 - e2 - 53)) as P3.
    assert (Hp : (powerRZ 2 e1 = powerRZ 2 (e1 - e2 - 53) * 9007199254740992
                                 * powerRZ 2 e2)%R).
    { change 9007199254740992%R with (IZR (2 ^ 53)).
      rewrite IZR_pow2 by lia. rewrite <- !powerRZ_add by apply two_neq_0.
      f_equal. lia. }
    assert (HQr : (IZR Q * IZR (Z.pos m2) <= IZR (Z.pos m1) * 9007199254740992
                   < (IZR Q + 1) * IZR (Z.pos m2))%R).
    { change 9007199254740992%R with (IZR (2 ^ 53)).
      rewrite <- plus_IZR, <- !mult_IZR. split; [apply IZR_le | apply IZR_lt]; lia. }
    set (u := powerRZ 2 (e1 - e2 - 53)) in *.
    assert (Hval : (IZR (Z.pos m1) * powerRZ 2 e1 / (IZR (Z.pos m2) * powerRZ 2 e2)
                    = IZR (Z.pos m1) * 9007199254740992 / IZR (Z.pos m2) * u)%R).
    { rewrite Hp. field. split; lra. }
    rewrite Hval.
    assert (Hq1 : (IZR Q <= IZR (Z.pos m1) * 9007199254740992 / IZR (Z.pos m2))%R).
    { apply Rmult_le_reg_r with (IZR (Z.pos m2)); [exact H2|].
      replace (IZR (Z.pos m1) * 9007199254740992 / IZR (Z.pos m2) * IZR (Z.pos m2))%R
        with (IZR (Z.pos m1) * 9007199254740992)%R by (field; lra). lra. }
    assert (Hq2 : (IZR (Z.pos m1) * 9007199254740992 / IZR (Z.pos m2) < IZR Q + 1)%R).
    { apply Rmult_lt_reg_r with (IZR (Z.pos m2)); [exact H2|].
      replace (IZR (Z.pos m1) * 9007199254740992 / IZR (Z.pos m2) * IZR (Z.pos m2))%R
        with (IZR (Z.pos m1) * 9007199254740992)%R by (field; lra). lra. }
    split.
    + apply Rmult_le_compat_r; lra.
    + apply Rmult_lt_compat_r; lra.
  - rewrite Hr. split.
    + exists m, e. repeat split; try tauto; lia.
    + unfold near. replace (1 * eps)%R with eps by ring.
      rewrite (B2R_finite m e). exact HX.
Qed.

(** The conversion of a positive normal number to an integer type. *)
Lemma to_range_R (lo hi : Z) (x : double) (l h : Z) :
  normal x l h -> lo <= 0 -> (B2R x < IZR hi)%R ->
  exists v, to_range lo hi x = Some v
            /\ 0 <= v /\ (IZR v <= B2R x < IZR v + 1)%R.
Proof.
  intros (m & e & -> & Hm & He) Hlo Hhi. unfold to_range, truncate.
  set (v := if 0 <=? e then Z.pos m * 2 ^ e else Z.pos m / 2 ^ (- e)).
  assert (Hv : 0 <= v /\ (IZR v <= B2R (S754_finite false m e) < IZR v + 1)%R).
  { unfold v. simpl. rewrite Rmult_1_l.
    destruct (Z.leb_spec 0 e) as [Hpos | Hneg].
    - assert (0 < 2 ^ e) by (apply Z.pow_pos_nonneg; lia).
      split; [lia|]. rewrite mult_IZR, IZR_pow2 by lia. lra.
    - assert (Hp : 0 < 2 ^ (- e)) by (apply Z.pow_pos_nonneg; lia).
      split; [apply Z.div_pos; lia|].
      set (q := Z.pos m / 2 ^ (- e)).
      assert (Hq : q * 2 ^ (- e) <= Z.pos m < (q + 1) * 2 ^ (- e)).
      { pose proof (Z.mul_div_le (Z.pos m) (2 ^ (- e)) ltac:(lia)) as H1.
        pose proof (Z.mul_succ_div_gt (Z.pos m) (2 ^ (- e)) ltac:(lia)) as H2.
        fold q in H1, H2. lia. }
      assert (Hqr : (IZR q * powerRZ 2 (- e) <= IZR (Z.pos m)
                     < (IZR q + 1) * powerRZ 2 (- e))%R).
      { rewrite <- plus_IZR, <- !IZR_pow2, <- !mult_IZR by lia.
        split; [apply IZR_le | apply IZR_lt]; lia. }
      pose proof (bpow_pos e) as Pe. pose proof (bpow_pos (- e)) as Pn.
      assert (Hinv : (powerRZ 2 (- e) * powerRZ 2 e = 1)%R).
      { rewrite <- powerRZ_add by apply two_neq_0.
        replace (- e + e) with 0 by lia. reflexivity. }
      split.
      + replace (IZR q) with (IZR q * powerRZ 2 (- e) * powerRZ 2 e)%R
          by (rewrite Rmult_assoc, Hinv; ring).
        apply Rmult_le_compat_r; lra.
      + replace (IZR q + 1)%R with ((IZR q + 1) * powerRZ 2 (- e) * powerRZ 2 e)%R
          by (rewrite Rmult_assoc, Hinv; ring).
        apply Rmult_lt_compat_r; lra. }
  destruct Hv as (Hv0 & Hvr).
  assert (Hlt : v < hi) by (apply lt_IZR; lra).
  fold v.
  assert ((lo <=? v) && (v <? hi) = true) as ->.
  { apply andb_true_intro. split; [apply Z.leb_le | apply Z.ltb_lt]; lia. }
  exists v. repeat split; tauto || lia.
Qed.


Lemma bpow_ge_1 (k : Z) : 0 <= k -> (1 <= powerRZ 2 k)%R.
Proof.
  intros Hk. rewrite <- IZR_pow2 by exact Hk. apply IZR_le.
  assert (0 < 2 ^ k) by (apply Z.pow_pos_nonneg; lia). lia.
Qed.

Lemma bpow_le (a b : Z) : a <= b -> (powerRZ 2 a <= powerRZ 2 b)%R.
Proof.
  intros Hab. replace b with (a + (b - a)) by lia.
  rewrite powerRZ_add by apply two_neq_0.
  pose proof (bpow_pos a). pose proof (bpow_ge_1 (b - a) ltac:(lia)). nra.
Qed.

Lemma d1_value : d1 = S754_finite false 4503599627370496 (-52).
Proof. vm_compute. reflexivity. Qed.

(** The comparison with [1.0] of a normal number is that of its value. *)
Lemma gt_one_R (x : double) (lo hi : Z) :
  normal x lo hi -> gt x d1 = true <-> (1 < B2R x)%R.
Proof.
  intros (m & e & -> & Hm & _). rewrite B2R_finite, d1_value.
  unfold gt, SFltb, SFcompare.
  assert (Hmr : (4503599627370496 <= IZR (Z.pos m) < 9007199254740992)%R).
  { change 4503599627370496%R with (IZR (2 ^ 52)).
    change 9007199254740992%R with (IZR (2 ^ 53)).
    split; [apply IZR_le | apply IZR_lt]; lia. }
  assert (H52 : (powerRZ 2 (-52) * 4503599627370496 = 1)%R).
  { rewrite <- eps_pow. unfold eps. field. }
  pose proof (bpow_pos e) as Pe.
  destruct (Z.compare_spec (-52) e) as [<- | Hlt | Hgt].
  - change (Pos.compare_cont Eq 4503599627370496 m)
      with (Z.pos 4503599627370496 ?= Z.pos m).
    destruct (Z.compare_spec (Z.pos 4503599627370496) (Z.pos m)) as [Heq | Hl | Hg].
    + split; [discriminate|]. rewrite <- Heq. lra.
    + split; [intros _ | reflexivity].
      assert (4503599627370496 + 1 <= IZR (Z.pos m))%R.
      { rewrite <- plus_IZR. apply IZR_le. lia. }
      nra.
    + change (2 ^ 52) with 4503599627370496 in Hm. lia.
  - split; [intros _ | reflexivity].
    pose proof (bpow_le (-51) e ltac:(lia)) as Hb.
    assert (H51 : (powerRZ 2 (-51) = 2 * powerRZ 2 (-52))%R).
    { change (-51) with (1 + -52). rewrite powerRZ_add by apply two_neq_0.
      simpl. ring. }
    nra.
  - split; [discriminate|].
    pose proof (bpow_le e (-53) ltac:(lia)) as Hb.
    assert (H53 : (2 * powerRZ 2 (-53) = powerRZ 2 (-52))%R).
    { change (-52) with (1 + -53). rewrite powerRZ_add by apply two_neq_0.
      simpl. ring. }
    nra.
Qed.

(** The literals of the callback. *)
Lemma d10000_R : normal d10000 (-52) 0 /\ B2R d10000 = 10000%R.
Proof. apply (of_int_R 10000). split; reflexivity. Qed.

Lemma d1000000_R : normal d1000000 (-52) 0 /\ B2R d1000000 = 1000000%R.
Proof. apply (of_int_R 1000000). split; reflexivity. Qed.

Lemma d1e_9_R : normal d1e_9 (-105) 1 /\ near 1 d1e_9 (/ 1000000000).
Proof.
  destruct (of_int_R 1 ltac:(split; reflexivity)) as (N1 & V1).
  destruct (of_int_R 1000000000 ltac:(split; reflexivity)) as (N2 & V2).
  destruct (div_R _ _ _ _ _ _ N1 N2 ltac:(lia) ltac:(lia)) as (N & HX).
  split; [exact N|]. unfold d1e_9. rewrite V1, V2 in HX.
  replace (/ 1000000000)%R with (1 / 1000000000)%R by (unfold Rdiv; ring).
  exact HX.
Qed.

(** Megabytes from bytes. *)
Lemma megabytes_R (bytes : Z) :
  0 < bytes < 2 ^ 53 ->
  normal (div (of_int bytes) d1000000) (-105) 1
  /\ near 1 (div (of_int bytes) d1000000) (IZR bytes / 1000000).
Proof.
  intros Hb. destruct (of_int_R bytes Hb) as (N1 & V1).
  destruct d1000000_R as (N2 & V2).
  destruct (div_R _ _ _ _ _ _ N1 N2 ltac:(lia) ltac:(lia)) as (N & HX).
  split; [exact N|]. now rewrite V1, V2 in HX.
Qed.

(** Seconds from nanoseconds. *)
Lemma seconds_R (ns : Z) :
  0 < ns < 2 ^ 53 ->
  normal (mul (of_int ns) d1e_9) (-105) 55
  /\ near 3 (mul (of_int ns) d1e_9) (IZR ns / 1000000000).
Proof.
  intros Hns. destruct (of_int_R ns Hns) as (N1 & V1).
  destruct d1e_9_R as (N2 & V2).
  destruct (mul_R _ _ _ _ _ _ N1 N2 ltac:(lia) ltac:(lia)) as (N & HX).
  split; [exact N|].
  assert (Hpos : (0 < IZR ns)%R) by (apply IZR_lt; lia).
  unfold near, eps in *. rewrite V1 in HX.
  set (c := B2R d1e_9) in *. set (r := B2R (mul (of_int ns) d1e_9)) in *.
  assert (Hc : (IZR ns * (/ 1000000000 * (1 - 1 * / 4503599627370496))
                <= IZR ns * c
                <= IZR ns * (/ 1000000000 * (1 + 1 * / 4503599627370496)))%R).
  { split; apply Rmult_le_compat_l; lra. }
  unfold Rdiv. split; nra.
Qed.

(** The threshold of one second, in nanoseconds. *)
Lemma warm_up (ns : Z) :
  0 < ns < 2 ^ 53 ->
  gt (mul (of_int ns) d1e_9) d1 = (1000000000 <? ns).
Proof.
  intros Hns. destruct (seconds_R ns Hns) as (N & HX).
  pose proof (gt_one_R _ _ _ N) as Hgt.
  assert (Hpos : (0 < IZR ns)%R) by (apply IZR_lt; lia).
  unfold near, eps, Rdiv in HX.
  destruct (Z.ltb_spec 1000000000 ns) as [Hlate | Hearly].
  - apply Hgt.
    assert (1000000000 + 1 <= IZR ns)%R by (rewrite <- plus_IZR; apply IZR_le; lia).
    lra.
  - destruct (Z.eq_dec ns 1000000000) as [-> | Hne]; [vm_compute; reflexivity|].
    destruct (gt (mul (of_int ns) d1e_9) d1) eqn:E; [|reflexivity].
    exfalso. assert (Hone : (1 < B2R (mul (of_int ns) d1e_9))%R) by now apply Hgt.
    assert (IZR ns <= 1000000000 - 1)%R by (rewrite <- minus_IZR; apply IZR_le; lia).
    lra.
Qed.

(** The bar value against the exact quotient. *)
Lemma bar_value_near (sent total : Z) :
  0 < sent -> sent < total -> total < 2 ^ 53 ->
  exists value,
    to_int (mul d10000 (div (of_int sent) (of_int total))) = Some value
    /\ 10000 * sent / total - 1 <= value <= 10000 * sent / total + 1.
Proof.
  intros Hs Hst Ht.
  destruct (of_int_R sent ltac:(lia)) as (N1 & V1).
  destruct (of_int_R total ltac:(lia)) as (N2 & V2).
  destruct (div_R _ _ _ _ _ _ N1 N2 ltac:(lia) ltac:(lia)) as (Nq & Hq).
  destruct d10000_R as (N3 & V3).
  destruct (mul_R _ _ _ _ _ _ N3 Nq ltac:(lia) ltac:(lia)) as (Np & Hp).
  rewrite V1, V2 in Hq. rewrite V3 in Hp.
  set (q := div (of_int sent) (of_int total)) in *.
  set (p := mul d10000 q) in *.
  assert (Hsr : (0 < IZR sent)%R) by (apply IZR_lt; lia).
  assert (Htr : (0 < IZR total)%R) by (apply IZR_lt; lia).
  assert (Hlt : (IZR sent < IZR total)%R) by (apply IZR_lt; lia).
  set (x := (IZR sent / IZR total)%R) in *.
  assert (Hx : (0 < x < 1)%R).
  { unfold x. split; [apply Rdiv_lt_0_compat; lra|].
    apply Rmult_lt_reg_r with (IZR total); [lra|].
    unfold Rdiv. rewrite Rmult_assoc, Rinv_l by lra. lra. }
  unfold near, eps in Hq, Hp.
  assert (Hpx : (10000 * x - 1 < B2R p < 10000 * x + 1)%R) by (split; nra).
  destruct (to_range_R (- 2 ^ 31) (2 ^ 31) p _ _ Np ltac:(lia))
    as (v & Hv & Hv0 & Hvr).
  { change (IZR (2 ^ 31)) with 2147483648%R. lra. }
  exists v. split; [exact Hv|].
  assert (Hxt : (x * IZR total = IZR sent)%R).
  { unfold x, Rdiv. rewrite Rmult_assoc, Rinv_l by lra. ring. }
  split.
  - assert (Hz : (v - 2) * total < 10000 * sent).
    { apply lt_IZR. rewrite !mult_IZR, minus_IZR.
      change (IZR 10000) with 10000%R. change (IZR 2) with 2%R. nra. }
    assert (10000 * sent / total < v + 2); [|lia].
    apply Z.div_lt_upper_bound; [lia|].
    assert (Hz' : 10000 * sent < (v + 2) * total).
    { apply lt_IZR. rewrite !mult_IZR, plus_IZR.
      change (IZR 10000) with 10000%R. change (IZR 2) with 2%R. nra. }
    lia.
  - assert (Hz : (v - 1) * total < 10000 * sent).
    { apply lt_IZR. rewrite !mult_IZR, minus_IZR.
      change (IZR 10000) with 10000%R. change (IZR 1) with 1%R. nra. }
    assert (v - 1 <= 10000 * sent / total); [|lia].
    apply Z.div_le_lower_bound; lia.
Qed.


(** The speed in megabytes per second: [(sent / 1e6) / (ns * 1e-9)]. *)
Lemma speed_R (sent ns : Z) :
  0 < sent < 2 ^ 53 -> 0 < ns < 2 ^ 53 ->
  let speedMBS :=
    div (div (of_int sent) d1000000) (mul (of_int ns) d1e_9) in
  normal speedMBS (-213) 55
  /\ near 6 speedMBS (1000 * IZR sent / IZR ns).
Proof.
  intros Hs Hns speedMBS.
  destruct (megabytes_R sent Hs) as (Na & Ha).
  destruct (seconds_R ns Hns) as (Nb & Hb).
  destruct (div_R _ _ _ _ _ _ Na Nb ltac:(lia) ltac:(lia)) as (N & HX).
  fold speedMBS in N, HX. split; [exact N|].
  pose proof (normal_pos _ _ _ Na) as PA. pose proof (normal_pos _ _ _ Nb) as PB.
  assert (Hsr : (0 < IZR sent)%R) by (apply IZR_lt; lia).
  assert (Hnr : (0 < IZR ns)%R) by (apply IZR_lt; lia).
  unfold near, eps in *.
  set (A := B2R (div (of_int sent) d1000000)) in *.
  set (B := B2R (mul (of_int ns) d1e_9)) in *.
  set (S := B2R speedMBS) in *.
  set (X := (1000 * IZR sent / IZR ns)%R).
  assert (HXpos : (0 < X)%R) by (unfold X; apply Rdiv_lt_0_compat; lra).
  assert (HXb : (X * (IZR ns / 1000000000) = IZR sent / 1000000)%R)
    by (unfold X; field; lra).
  set (a := (IZR sent / 1000000)%R) in *. set (b := (IZR ns / 1000000000)%R) in *.
  assert (Hb0 : (0 < b)%R) by (unfold b; lra).
  set (Qv := (A / B)%R) in *.
  assert (HQB : (Qv * B = A)%R) by (unfold Qv; field; lra).
  assert (HQ0 : (0 < Qv)%R) by (unfold Qv; apply Rdiv_lt_0_compat; lra).
  assert (Hup : (Qv * (1 - 3 * / 4503599627370496)
                 <= X * (1 + 1 * / 4503599627370496))%R).
  { apply Rmult_le_reg_r with b; [exact Hb0|].
    apply Rle_trans with (Qv * B)%R; [nra|]. rewrite HQB. nra. }
  assert (Hdown : (X * (1 - 1 * / 4503599627370496)
                   <= Qv * (1 + 3 * / 4503599627370496))%R).
  { apply Rmult_le_reg_r with b; [exact Hb0|].
    apply Rle_trans with (Qv * B)%R; [rewrite HQB; nra | nra]. }
  split; nra.
Qed.

(** The mantissa of [shl_align], as an integer. *)
Lemma shl_align_value (m : positive) (e e' : Z) :
  e' <= e ->
  Z.pos (fst (shl_align m e e')) = Z.pos m * 2 ^ (e - e')
  /\ snd (shl_align m e e') = e'.
Proof.
  intros He. unfold shl_align.
  destruct (e' - e) as [|d|d] eqn:E; try lia.
  - assert (e = e') by lia. subst e'. rewrite Z.sub_diag. simpl. split; [lia | reflexivity].
  - simpl. rewrite iter_xO. split; [|reflexivity]. f_equal. f_equal. lia.
Qed.

(** The difference of two normal numbers, the larger first. *)
Lemma sub_R (x y : double) (lo hi : Z) :
  normal x lo hi -> normal y lo hi -> (B2R y < B2R x)%R ->
  -1074 <= lo - 53 -> hi + 1 <= 971 ->
  normal (sub x y) (lo - 52) (hi + 1)
  /\ near 1 (sub x y) (B2R x - B2R y).
Proof.
  intros (m1 & e1 & -> & Hm1 & He1) (m2 & e2 & -> & Hm2 & He2) Hlt Hlo Hhi.
  rewrite !B2R_finite in *. unfold sub, SFsub. cbn [cond_Zopp].
  set (ez := Z.min e1 e2).
  destruct (shl_align_value m1 e1 ez ltac:(unfold ez; lia)) as (HA & _).
  destruct (shl_align_value m2 e2 ez ltac:(unfold ez; lia)) as (HB & _).
  rewrite HA, HB.
  set (A := Z.pos m1 * 2 ^ (e1 - ez)). set (B := Z.pos m2 * 2 ^ (e2 - ez)).
  assert (HAr : (IZR A * powerRZ 2 ez = IZR (Z.pos m1) * powerRZ 2 e1)%R).
  { unfold A. rewrite scale_mantissa by (unfold ez; lia). f_equal. f_equal. lia. }
  assert (HBr : (IZR B * powerRZ 2 ez = IZR (Z.pos m2) * powerRZ 2 e2)%R).
  { unfold B. rewrite scale_mantissa by (unfold ez; lia). f_equal. f_equal. lia. }
  pose proof (bpow_pos ez) as Pz.
  assert (HD : 0 < A - B).
  { apply Z.lt_0_sub. apply lt_IZR.
    apply Rmult_lt_reg_r with (powerRZ 2 ez); [exact Pz|]. lra. }
  assert (HAb : A < 2 ^ (53 + (e1 - ez))).
  { unfold A. rewrite Z.pow_add_r by (unfold ez; lia).
    assert (0 < 2 ^ (e1 - ez)) by (apply Z.pow_pos_nonneg; unfold ez; lia). nia. }
  assert (HB0 : 0 < B).
  { unfold B. assert (0 < 2 ^ (e2 - ez)) by (apply Z.pow_pos_nonneg; unfold ez; lia).
    nia. }
  destruct (A - B) as [|D|D] eqn:ED; try lia.
  unfold binary_normalize, binary_round.
  assert (Hdig : Z.pos (digits2_pos D) = Z.log2 (Z.pos D) + 1)
    by apply digits2_pos_log2.
  assert (Hlog : 0 <= Z.log2 (Z.pos D) < 53 + (e1 - ez)).
  { split; [apply Z.log2_nonneg|]. apply Z.log2_lt_pow2; lia. }
  set (dg := Z.pos (digits2_pos D)) in *.
  rewrite fexp_normal.
  assert (Hfexp : Z.max (dg + ez - 53) (-1074) = dg + ez - 53) by (unfold ez in *; lia).
  rewrite Hfexp.
  set (k := Z.max 0 (53 - dg)).
  assert (Hshl : exists mz ez',
             shl_align D ez (dg + ez - 53) = (mz, ez')
             /\ Z.pos mz = Z.pos D * 2 ^ k /\ ez' = ez - k).
  { destruct (Z.le_gt_cases 53 dg) as [Hbig | Hsmall].
    - exists D, ez. unfold shl_align.
      destruct (dg + ez - 53 - ez) as [|p|p] eqn:E; try lia;
        (split; [reflexivity|]); unfold k;
        replace (Z.max 0 (53 - dg)) with 0 by lia; rewrite Z.pow_0_r; lia.
    - destruct (shl_align_value D ez (dg + ez - 53) ltac:(lia)) as (Hv & He).
      destruct (shl_align D ez (dg + ez - 53)) as [mz ez'] eqn:E.
      exists mz, ez'. simpl in Hv, He. split; [reflexivity|]. unfold k.
      replace (Z.max 0 (53 - dg)) with (53 - dg) by lia.
      split; [rewrite Hv; f_equal; f_equal; lia | lia]. }
  destruct Hshl as (mz & ez' & -> & Hmz & Hez').
  assert (Hk0 : 0 <= k) by (unfold k; lia).
  assert (Hpk : 0 < 2 ^ k) by (apply Z.pow_pos_nonneg; lia).
  assert (Hlogz : Z.log2 (Z.pos mz) = Z.log2 (Z.pos D) + k).
  { rewrite Hmz, Z.log2_mul_pow2 by lia. lia. }
  assert (Hmz52 : 2 ^ 52 <= Z.pos mz).
  { apply pow2_le_self; [lia|]. rewrite Hlogz. unfold k. lia. }
  assert (Hval : (IZR (Z.pos mz) * powerRZ 2 ez'
                  = IZR (Z.pos m1) * powerRZ 2 e1 - IZR (Z.pos m2) * powerRZ 2 e2)%R).
  { rewrite Hmz, Hez', scale_mantissa by lia.
    replace (ez - k + k) with ez by lia.
    rewrite <- ED, minus_IZR. lra. }
  destruct (round_R (Z.pos mz) ez' loc_Exact
              (IZR (Z.pos m1) * powerRZ 2 e1 - IZR (Z.pos m2) * powerRZ 2 e2))
    as (m & e & Hr & Hm & He & HX).
  - exact Hmz52.
  - unfold k, ez in *. lia.
  - rewrite Zdigits2_log2 by lia. rewrite Hlogz. unfold k, ez in *. lia.
  - rewrite Hval. pose proof (bpow_pos ez'). lra.
  - rewrite Hr. split.
    + exists m, e. split; [reflexivity|]. split; [exact Hm|].
      rewrite Zdigits2_log2 in He by lia. rewrite Hlogz in He.
      unfold k, ez in *. lia.
    + unfold near. replace (1 * eps)%R with eps by ring.
      rewrite (B2R_finite m e). exact HX.
Qed.

(** The remaining time is converted without harm when the upload is of
    less than 2^50 bytes and the time the whole of it takes at the average
    speed is below 2^62 seconds. *)
Lemma remaining_defined (sent total ns : Z) :
  0 < sent -> sent < total -> total < 2 ^ 50 -> 0 < ns < 2 ^ 53 ->
  total * ns < sent * (1000000000 * 2 ^ 62) ->
  let sentMB := div (of_int sent) d1000000 in
  let totalMB := div (of_int total) d1000000 in
  let speedMBS := div sentMB (mul (of_int ns) d1e_9) in
  exists secondsRemaining,
    to_qulonglong (div (sub totalMB sentMB) speedMBS) = Some secondsRemaining
    /\ 0 <= secondsRemaining < 2 ^ 63.
Proof.
  intros Hs Hst Ht Hns Hfits sentMB totalMB speedMBS.
  assert (H50 : 2 ^ 50 < 2 ^ 53) by reflexivity.
  destruct (megabytes_R sent ltac:(lia)) as (Na & Ha).
  destruct (megabytes_R total ltac:(lia)) as (Nt & Htm).
  destruct (speed_R sent ns ltac:(lia) Hns) as (Nv & Hv).
  fold sentMB in Na, Ha, Nv, Hv. fold totalMB in Nt, Htm. fold speedMBS in Nv, Hv.
  assert (Hsr : (1 <= IZR sent)%R) by (apply IZR_le; lia).
  assert (Htr : (IZR sent + 1 <= IZR total)%R)
    by (rewrite <- plus_IZR; apply IZR_le; lia).
  assert (Ht50 : (IZR total <= 1125899906842624)%R)
    by (change 1125899906842624%R with (IZR (2 ^ 50)); apply IZR_le; lia).
  assert (Hnr : (1 <= IZR ns)%R) by (apply IZR_le; lia).
  unfold near, eps in Ha, Htm, Hv.
  assert (Hgap : (B2R sentMB < B2R totalMB)%R) by (unfold Rdiv in *; lra).
  destruct (sub_R totalMB sentMB (-105) 1 Nt Na Hgap ltac:(lia) ltac:(lia))
    as (Nd & Hd).
  destruct (div_R _ _ _ _ _ _ Nd Nv ltac:(lia) ltac:(lia)) as (Nr & Hr).
  set (diff := sub totalMB sentMB) in *.
  set (rem := div diff speedMBS) in *.
  pose proof (normal_pos _ _ _ Na) as PA. pose proof (normal_pos _ _ _ Nv) as PV.
  pose proof (normal_pos _ _ _ Nd) as PD.
  unfold near, eps in Hd, Hr.
  set (X := (1000 * IZR sent / IZR ns)%R) in *.
  assert (HXpos : (0 < X)%R) by (unfold X; apply Rdiv_lt_0_compat; lra).
  (* the exact time, in seconds, the whole upload takes at this speed *)
  set (W := (IZR total / 1000000 / X)%R).
  assert (HW : (W * X = IZR total / 1000000)%R) by (unfold W; field; lra).
  assert (HWpos : (0 < W)%R).
  { unfold W. apply Rdiv_lt_0_compat; [|exact HXpos]. lra. }
  assert (HWfits : (W < 4611686018427387904)%R).
  { assert (Hz : (IZR total * IZR ns < IZR sent * (1000000000 * 4611686018427387904))%R).
    { change 4611686018427387904%R with (IZR (2 ^ 62)).
      change 1000000000%R with (IZR 1000000000).
      rewrite <- !mult_IZR. now apply IZR_lt. }
    apply Rmult_lt_reg_r with X; [exact HXpos|]. rewrite HW.
    apply Rmult_lt_reg_r with (IZR ns); [lra|].
    replace (4611686018427387904 * X * IZR ns)%R
      with (4611686018427387904 * (1000 * IZR sent))%R by (unfold X; field; lra).
    lra. }
  set (Qv := (B2R diff / B2R speedMBS)%R) in *.
  assert (HQV : (Qv * B2R speedMBS = B2R diff)%R) by (unfold Qv; field; lra).
  assert (HQ0 : (0 < Qv)%R) by (unfold Qv; apply Rdiv_lt_0_compat; lra).
  assert (Hdiff : (B2R diff <= IZR total / 1000000 * (1 + 3 * / 4503599627370496))%R).
  { unfold Rdiv in *. nra. }
  assert (HQle : (Qv * (1 - 6 * / 4503599627370496)
                  <= W * (1 + 3 * / 4503599627370496))%R).
  { apply Rmult_le_reg_r with X; [exact HXpos|].
    apply Rle_trans with (Qv * B2R speedMBS)%R; [nra|].
    rewrite HQV. replace (W * (1 + 3 * / 4503599627370496) * X)%R
      with (W * X * (1 + 3 * / 4503599627370496))%R by ring.
    rewrite HW. exact Hdiff. }
  assert (Hrem : (B2R rem < 9223372036854775808)%R) by nra.
  destruct (to_range_R 0 (2 ^ 64) rem _ _ Nr ltac:(lia))
    as (v & Hval & Hv0 & Hvr).
  { change (IZR (2 ^ 64)) with 18446744073709551616%R. lra. }
  exists v. split; [exact Hval|]. split; [exact Hv0|].
  apply lt_IZR. change (IZR (2 ^ 63)) with 9223372036854775808%R. lra.
Qed.

End DoubleReal.

Section DialogProperties.

Context `{Externals}.

(** ** Upload progress *)

(** C3 (as amended). For an upload-progress event with [0 < sent < total],
    a total below 2^50 bytes, an elapsed time above 0 and below 2^53
    nanoseconds, and less than 2^62 seconds for the whole upload at the
    average speed so far, both conversions to integers are defined and:
    - the progress bar, whose maximum [sendReport] set to 10000, is given
      [int(10000.0 * (double(sent) / double(total)))], a value from 0 to
      9999 that is the integer part of [10000 * sent / total] or differs
      from it by one;
    - the megabytes sent and in total are [sent / 10^6] and [total / 10^6]
      up to a relative error of 2^-52, and the speed,
      [(double(sent) / 1000000.0) / (nsecsElapsed * 1.0e-9)], is
      [1000 * sent / nsecsElapsed] megabytes a second up to a relative
      error of 6 * 2^-52;
    - the elapsed seconds exceed [1.0] exactly when more than 10^9
      nanoseconds have elapsed; until then the callback sets the bar value
      and nothing else, and from then on it also sets the status text to
      the template filled with the megabytes sent and in total, the
      remaining-time string and the speed. *)
Theorem uploadProgress_accounting
    (sent total nsecsElapsed : Z) (d : CrashDialog)
    (Hsent : 0 < sent) (Htotal : sent < total) (Hbytes : total < 2 ^ 50)
    (Helapsed : 0 < nsecsElapsed < 2 ^ 53)
    (Hfits : total * nsecsElapsed < sent * (1000000000 * 2 ^ 62)) :
  let sentMB := Double.div (Double.of_int sent) Double.d1000000 in
  let totalMB := Double.div (Double.of_int total) Double.d1000000 in
  let secondsElapsed := Double.mul (Double.of_int nsecsElapsed) Double.d1e_9 in
  let speedMBS := Double.div sentMB secondsElapsed in
  exists value secondsRemaining : Z,
    Double.to_int
      (Double.mul Double.d10000
         (Double.div (Double.of_int sent) (Double.of_int total))) = Some value
    /\ 10000 * sent / total - 1 <= value <= 10000 * sent / total + 1
    /\ 0 <= value <= 9999
    /\ Double.to_qulonglong (Double.div (Double.sub totalMB sentMB) speedMBS)
       = Some secondsRemaining
    /\ Double.near 1 sentMB (IZR sent / 1000000)
    /\ Double.near 1 totalMB (IZR total / 1000000)
    /\ Double.near 6 speedMBS (1000 * IZR sent / IZR nsecsElapsed)
    /\ Double.gt secondsElapsed Double.d1 = (1000000000 <? nsecsElapsed)
    /\ reply_uploadProgress sent total nsecsElapsed d
       = Some (if 1000000000 <? nsecsElapsed
               then
                 on_ui (set_progressText_text
                          (arg (number_f speedMBS 2)
                             (arg (remainString secondsRemaining)
                                (arg (number_f totalMB 2)
                                   (arg (number_f sentMB 2)
                                      progressText_template)))))
                   (on_ui (set_progressBar_value value) d)
               else on_ui (set_progressBar_value value) d)
    /\ progressBar_maximum (ui (sendReport d)) = 10000.
Proof.
  intros sentMB totalMB secondsElapsed speedMBS.
  assert (H50 : 2 ^ 50 < 2 ^ 53) by reflexivity.
  destruct (DoubleReal.bar_value_near sent total Hsent Htotal ltac:(lia))
    as (value & Hvalue & Hnear).
  destruct (BarFacts.bar_value_below_full sent total Hsent Htotal ltac:(lia))
    as (v & Hv & Hrange).
  rewrite Hvalue in Hv. injection Hv as <-.
  destruct (DoubleReal.remaining_defined sent total nsecsElapsed
              Hsent Htotal Hbytes Helapsed Hfits)
    as (secondsRemaining & Hremaining & _).
  fold sentMB totalMB secondsElapsed speedMBS in Hremaining.
  destruct (DoubleReal.megabytes_R sent ltac:(lia)) as (_ & HsentMB).
  destruct (DoubleReal.megabytes_R total ltac:(lia)) as (_ & HtotalMB).
  destruct (DoubleReal.speed_R sent nsecsElapsed ltac:(lia) Helapsed)
    as (_ & Hspeed).
  pose proof (DoubleReal.warm_up nsecsElapsed Helapsed) as Hwarm.
  fold secondsElapsed in Hwarm.
  exists value, secondsRemaining.
  split; [exact Hvalue|]. split; [exact Hnear|]. split; [exact Hrange|].
  split; [exact Hremaining|]. split; [exact HsentMB|]. split; [exact HtotalMB|].
  split; [exact Hspeed|]. split; [exact Hwarm|]. split; [|reflexivity].
  unfold reply_uploadProgress.
  assert ((0 <? total) && (sent <? total) = true) as ->.
  { apply andb_true_intro. split; apply Z.ltb_lt; lia. }
  rewrite Hvalue. cbn [mbind option_bind].
  fold sentMB totalMB secondsElapsed speedMBS. rewrite Hremaining.
  cbn [mbind option_bind]. rewrite Hwarm.
  destruct (1000000000 <? nsecsElapsed); reflexivity.
Qed.

(** ** Network errors and completion *)

(** C5. The error callback sets the progress bar to 0, shows the error
    text after "Network error uploading:" and enables the retry button; the
    stage and the three panel groups stay as they are. A [finished] signal
    that finds the retry button enabled changes nothing, so in particular
    one that follows an error. *)
Theorem error_then_finished_keeps_stage
    (errorString : string) (readAll : QByteArray) (d d2 : CrashDialog)
    (Hretry : uploadRetry_enabled (ui d2) = true) :
  let d' := reply_error errorString d in
  progressBar_value (ui d') = 0
  /\ progressText_text (ui d')
     = "Network error uploading:" ++ newline ++ errorString
  /\ uploadRetry_enabled (ui d') = true
  /\ m_Stage d' = m_Stage d
  /\ reportGroup_visible (ui d') = reportGroup_visible (ui d)
  /\ uploadingGroup_visible (ui d') = uploadingGroup_visible (ui d)
  /\ reportedGroup_visible (ui d') = reportedGroup_visible (ui d)
  /\ m_Request d' = m_Request d
  /\ reply_finished readAll d' = d'
  /\ reply_finished readAll d2 = d2.
Proof.
  intros d'. repeat split.
  - unfold d', reply_error. simpl.
    change (arg errorString (tr ("Network error uploading:" ++ newline ++ "%1")))
      with ("Network error uploading:" ++ newline ++ errorString ++ "").
    now rewrite append_empty_r.
  - unfold reply_finished. now rewrite Hretry.
Qed.

(** C6. When the upload finishes and the retry button is not enabled, the
    response body becomes the report ID and the stage becomes Reported with
    the reported group shown. The finished text is the thank-you message
    alone for an empty body; for any other body it is followed by the
    paragraph that links and shows the URL of the report with that ID. *)
Theorem finished_reports
    (readAll : QByteArray) (d : CrashDialog)
    (Hretry : uploadRetry_enabled (ui d) = false) :
  let d' := reply_finished readAll d in
  let url := BugReport_URL {| ID := readAll; SubmitDate := None; CheckDate := None |} in
  m_ReportID d' = readAll
  /\ m_Stage d' = Reported
  /\ reportedGroup_visible (ui d') = true
  /\ reportGroup_visible (ui d') = false
  /\ uploadingGroup_visible (ui d') = false
  /\ finishedText_format (ui d') = RichText
  /\ finishedText_text (ui d')
     = (if isEmpty readAll then thanks_html
        else thanks_html
             ++ "<p>The unique anonymous URL for your report is <a href="
             ++ dquote ++ url ++ dquote ++ ">" ++ url ++ "</a>.</p>")
  /\ (isEmpty readAll = false -> contains url (finishedText_text (ui d')) = true).
Proof.
  intros d' url.
  assert (Htext : finishedText_text (ui d')
     = (if isEmpty readAll then thanks_html
        else thanks_html
             ++ "<p>The unique anonymous URL for your report is <a href="
             ++ dquote ++ url ++ dquote ++ ">" ++ url ++ "</a>.</p>")).
  { unfold d', reply_finished. rewrite Hretry.
    destruct readAll as [|c body]; [reflexivity|]. simpl. fold url.
    unfold tr.
    change (arg url url_html)
      with ("<p>The unique anonymous URL for your report is <a href="
            ++ dquote ++ url ++ dquote ++ ">" ++ url ++ "</a>.</p>" ++ "").
    reflexivity. }
  unfold d', reply_finished in *. rewrite Hretry in *.
  repeat split; try (destruct readAll; reflexivity); try exact Htext.
  intros Hne. rewrite Htext, Hne.
  rewrite <- !append_assoc.
  rewrite (append_assoc _ url). apply contains_app.
Qed.

(** ** The multipart body *)

Lemma foldl_push_back {A B} (f : A -> B) (l : list A) (acc : list B) :
  foldl (fun parts key => push_back (f key) parts) acc l = (acc ++ map f l)%list.
Proof.
  revert acc. induction l as [|x l IH]; intros acc; simpl.
  - now rewrite app_nil_r.
  - rewrite IH. unfold push_back. now rewrite <- app_assoc.
Qed.

Lemma metadata_part_eq (m : gmap string QVariant) (key : string) :
  metadata_part m key
  = {| ContentTypeHeader := None;
       ContentDispositionHeader := "form-data; name=" ++ dquote ++ key ++ dquote;
       part_body := Body (toString (value_at m key)) |}.
Proof.
  unfold metadata_part.
  change (arg key ("form-data; name=" ++ dquote ++ "%1" ++ dquote))
    with ("form-data; name=" ++ dquote ++ key ++ dquote ++ "").
  now rewrite append_empty_r.
Qed.

Lemma keys_Permutation (m : gmap string QVariant) : keys m ≡ₚ (map_to_list m).*1.
Proof. apply merge_sort_Permutation. Qed.

Lemma elem_of_keys (m : gmap string QVariant) (key : string) :
  key ∈ keys m <-> is_Some (m !! key).
Proof.
  rewrite keys_Permutation, list_elem_of_fmap. split.
  - intros ([k v] & -> & Hkv). apply elem_of_map_to_list in Hkv. eauto.
  - intros [v Hv]. exists (key, v). split; [reflexivity|].
    now apply elem_of_map_to_list.
Qed.

Lemma if_isEmpty {A} (s : string) (x y : A) :
  (if decide (s = "") then x else y) = (if isEmpty s then x else y).
Proof.
  destruct s as [|c s].
  - rewrite decide_True by reflexivity. reflexivity.
  - rewrite decide_False by discriminate. reflexivity.
Qed.

Lemma if_capture_wanted {A} (s : string) (b : bool) (x y : A) :
  (if decide (s <> "" /\ b = true) then x else y)
  = (if negb (isEmpty s) && b then x else y).
Proof.
  destruct s as [|c s], b.
  - rewrite decide_False; [reflexivity | intros [Hs _]; now apply Hs].
  - rewrite decide_False; [reflexivity | intros [Hs _]; now apply Hs].
  - rewrite decide_True; [reflexivity | split; [discriminate | reflexivity]].
  - rewrite decide_False; [reflexivity | intros [_ Hb]; discriminate Hb].
Qed.

(** C7. The request posted by [sendReport] carries, in this order: one
    form part per key of the metadata, named by the key and holding the
    string value stored under it, the keys in ascending order; a part named
    [email] holding the email, exactly when the email is not empty; a part
    named [description] holding the description, exactly when the
    description is not empty; when the capture filename is not empty and
    the capture-upload box is checked, the capture file as content type
    application/x-renderdoc-capture with filename capture.rdc, followed,
    when there is a thumbnail, by its bytes as image/jpeg with filename
    thumb.jpg; and last the report file as application/zip with filename
    report.zip. None of the form parts has a content type. *)
Theorem multiPart_order (d : CrashDialog) :
  let email := email_text (ui d) in
  let description := description_text (ui d) in
  let metadata := m_ReportMetadata d in
  (request_multiPart <$> m_Request (sendReport d)) = Some (multiPart d)
  /\ multiPart d
     = (map (fun key : string =>
               {| ContentTypeHeader := None;
                  ContentDispositionHeader :=
                    "form-data; name=" ++ dquote ++ key ++ dquote;
                  part_body := Body (toString (value_at metadata key)) |})
          (keys metadata)
        ++ (if decide (email = "") then []
            else
              [{| ContentTypeHeader := None;
                  ContentDispositionHeader :=
                    "form-data; name=" ++ dquote ++ "email" ++ dquote;
                  part_body := Body email |}])
        ++ (if decide (description = "") then []
            else
              [{| ContentTypeHeader := None;
                  ContentDispositionHeader :=
                    "form-data; name=" ++ dquote ++ "description" ++ dquote;
                  part_body := Body description |}])
        ++ (if decide (m_CaptureFilename d <> ""
                       /\ captureUpload_checked (ui d) = true)
            then
              {| ContentTypeHeader := Some "application/x-renderdoc-capture";
                 ContentDispositionHeader :=
                   "form-data; name=" ++ dquote ++ "capture" ++ dquote
                   ++ "; filename=" ++ dquote ++ "capture.rdc" ++ dquote;
                 part_body := BodyDevice (m_CaptureFilename d) |}
                :: match m_Thumbnail d with
                   | Some thumbnail =>
                       [{| ContentTypeHeader := Some "image/jpeg";
                           ContentDispositionHeader :=
                             "form-data; name=" ++ dquote ++ "thumb" ++ dquote
                             ++ "; filename=" ++ dquote ++ "thumb.jpg" ++ dquote;
                           part_body := Body (thumb_data thumbnail) |}]
                   | None => []
                   end
            else [])
        ++ [{| ContentTypeHeader := Some "application/zip";
               ContentDispositionHeader :=
                 "form-data; name=" ++ dquote ++ "report" ++ dquote
                 ++ "; filename=" ++ dquote ++ "report.zip" ++ dquote;
               part_body := BodyDevice (m_ReportPath d) |}])%list
  /\ NoDup (keys metadata)
  /\ Sorted String.le (keys metadata)
  /\ (forall key, key ∈ keys metadata <-> is_Some (metadata !! key)).
Proof.
  intros email description metadata.
  split; [reflexivity|]. split; [|split; [|split]].
  - unfold multiPart. fold email. fold description. fold metadata.
    rewrite foldl_push_back. unfold push_back.
    rewrite (map_ext _ _ (metadata_part_eq metadata)).
    rewrite !if_isEmpty, if_capture_wanted.
    unfold email_part, description_part, capture_part, thumb_part, report_part.
    destruct (isEmpty email), (isEmpty description),
      (negb (isEmpty (m_CaptureFilename d)) && captureUpload_checked (ui d)),
      (m_Thumbnail d); cbn [negb app]; rewrite <- ?app_assoc; reflexivity.
  - rewrite keys_Permutation. apply NoDup_fst_map_to_list.
  - apply Sorted_merge_sort. apply _.
  - apply elem_of_keys.
Qed.

(** ** The send button *)

(** C8. With the capture-upload box checked and any answer but Yes to its
    confirmation, the send handler only unchecks the box: the stage, the
    configuration, what has been saved and the request are as before. *)
Theorem send_declined (captureAnswer emailAnswer : StandardButton) (d : CrashDialog)
    (Hchecked : captureUpload_checked (ui d) = true)
    (Hanswer : captureAnswer <> Yes) :
  let d' := on_send_clicked captureAnswer emailAnswer d in
  d' = on_ui (set_captureUpload_checked false) d
  /\ captureUpload_checked (ui d') = false
  /\ m_Stage d' = m_Stage d
  /\ reportGroup_visible (ui d') = reportGroup_visible (ui d)
  /\ m_Config d' = m_Config d
  /\ saved d' = saved d
  /\ m_Request d' = m_Request d
  /\ m_UploadTimer d' = m_UploadTimer d.
Proof.
  intros d'.
  assert (Hd : d' = on_ui (set_captureUpload_checked false) d).
  { unfold d', on_send_clicked. rewrite Hchecked.
    destruct captureAnswer; [contradiction | reflexivity | reflexivity]. }
  rewrite Hd. repeat split.
Qed.

(** C10. When the send handler gets past both questions, the remember flag
    of the configuration becomes the state of the checkbox, and the stored
    email address becomes the email text if the box is checked and the text
    is not empty, and stays what it was otherwise. The configuration is
    then saved, a request posted and the stage set to Uploading. *)
Theorem send_saves_email_preferences
    (captureAnswer emailAnswer : StandardButton) (d : CrashDialog)
    (Hcapture : captureUpload_checked (ui d) = false \/ captureAnswer = Yes)
    (Hemail : CrashReport_EmailNagged (m_Config d) = true
              \/ isEmpty (email_text (ui d)) = false
              \/ emailAnswer <> Yes) :
  let d' := on_send_clicked captureAnswer emailAnswer d in
  CrashReport_ShouldRememberEmail (m_Config d') = rememberEmail_checked (ui d)
  /\ CrashReport_EmailAddress (m_Config d')
     = (if rememberEmail_checked (ui d) && negb (isEmpty (email_text (ui d)))
        then email_text (ui d)
        else CrashReport_EmailAddress (m_Config d))
  /\ CrashReport_LastOpenedCapture (m_Config d')
     = CrashReport_LastOpenedCapture (m_Config d)
  /\ CrashReport_ReportedBugs (m_Config d') = CrashReport_ReportedBugs (m_Config d)
  /\ head (saved d') = Some (m_Config d')
  /\ (exists r, m_Request d' = Some r /\ reply_running r = true)
  /\ m_Stage d' = Uploading.
Proof.
  intros d'. unfold d', on_send_clicked.
  assert (captureUpload_checked (ui d) && negb (is_Yes captureAnswer) = false) as ->.
  { destruct Hcapture as [-> | ->]; [reflexivity | apply andb_false_r]. }
  set (nag := negb (CrashReport_EmailNagged (m_Config d))
              && isEmpty (email_text (ui d))).
  assert (nag && is_Yes emailAnswer = false) as ->.
  { unfold nag. destruct Hemail as [-> | [-> | Hno]];
      [reflexivity | apply andb_false_iff; left; apply andb_false_r |].
    destruct emailAnswer; [contradiction | apply andb_false_r..]. }
  destruct nag; simpl;
    destruct (rememberEmail_checked (ui d)), (isEmpty (email_text (ui d)));
    simpl; repeat split; eauto.
Qed.

(** ** Construction *)

(** C9. When the descriptor's "replaycrash" value converts to 0, or the
    capture path recorded in the configuration does not exist, the
    constructor hides the capture label, the capture-upload box, the capture
    filename and the preview frame, and leaves [m_CaptureFilename] empty and
    no thumbnail. *)
Theorem constructor_without_capture
    (w : World) (setupUi : Ui) (cfg : PersistantConfig)
    (crashReportJSON : gmap string QVariant)
    (Hnone : toUInt (value_at crashReportJSON "replaycrash") = 0
             \/ QFileInfo_exists w (CrashReport_LastOpenedCapture cfg) = false) :
  let d := CrashDialog_new w setupUi cfg crashReportJSON in
  m_CaptureFilename d = ""
  /\ captureLabel_visible (ui d) = false
  /\ captureUpload_visible (ui d) = false
  /\ captureFilename_visible (ui d) = false
  /\ capturePreviewFrame_visible (ui d) = false
  /\ m_Thumbnail d = None
  /\ m_Stage d = FillingDetails.
Proof.
  intros d. unfold d, CrashDialog_new.
  assert (Hkey : value_at (<["report" := value_at crashReportJSON "report"]>
                             crashReportJSON) "replaycrash"
                 = value_at crashReportJSON "replaycrash").
  { unfold value_at at 1 3. now rewrite lookup_insert_ne. }
  rewrite Hkey. simpl.
  assert ((negb (toUInt (value_at crashReportJSON "replaycrash") =? 0)
           && QFileInfo_exists w (CrashReport_LastOpenedCapture cfg)) = false) as ->.
  { destruct Hnone as [-> | ->]; [reflexivity | apply andb_false_r]. }
  repeat split.
Qed.

(** ** The stage machine *)

Lemma consistent_start (w : World) (setupUi : Ui) (cfg : PersistantConfig)
    (crashReportJSON : gmap string QVariant) :
  consistent (dialog (start w setupUi cfg crashReportJSON))
  /\ m_Stage (dialog (start w setupUi cfg crashReportJSON)) = FillingDetails.
Proof.
  unfold start, CrashDialog_new, consistent. simpl.
  destruct (negb _ && _); [|repeat split].
  destruct (OpenFile w _); [|repeat split].
  destruct (negb _); repeat split.
Qed.

Lemma core_reply_error (err : string) (d : CrashDialog) :
  core (reply_error err d) = core d
  /\ m_Request (reply_error err d) = m_Request d
  /\ result (reply_error err d) = result d
  /\ uploadRetry_enabled (ui (reply_error err d)) = true.
Proof. repeat split. Qed.

Lemma core_reply_uploadProgress (sent total ns : Z) (d d' : CrashDialog) :
  reply_uploadProgress sent total ns d = Some d' ->
  core d' = core d /\ m_Request d' = m_Request d /\ result d' = result d.
Proof.
  unfold reply_uploadProgress. intros Hp.
  destruct (_ && _); [|injection Hp as <-; repeat split].
  destruct (Double.to_int _); [|discriminate]. simpl in Hp.
  destruct (Double.to_qulonglong _); [|discriminate]. simpl in Hp.
  destruct (Double.gt _ _); injection Hp as <-; repeat split.
Qed.

Lemma core_reply_finished (body : QByteArray) (d : CrashDialog) :
  (reply_finished body d = d
   \/ core (reply_finished body d) = (Reported, false, false, true))
  /\ m_Request (reply_finished body d) = m_Request d
  /\ result (reply_finished body d) = result d.
Proof.
  unfold reply_finished. destruct (uploadRetry_enabled (ui d)).
  - repeat split. now left.
  - repeat split. right. reflexivity.
Qed.


Lemma core_on_send_clicked (a1 a2 : StandardButton) (d : CrashDialog) :
  result (on_send_clicked a1 a2 d) = result d
  /\ ((core (on_send_clicked a1 a2 d) = core d
       /\ m_Request (on_send_clicked a1 a2 d) = m_Request d)
      \/ core (on_send_clicked a1 a2 d) = (Uploading, false, true, false)).
Proof.
  unfold on_send_clicked.
  destruct (_ && negb _); [split; [reflexivity | left; split; reflexivity]|].
  destruct (negb _ && isEmpty _); simpl;
    destruct (is_Yes a2); simpl;
    try (split; [reflexivity | left; split; reflexivity]);
    destruct (rememberEmail_checked (ui d) && _);
    split; try reflexivity; right; reflexivity.
Qed.

Lemma core_abort (err : string) (d : CrashDialog) :
  core (abort err d) = core d /\ result (abort err d) = result d.
Proof.
  unfold abort. destruct (m_Request d) as [r|]; [|split; reflexivity].
  destruct (reply_running r); [|split; reflexivity].
  unfold reply_finished. simpl. split; reflexivity.
Qed.

Lemma core_on_buttonBox_accepted (n1 n2 : Z) (d : CrashDialog) :
  core (on_buttonBox_accepted n1 n2 d) = core d
  /\ m_Request (on_buttonBox_accepted n1 n2 d) = m_Request d.
Proof.
  unfold on_buttonBox_accepted.
  destruct (negb _ && _); [|split; reflexivity].
  match goal with |- context [20 <? ?x] => destruct (20 <? x) end;
    split; reflexivity.
Qed.

Lemma core_apply_edit (e : UserEdit) (d : CrashDialog) :
  core (apply_edit e d) = core d
  /\ m_Request (apply_edit e d) = m_Request d
  /\ result (apply_edit e d) = result d.
Proof. destruct e; repeat split. Qed.

Lemma core_mark_finished (d : CrashDialog) :
  core (mark_finished d) = core d
  /\ result (mark_finished d) = result d
  /\ uploadRetry_enabled (ui (mark_finished d)) = uploadRetry_enabled (ui d)
  /\ (m_Request d = None -> m_Request (mark_finished d) = None).
Proof.
  unfold mark_finished. destruct (m_Request d) eqn:E; repeat split; intros;
  try discriminate; auto.
Qed.


Lemma consistent_stage (d : CrashDialog) (stage : ReportStage) :
  core d = (stage, stage_eqb stage FillingDetails, stage_eqb stage Uploading,
            stage_eqb stage Reported) ->
  stage <> FillingDetails -> consistent d.
Proof.
  unfold core, consistent. intros Hc Hne.
  injection Hc as -> -> -> ->. repeat split. contradiction.
Qed.

Lemma user_Some (guard : bool) (s s' : Session) (d : CrashDialog) :
  user guard s d = Some s' ->
  is_open (dialog s) = true /\ guard = true
  /\ s' = {| dialog := d; cancelQuestion := false |}.
Proof.
  unfold user. destruct (is_open (dialog s)), (cancelQuestion s), guard;
    simpl; intros Hs; try discriminate.
  injection Hs as <-. repeat split.
Qed.

Lemma network_Some (s s' : Session) (d : option CrashDialog) :
  network s d = Some s' ->
  is_open (dialog s) = true /\ reply_live (dialog s) = true
  /\ exists d', d = Some d' /\ dialog s' = d'.
Proof.
  unfold network. destruct (is_open (dialog s)), (reply_live (dialog s));
    simpl; intros Hs; try discriminate.
  destruct d as [d'|]; simpl in Hs; [|discriminate].
  injection Hs as <-. repeat split. eexists. split; reflexivity.
Qed.

Lemma stage_eqb_eq (a b : ReportStage) : stage_eqb a b = true -> a = b.
Proof. destruct a, b; simpl; congruence. Qed.

Lemma stage_follows_refl (a : ReportStage) : stage_follows a a = true.
Proof. destruct a; reflexivity. Qed.

Lemma reply_live_Some (d : CrashDialog) : reply_live d = true -> m_Request d <> None.
Proof. unfold reply_live. destruct (m_Request d); congruence. Qed.

Lemma consistent_kept (d d' : CrashDialog) :
  consistent d -> core d' = core d ->
  (m_Stage d = FillingDetails -> m_Request d' = None) ->
  consistent d'.
Proof.
  unfold core, consistent. intros (Hr & Hu & Hd & Hnone) Hc Hreq.
  injection Hc as -> -> -> ->. repeat split; auto.
Qed.

(** A step that keeps the stage, the groups and the result code. *)
Lemma step_keeps (s s' : Session) (ev : Event) :
  consistent (dialog s) -> is_open (dialog s) = true ->
  core (dialog s') = core (dialog s) ->
  result (dialog s') = result (dialog s) ->
  (m_Stage (dialog s) = FillingDetails -> m_Request (dialog s') = None) ->
  consistent (dialog s') /\ orderly (s, ev, s').
Proof.
  intros Hcons Hopen Hc Hres Hreq.
  split; [eapply consistent_kept; eauto|].
  unfold orderly. split.
  - unfold core in Hc. injection Hc as -> _ _ _. apply stage_follows_refl.
  - intros _ Hclosed. unfold is_open in *. rewrite Hres in Hclosed. congruence.
Qed.

(** A step that moves on to the next stage. *)
Lemma step_advances (s s' : Session) (ev : Event) (stage : ReportStage) :
  is_open (dialog s) = true ->
  core (dialog s')
  = (stage, stage_eqb stage FillingDetails, stage_eqb stage Uploading,
     stage_eqb stage Reported) ->
  stage <> FillingDetails ->
  stage_follows (m_Stage (dialog s)) stage = true ->
  result (dialog s') = result (dialog s) ->
  consistent (dialog s') /\ orderly (s, ev, s').
Proof.
  intros Hopen Hc Hne Hfollows Hres.
  split; [eapply consistent_stage; eauto|].
  unfold orderly. split.
  - unfold core in Hc. injection Hc as -> _ _ _. exact Hfollows.
  - intros _ Hclosed. unfold is_open in *. rewrite Hres in Hclosed. congruence.
Qed.

(** A step that closes the dialog. *)
Lemma step_closes (s s' : Session) (ev : Event) :
  consistent (dialog s) ->
  core (dialog s') = core (dialog s) ->
  (m_Stage (dialog s) = FillingDetails -> m_Request (dialog s') = None) ->
  (m_Stage (dialog s) <> Uploading
   \/ exists errorString, ev = UploadCancelAnswered Yes errorString) ->
  consistent (dialog s') /\ orderly (s, ev, s').
Proof.
  intros Hcons Hc Hreq Hwhy.
  split; [eapply consistent_kept; eauto|].
  unfold orderly. split.
  - unfold core in Hc. injection Hc as -> _ _ _. apply stage_follows_refl.
  - intros Hup _. destruct Hwhy as [Hne | Hyes]; [contradiction | exact Hyes].
Qed.

Lemma shown_stage (d : CrashDialog) :
  consistent d ->
  (reportGroup_visible (ui d) = true -> m_Stage d = FillingDetails)
  /\ (uploadingGroup_visible (ui d) = true -> m_Stage d = Uploading)
  /\ (reportedGroup_visible (ui d) = true -> m_Stage d = Reported).
Proof.
  intros (Hr & Hu & Hd & _). rewrite Hr, Hu, Hd.
  repeat split; apply stage_eqb_eq.
Qed.

Lemma step_sound (s s' : Session) (ev : Event) :
  consistent (dialog s) -> step s ev = Some s' ->
  consistent (dialog s') /\ orderly (s, ev, s').
Proof.
  intros Hcons Hstep.
  pose proof (shown_stage _ Hcons) as (Hfill & Hupl & Hrep).
  pose proof Hcons as (_ & _ & _ & Hnone).
  destruct s as [d q]. cbn [dialog cancelQuestion] in *.
  destruct ev as [e | a1 a2 | | | answer err | | err | sent total ns | body | n1 n2];
    cbn [step dialog cancelQuestion] in Hstep.
  - (* an edit *)
    apply user_Some in Hstep as (Hopen & _ & ->).
    destruct (core_apply_edit e d) as (Hc & Hq & Hr).
    apply step_keeps; simpl; auto. intros Hs. rewrite Hq. auto.
  - (* send *)
    apply user_Some in Hstep as (Hopen & Hshown & ->).
    destruct (core_on_send_clicked a1 a2 d) as (Hr & [[Hc Hq] | Hc]).
    + apply step_keeps; simpl; auto. intros Hs. rewrite Hq. auto.
    + apply (step_advances _ _ _ Uploading); simpl; auto.
      now rewrite (Hfill Hshown).
  - (* cancel *)
    apply user_Some in Hstep as (Hopen & Hshown & ->).
    apply step_closes; simpl; auto.
    left. rewrite (Hfill Hshown). discriminate.
  - (* cancel upload: the question opens *)
    destruct (is_open d && negb q && uploadingGroup_visible (ui d)) eqn:Hg;
      [|discriminate].
    injection Hstep as <-.
    apply andb_prop in Hg as [Hg _]. apply andb_prop in Hg as [Hopen _].
    apply step_keeps; simpl; auto.
  - (* cancel upload: the answer *)
    destruct (is_open d && q) eqn:Hg; [|discriminate].
    injection Hstep as <-. apply andb_prop in Hg as [Hopen _].
    destruct answer; unfold on_uploadCancel_clicked;
      [|apply step_keeps; simpl; now auto..].
    destruct (core_abort err d) as (Hc & _).
    apply step_closes; simpl; eauto.
  - (* retry *)
    apply user_Some in Hstep as (Hopen & Hshown & ->).
    apply andb_prop in Hshown as [Hshown _].
    apply step_keeps; simpl; auto.
    intros Hs. rewrite (Hupl Hshown) in Hs. discriminate.
  - (* error *)
    apply network_Some in Hstep as (Hopen & _ & d' & [= <-] & Hd').
    cbn [dialog] in Hopen.
    apply step_keeps; simpl; rewrite ?Hd'; auto.
  - (* upload progress *)
    apply network_Some in Hstep as (Hopen & _ & d' & Hp & Hd').
    cbn [dialog] in Hopen, Hp.
    apply core_reply_uploadProgress in Hp as (Hc & Hq & Hr).
    apply step_keeps; simpl; rewrite ?Hd'; auto. intros Hs. rewrite Hq. auto.
  - (* finished *)
    apply network_Some in Hstep as (Hopen & Hlive & d' & [= <-] & Hd').
    cbn [dialog] in Hopen, Hlive.
    destruct (core_mark_finished d) as (Hmc & Hmr & _ & Hmq).
    destruct (core_reply_finished body (mark_finished d)) as ([Hsame | Hc] & Hq & Hr).
    + apply step_keeps; simpl; rewrite ?Hd', ?Hsame; auto.
    + apply (step_advances _ _ _ Reported); simpl; rewrite ?Hd'; auto;
        [|congruence].
      apply reply_live_Some in Hlive.
      destruct (m_Stage d); [exfalso; auto | reflexivity..].
  - (* accept *)
    apply user_Some in Hstep as (Hopen & Hshown & ->).
    destruct (core_on_buttonBox_accepted n1 n2 d) as (Hc & Hq).
    apply step_closes; cbn [dialog]; auto.
    + intros Hs. rewrite Hq. auto.
    + left. rewrite (Hrep Hshown). discriminate.
Qed.

Lemma run_orderly (evs : list Event) (s : Session) :
  consistent (dialog s) -> Forall orderly (run s evs).
Proof.
  revert s. induction evs as [|ev evs IH]; intros s Hcons; simpl.
  - constructor.
  - destruct (step s ev) as [s'|] eqn:Hstep; [|constructor].
    destruct (step_sound s s' ev Hcons Hstep) as (Hcons' & Hord).
    constructor; [exact Hord | apply IH, Hcons'].
Qed.

(** C4. The dialog starts in the FillingDetails stage, and along every
    sequence of user and network events each step leaves the stage where it
    is or moves it to the next one in the order FillingDetails, Uploading,
    Reported; and a step that closes the dialog from the Uploading stage is a
    Yes to the cancel question. *)
Theorem stages_in_order (w : World) (setupUi : Ui) (cfg : PersistantConfig)
    (crashReportJSON : gmap string QVariant) (evs : list Event) :
  m_Stage (dialog (start w setupUi cfg crashReportJSON)) = FillingDetails
  /\ Forall orderly (run (start w setupUi cfg crashReportJSON) evs).
Proof.
  destruct (consistent_start w setupUi cfg crashReportJSON) as (Hcons & Hstage).
  split; [exact Hstage | apply run_orderly, Hcons].
Qed.

End DialogProperties.

(** ** The theorems at concrete inputs *)

(** C3 as stated fails. Of 100,000,000 bytes with 57,000,000 sent the bar
    is given 5699, the integer part of [10000 * sent / total] being 5700:
    the quotient and the product are each rounded to a double, and the
    product comes out just below 5700. And with one byte of 2^62 sent in
    five seconds the remaining seconds do not fit a [qulonglong], so the
    conversion has no defined value. *)
Lemma uploadProgress_accounting_counterexample :
  (0 < 57000000 /\ 57000000 < 100000000 /\ 0 < 2000000000
   /\ 10000 * 57000000 / 100000000 = 5700
   /\ ((fun d => progressBar_value (ui d))
         <$> @reply_uploadProgress Sample.externals 57000000 100000000 2000000000
               Sample.uploading)
      = Some 5699)
  /\ (0 < 1 /\ 1 < 2 ^ 62 /\ 0 < 5000000000
      /\ @reply_uploadProgress Sample.externals 1 (2 ^ 62) 5000000000
           Sample.uploading
         = None).
Proof.
  split; repeat split; try lia; vm_compute; reflexivity.
Qed.

Lemma uploadProgress_accounting_witness :
  0 < 1500000 /\ 1500000 < 10000000 /\ 10000000 < 2 ^ 50
  /\ 0 < 2000000000 < 2 ^ 53 /\ 0 < 500000000 < 2 ^ 53
  /\ 10000000 * 2000000000 < 1500000 * (1000000000 * 2 ^ 62)
  /\ 10000000 * 500000000 < 1500000 * (1000000000 * 2 ^ 62)
  /\ @reply_uploadProgress Sample.externals 1500000 10000000 2000000000
       Sample.uploading
     = Some (on_ui (set_progressText_text
                      ("Uploading report..." ++ newline
                       ++ "1.50 MB / 10.00 MB. 11 seconds remaining (0.75 MB/s)"))
               (on_ui (set_progressBar_value 1500) Sample.uploading))
  /\ @reply_uploadProgress Sample.externals 1500000 10000000 500000000
       Sample.uploading
     = Some (on_ui (set_progressBar_value 1500) Sample.uploading).
Proof.
  split; [lia|]. split; [lia|]. split; [lia|]. split; [lia|]. split; [lia|].
  split; [lia|]. split; [lia|]. split.
  - destruct (@uploadProgress_accounting Sample.externals
                1500000 10000000 2000000000 Sample.uploading
                ltac:(lia) ltac:(lia) ltac:(lia) ltac:(lia) ltac:(lia))
      as (value & secondsRemaining & Hvalue & _ & _ & Hremaining & _ & _ & _ & _
          & Hreply & _).
    vm_compute in Hvalue. injection Hvalue as <-.
    vm_compute in Hremaining. injection Hremaining as <-.
    rewrite Hreply. vm_compute. reflexivity.
  - destruct (@uploadProgress_accounting Sample.externals
                1500000 10000000 500000000 Sample.uploading
                ltac:(lia) ltac:(lia) ltac:(lia) ltac:(lia) ltac:(lia))
      as (value & secondsRemaining & Hvalue & _ & _ & _ & _ & _ & _ & _
          & Hreply & _).
    vm_compute in Hvalue. injection Hvalue as <-.
    rewrite Hreply. vm_compute. reflexivity.
Defined.

Lemma multiPart_order_witness :
  multiPart Sample.detailed
  = [ {| ContentTypeHeader := None;
         ContentDispositionHeader := "form-data; name=" ++ dquote ++ "gpu" ++ dquote;
         part_body := Body "Radeon" |};
      {| ContentTypeHeader := None;
         ContentDispositionHeader := "form-data; name=" ++ dquote ++ "os" ++ dquote;
         part_body := Body "Linux" |};
      {| ContentTypeHeader := None;
         ContentDispositionHeader :=
           "form-data; name=" ++ dquote ++ "version" ++ dquote;
         part_body := Body "v1.0" |};
      {| ContentTypeHeader := None;
         ContentDispositionHeader := "form-data; name=" ++ dquote ++ "email" ++ dquote;
         part_body := Body "old@example.org" |};
      {| ContentTypeHeader := None;
         ContentDispositionHeader :=
           "form-data; name=" ++ dquote ++ "description" ++ dquote;
         part_body := Body "It crashed." |};
      {| ContentTypeHeader := Some "application/x-renderdoc-capture";
         ContentDispositionHeader :=
           "form-data; name=" ++ dquote ++ "capture" ++ dquote
           ++ "; filename=" ++ dquote ++ "capture.rdc" ++ dquote;
         part_body := BodyDevice "/captures/last.rdc" |};
      {| ContentTypeHeader := Some "image/jpeg";
         ContentDispositionHeader :=
           "form-data; name=" ++ dquote ++ "thumb" ++ dquote
           ++ "; filename=" ++ dquote ++ "thumb.jpg" ++ dquote;
         part_body := Body "JFIF" |};
      {| ContentTypeHeader := Some "application/zip";
         ContentDispositionHeader :=
           "form-data; name=" ++ dquote ++ "report" ++ dquote
           ++ "; filename=" ++ dquote ++ "report.zip" ++ dquote;
         part_body := BodyDevice "/tmp/report.zip" |} ]
  /\ multiPart Sample.fresh
     = [ {| ContentTypeHeader := None;
            ContentDispositionHeader :=
              "form-data; name=" ++ dquote ++ "version" ++ dquote;
            part_body := Body "v1.0" |};
         {| ContentTypeHeader := None;
            ContentDispositionHeader :=
              "form-data; name=" ++ dquote ++ "email" ++ dquote;
            part_body := Body "old@example.org" |};
         {| ContentTypeHeader := Some "application/zip";
            ContentDispositionHeader :=
              "form-data; name=" ++ dquote ++ "report" ++ dquote
              ++ "; filename=" ++ dquote ++ "report.zip" ++ dquote;
            part_body := BodyDevice "/tmp/report.zip" |} ].
Proof.
  split.
  - pose proof (@multiPart_order Sample.externals Sample.detailed) as Hparts.
    cbv zeta in Hparts. destruct Hparts as (_ & -> & _).
    vm_compute. reflexivity.
  - pose proof (@multiPart_order Sample.externals Sample.fresh) as Hparts.
    cbv zeta in Hparts. destruct Hparts as (_ & -> & _).
    vm_compute. reflexivity.
Defined.

Lemma error_then_finished_keeps_stage_witness :
  let d := reply_error "Connection closed" Sample.uploading in
  uploadRetry_enabled (ui d) = true
  /\ m_Stage d = Uploading
  /\ progressText_text (ui d) = "Network error uploading:" ++ newline ++ "Connection closed"
  /\ @reply_finished Sample.externals "" d = d.
Proof.
  pose proof (@error_then_finished_keeps_stage Sample.externals
                "Connection closed" "" Sample.uploading
                (reply_error "Connection closed" Sample.uploading) eq_refl)
    as (_ & Htext & Hretry & _ & _ & _ & _ & _ & _ & Hfinished).
  split; [exact Hretry|]. split; [reflexivity|]. split; [exact Htext | exact Hfinished].
Defined.

Lemma finished_reports_witness :
  uploadRetry_enabled (ui Sample.uploading) = false
  /\ m_Stage (@reply_finished Sample.externals "abc123" Sample.uploading) = Reported
  /\ finishedText_text (ui (@reply_finished Sample.externals "abc123" Sample.uploading))
     = "<p>Your report has been uploaded, thank you for your help!</p>"
       ++ "<p>The unique anonymous URL for your report is <a href=" ++ dquote
       ++ "https://renderdoc.example/bugreporter/report/abc123" ++ dquote
       ++ ">https://renderdoc.example/bugreporter/report/abc123</a>.</p>"
  /\ finishedText_text (ui (@reply_finished Sample.externals "" Sample.uploading))
     = "<p>Your report has been uploaded, thank you for your help!</p>".
Proof.
  pose proof (@finished_reports Sample.externals "abc123" Sample.uploading eq_refl)
    as (_ & Hstage & _ & _ & _ & _ & Htext & _).
  pose proof (@finished_reports Sample.externals "" Sample.uploading eq_refl)
    as (_ & _ & _ & _ & _ & _ & Hempty & _).
  split; [reflexivity|]. split; [exact Hstage|]. split; [exact Htext | exact Hempty].
Defined.

Lemma send_declined_witness :
  captureUpload_checked (ui Sample.withCapture) = true
  /\ No <> Yes
  /\ m_Stage (@on_send_clicked Sample.externals No No Sample.withCapture)
     = FillingDetails
  /\ captureUpload_checked
       (ui (@on_send_clicked Sample.externals No No Sample.withCapture)) = false
  /\ m_Request (@on_send_clicked Sample.externals No No Sample.withCapture) = None
  /\ saved (@on_send_clicked Sample.externals No No Sample.withCapture) = [].
Proof.
  assert (Hno : No <> Yes) by discriminate.
  pose proof (@send_declined Sample.externals No No Sample.withCapture eq_refl Hno)
    as (_ & Hbox & Hstage & _ & _ & Hsaved & Hrequest & _).
  split; [reflexivity|]. split; [exact Hno|]. split; [exact Hstage|].
  split; [exact Hbox|]. split; [exact Hrequest | exact Hsaved].
Defined.

Lemma send_saves_email_preferences_witness :
  let d' := @on_send_clicked Sample.externals Yes No Sample.withEmail in
  let plain := @on_send_clicked Sample.externals Yes No Sample.fresh in
  CrashReport_ShouldRememberEmail (m_Config d') = true
  /\ CrashReport_EmailAddress (m_Config d') = "me@example.org"
  /\ CrashReport_ShouldRememberEmail (m_Config plain) = false
  /\ CrashReport_EmailAddress (m_Config plain) = "old@example.org".
Proof.
  pose proof (@send_saves_email_preferences Sample.externals Yes No Sample.withEmail
                (or_introl eq_refl) (or_introl eq_refl))
    as (Hflag & Haddress & _).
  pose proof (@send_saves_email_preferences Sample.externals Yes No Sample.fresh
                (or_introl eq_refl) (or_introl eq_refl))
    as (Hflag' & Haddress' & _).
  split; [exact Hflag|]. split; [exact Haddress|]. split; [exact Hflag' | exact Haddress'].
Defined.

Lemma constructor_without_capture_witness :
  let d := @CrashDialog_new Sample.externals Sample.world Sample.setupUi
             Sample.config Sample.otherCrashJSON in
  toUInt (value_at Sample.otherCrashJSON "replaycrash") = 0
  /\ m_CaptureFilename d = ""
  /\ captureUpload_visible (ui d) = false
  /\ capturePreviewFrame_visible (ui d) = false.
Proof.
  pose proof (@constructor_without_capture Sample.externals Sample.world
                Sample.setupUi Sample.config Sample.otherCrashJSON
                (or_introl eq_refl))
    as (Hname & _ & Hbox & _ & Hframe & _).
  split; [reflexivity|]. split; [exact Hname|]. split; [exact Hbox | exact Hframe].
Defined.

(** The sample session goes through the three stages in order and is
    accepted at the end. *)
Example sample_session_stages :
  map (fun t : Session * Event * Session => m_Stage (dialog t.2))
    (@run Sample.externals
       (@start Sample.externals Sample.world Sample.setupUi Sample.config
          Sample.replayCrashJSON)
       Sample.events)
  = [FillingDetails; Uploading; Uploading; Uploading; Uploading; Uploading;
     Uploading; Uploading; Reported; Reported].
Proof. vm_compute. reflexivity. Qed.

(** The progress callback at two minutes and five seconds to go. *)
Example progress_text_at_125_seconds :
  (fun d => progressText_text (ui d))
    <$> @reply_uploadProgress Sample.externals 1000000 63500000 2000000000
          Sample.uploading
  = Some ("Uploading report..." ++ newline
          ++ "1.00 MB / 63.50 MB. 02:05 remaining (0.50 MB/s)").
Proof. vm_compute. reflexivity. Qed.

(** The bar value is formed and truncated in double arithmetic: 1.5 of 10
    megabytes show as 1500, and 57 of 100 megabytes as 5699, the product
    [10000.0 * 0.57] being rounded to just below 5700. *)
Example progress_bar_values :
  (fun d => progressBar_value (ui d))
    <$> @reply_uploadProgress Sample.externals 1500000 10000000 500000000
          Sample.uploading
  = Some 1500
  /\ (fun d => progressBar_value (ui d))
       <$> @reply_uploadProgress Sample.externals 57000000 100000000 500000000
             Sample.uploading
     = Some 5699.
Proof. split; vm_compute; reflexivity. Qed.

(** A crash in the replay with the last capture still on disk: the capture
    stays attached and, when the user says so, is uploaded with its
    thumbnail after the metadata and the email. *)
Example capture_is_attached :
  m_CaptureFilename Sample.fresh = "/captures/last.rdc"
  /\ m_Thumbnail Sample.fresh = Some Sample.thumbnail
  /\ map ContentTypeHeader
       (multiPart (@on_send_clicked Sample.externals Yes No Sample.withCapture))
     = [None; None; Some "application/x-renderdoc-capture"; Some "image/jpeg";
        Some "application/zip"].
Proof. repeat split; vm_compute; reflexivity. Qed.

(** * Further properties of the dialog *)

Section MoreProperties.

Context `{Externals}.

(** ** Construction *)

Lemma constructor_members (w : World) (setupUi : Ui) (cfg : PersistantConfig)
    (crashReportJSON : gmap string QVariant) :
  let d := CrashDialog_new w setupUi cfg crashReportJSON in
  m_ReportPath d = toString (value_at crashReportJSON "report")
  /\ m_ReportMetadata d
     = delete "replaycrash"
         (delete "report"
            (<["report" := value_at crashReportJSON "report"]> crashReportJSON))
  /\ m_Config d = cfg /\ saved d = [] /\ m_Request d = None /\ result d = None
  /\ m_ReportID d = ""
  /\ rememberEmail_checked (ui d) = CrashReport_ShouldRememberEmail cfg
  /\ email_text (ui d) = CrashReport_EmailAddress cfg.
Proof.
  unfold CrashDialog_new. simpl.
  destruct (negb _ && _); [|repeat split].
  destruct (OpenFile w _); [|repeat split].
  destruct (negb _); repeat split.
Qed.

(** X1. Whatever the descriptor holds, the metadata to upload is the
    descriptor without its "report" and "replaycrash" entries: those two keys
    are never among the uploaded fields, every other key is, with the value
    the descriptor gives it. The report path is the string under "report",
    empty when the descriptor has none. Construction saves nothing and leaves
    the configuration as it was. *)
Theorem constructor_strips_descriptor (w : World) (setupUi : Ui)
    (cfg : PersistantConfig) (crashReportJSON : gmap string QVariant) :
  let d := CrashDialog_new w setupUi cfg crashReportJSON in
  m_ReportMetadata d !! "report" = None
  /\ m_ReportMetadata d !! "replaycrash" = None
  /\ (forall key, key <> "report" -> key <> "replaycrash" ->
                  m_ReportMetadata d !! key = crashReportJSON !! key)
  /\ (forall key, key ∈ keys (m_ReportMetadata d) <->
                  key <> "report" /\ key <> "replaycrash"
                  /\ is_Some (crashReportJSON !! key))
  /\ m_ReportPath d = toString (value_at crashReportJSON "report")
  /\ (crashReportJSON !! "report" = None -> m_ReportPath d = "")
  /\ m_Config d = cfg /\ saved d = [].
Proof.
  intros d.
  destruct (constructor_members w setupUi cfg crashReportJSON)
    as (Hpath & Hmeta & Hcfg & Hsaved & _).
  fold d in Hpath, Hmeta, Hcfg, Hsaved.
  assert (Hlook : forall key, m_ReportMetadata d !! key
                  = if decide (key = "report") then None
                    else if decide (key = "replaycrash") then None
                    else crashReportJSON !! key).
  { intros key. rewrite Hmeta.
    destruct (decide (key = "report")) as [-> | Hr].
    - rewrite lookup_delete_ne by discriminate. apply lookup_delete_eq.
    - destruct (decide (key = "replaycrash")) as [-> | Hc].
      + apply lookup_delete_eq.
      + rewrite !lookup_delete_ne by congruence.
        now rewrite lookup_insert_ne by congruence. }
  split; [now rewrite Hlook|]. split; [now rewrite Hlook|].
  split.
  { intros key Hr Hc. rewrite Hlook.
    destruct (decide (key = "report")); [contradiction|].
    destruct (decide (key = "replaycrash")); [contradiction | reflexivity]. }
  split.
  { intros key. rewrite elem_of_keys, Hlook.
    destruct (decide (key = "report")) as [-> | Hr].
    - split; [intros [? ?]; discriminate | intros (Hne & _); contradiction].
    - destruct (decide (key = "replaycrash")) as [-> | Hc].
      + split; [intros [? ?]; discriminate | intros (_ & Hne & _); contradiction].
      + tauto. }
  split; [exact Hpath|]. split; [|split; assumption].
  intros Hnone. rewrite Hpath. unfold value_at. now rewrite Hnone.
Qed.


(** X2. For a crash in the replay whose last capture still exists, the
    capture filename is the last opened capture and the filename label shows
    its file name; the capture label, box and filename stay as the form has
    them, and the box is not checked by the constructor. The preview frame is
    shown, with the thumbnail as its picture and the JPEG thumbnail kept for
    the upload, exactly when the capture opens and its thumbnail is not a
    null image; otherwise the frame is hidden and no thumbnail is kept, while
    the capture itself stays on offer. *)
Theorem constructor_with_capture (w : World) (setupUi : Ui) (cfg : PersistantConfig)
    (crashReportJSON : gmap string QVariant)
    (Hreplay : toUInt (value_at crashReportJSON "replaycrash") <> 0)
    (Hexists : QFileInfo_exists w (CrashReport_LastOpenedCapture cfg) = true) :
  let d := CrashDialog_new w setupUi cfg crashReportJSON in
  let cap := QFileInfo_absoluteFilePath w (CrashReport_LastOpenedCapture cfg) in
  let preview :=
    match OpenFile w cap with
    | Succeeded => negb (QImage_isNull w (GetThumbnail w cap Raw 320))
    | UnknownError => false
    end in
  m_CaptureFilename d = CrashReport_LastOpenedCapture cfg
  /\ captureFilename_text (ui d)
     = QFileInfo_fileName w (CrashReport_LastOpenedCapture cfg)
  /\ captureLabel_visible (ui d) = captureLabel_visible setupUi
  /\ captureUpload_visible (ui d) = captureUpload_visible setupUi
  /\ captureFilename_visible (ui d) = captureFilename_visible setupUi
  /\ captureUpload_checked (ui d) = captureUpload_checked setupUi
  /\ capturePreviewFrame_visible (ui d) = preview
  /\ m_Thumbnail d = (if preview then Some (GetThumbnail w cap JPG 0) else None)
  /\ capturePreview_pixmap (ui d)
     = (if preview then Some (GetThumbnail w cap Raw 320)
        else capturePreview_pixmap setupUi).
Proof.
  intros d cap preview. unfold d, CrashDialog_new.
  assert (Hkey : value_at (<["report" := value_at crashReportJSON "report"]>
                             crashReportJSON) "replaycrash"
                 = value_at crashReportJSON "replaycrash").
  { unfold value_at at 1 3. now rewrite lookup_insert_ne. }
  rewrite Hkey. simpl.
  assert ((toUInt (value_at crashReportJSON "replaycrash") =? 0) = false) as ->
      by now apply Z.eqb_neq.
  rewrite Hexists. simpl. fold cap. unfold preview.
  destruct (OpenFile w cap); [|repeat split].
  destruct (QImage_isNull w (GetThumbnail w cap Raw 320)); repeat split.
Qed.

(** ** The email address across two crashes *)

(** X3. The email preferences a send stores are what the next dialog
    starts from: built from the configuration the send saved, it shows the
    remember box as it was left, and as email the address typed when the box
    was checked and an address given. With the box unchecked, or no address
    typed, the next dialog still shows the address stored before: unchecking
    the box does not make the program forget it. *)
Theorem remembered_email_round_trip
    (captureAnswer emailAnswer : StandardButton) (d : CrashDialog)
    (w : World) (setupUi : Ui) (crashReportJSON : gmap string QVariant)
    (Hcapture : captureUpload_checked (ui d) = false \/ captureAnswer = Yes)
    (Hemail : CrashReport_EmailNagged (m_Config d) = true
              \/ isEmpty (email_text (ui d)) = false
              \/ emailAnswer <> Yes) :
  exists cfg,
    head (saved (on_send_clicked captureAnswer emailAnswer d)) = Some cfg
    /\ let next := CrashDialog_new w setupUi cfg crashReportJSON in
       rememberEmail_checked (ui next) = rememberEmail_checked (ui d)
       /\ email_text (ui next)
          = (if rememberEmail_checked (ui d) && negb (isEmpty (email_text (ui d)))
             then email_text (ui d)
             else CrashReport_EmailAddress (m_Config d))
       /\ (rememberEmail_checked (ui d) = false ->
           email_text (ui next) = CrashReport_EmailAddress (m_Config d)).
Proof.
  unfold on_send_clicked.
  assert (captureUpload_checked (ui d) && negb (is_Yes captureAnswer) = false) as ->.
  { destruct Hcapture as [-> | ->]; [reflexivity | apply andb_false_r]. }
  set (nag := negb (CrashReport_EmailNagged (m_Config d))
              && isEmpty (email_text (ui d))).
  assert (nag && is_Yes emailAnswer = false) as ->.
  { unfold nag. destruct Hemail as [-> | [-> | Hno]];
      [reflexivity | apply andb_false_iff; left; apply andb_false_r |].
    destruct emailAnswer; [contradiction | apply andb_false_r..]. }
  eexists. split; [reflexivity|]. cbv zeta.
  match goal with
  | |- context [CrashDialog_new w setupUi ?c crashReportJSON] =>
      destruct (constructor_members w setupUi c crashReportJSON)
        as (_ & _ & _ & _ & _ & _ & _ & Hbox & Htext);
      set (next := CrashDialog_new w setupUi c crashReportJSON) in *
  end.
  assert (Hnext : rememberEmail_checked (ui next) = rememberEmail_checked (ui d)
          /\ email_text (ui next)
             = (if rememberEmail_checked (ui d) && negb (isEmpty (email_text (ui d)))
                then email_text (ui d)
                else CrashReport_EmailAddress (m_Config d))).
  { rewrite Hbox, Htext. clear. destruct nag; simpl;
      destruct (rememberEmail_checked (ui d) && negb (isEmpty (email_text (ui d))));
      split; reflexivity. }
  destruct Hnext as (Hb & Ht). split; [exact Hb|]. split; [exact Ht|].
  intros Hoff. rewrite Ht, Hoff. reflexivity.
Qed.

(** X4. A user who has not been asked for an email before and sends
    without one is asked once: whatever the answer, the configuration records
    that the question was put, and that configuration is the first one saved
    by the click. On the answer Yes nothing
    is sent: no request is posted, the stage and the form stay and the focus
    goes to the email field. A second click with the email still empty no
    longer depends on any answer to that question, and when it is not held
    up by the capture question it posts the request and moves to the
    Uploading stage. *)
Theorem email_nag_once
    (captureAnswer emailAnswer : StandardButton) (d : CrashDialog)
    (Hcapture : captureUpload_checked (ui d) = false \/ captureAnswer = Yes)
    (Hnagged : CrashReport_EmailNagged (m_Config d) = false)
    (Hempty : isEmpty (email_text (ui d)) = true) :
  let d' := on_send_clicked captureAnswer emailAnswer d in
  CrashReport_EmailNagged (m_Config d') = true
  /\ (exists later,
         saved d'
         = (later ++ set_CrashReport_EmailNagged true (m_Config d) :: saved d)%list)
  /\ (emailAnswer = Yes ->
      d' = on_ui (set_email_focus true)
             (Save (on_config (set_CrashReport_EmailNagged true) d))
      /\ m_Request d' = m_Request d /\ m_Stage d' = m_Stage d
      /\ email_focus (ui d') = true
      /\ (forall a b, on_send_clicked captureAnswer a d'
                      = on_send_clicked captureAnswer b d')
      /\ (forall a, m_Stage (on_send_clicked captureAnswer a d') = Uploading
                    /\ exists r, m_Request (on_send_clicked captureAnswer a d') = Some r))
  /\ (emailAnswer <> Yes -> m_Stage d' = Uploading).
Proof.
  intros d'.
  assert (Hgate : captureUpload_checked (ui d) && negb (is_Yes captureAnswer) = false).
  { destruct Hcapture as [-> | ->]; [reflexivity | apply andb_false_r]. }
  assert (Hd' : d' = if is_Yes emailAnswer
               then on_ui (set_email_focus true)
                      (Save (on_config (set_CrashReport_EmailNagged true) d))
               else setStage Uploading
                      (sendReport
                         (Save
                            (let d0 := Save (on_config (set_CrashReport_EmailNagged true) d) in
                             let d1 := on_config (set_CrashReport_ShouldRememberEmail
                                                    (rememberEmail_checked (ui d0))) d0 in
                             if rememberEmail_checked (ui d1)
                                && negb (isEmpty (email_text (ui d1)))
                             then on_config (set_CrashReport_EmailAddress
                                               (email_text (ui d1))) d1
                             else d1)))).
  { unfold d', on_send_clicked. rewrite Hgate, Hnagged, Hempty. simpl.
    destruct (is_Yes emailAnswer); reflexivity. }
  split; [|split; [|split]].
  - rewrite Hd'. destruct (is_Yes emailAnswer); [reflexivity|]. simpl.
    rewrite Hempty, andb_false_r. reflexivity.
  - rewrite Hd'. destruct (is_Yes emailAnswer); [exists []; reflexivity|]. simpl.
    rewrite Hempty, andb_false_r. simpl.
    eexists [_]. reflexivity.
  - intros ->. simpl in Hd'. rewrite Hd'.
    split; [reflexivity|]. split; [reflexivity|]. split; [reflexivity|].
    split; [reflexivity|].
    assert (Hsecond : forall a,
               on_send_clicked captureAnswer a
                 (on_ui (set_email_focus true)
                    (Save (on_config (set_CrashReport_EmailNagged true) d)))
               = setStage Uploading
                   (sendReport
                      (Save
                         (on_config (set_CrashReport_ShouldRememberEmail
                                       (rememberEmail_checked (ui d)))
                            (on_ui (set_email_focus true)
                               (Save (on_config (set_CrashReport_EmailNagged true) d))))))).
    { intros a. unfold on_send_clicked at 1. simpl.
      rewrite Hgate, Hempty, andb_false_r. reflexivity. }
    split.
    + intros a b. now rewrite !Hsecond.
    + intros a. rewrite Hsecond. split; [reflexivity|]. eexists. reflexivity.
  - intros Hno. rewrite Hd'.
    destruct emailAnswer; [contradiction | reflexivity | reflexivity].
Qed.


(** ** What a request carries *)

Lemma multiPart_eq (d : CrashDialog) :
  multiPart d
  = (map (metadata_part (m_ReportMetadata d)) (keys (m_ReportMetadata d))
     ++ (if isEmpty (email_text (ui d)) then [] else [email_part (email_text (ui d))])
     ++ (if isEmpty (description_text (ui d)) then []
         else [description_part (description_text (ui d))])
     ++ (if negb (isEmpty (m_CaptureFilename d)) && captureUpload_checked (ui d)
         then
           capture_part (m_CaptureFilename d)
             :: match m_Thumbnail d with
                | Some thumbnail => [thumb_part thumbnail]
                | None => []
                end
         else [])
     ++ [report_part (m_ReportPath d)])%list.
Proof.
  unfold multiPart. rewrite foldl_push_back. unfold push_back. simpl.
  destruct (isEmpty (email_text (ui d))), (isEmpty (description_text (ui d))),
    (negb (isEmpty (m_CaptureFilename d)) && captureUpload_checked (ui d)),
    (m_Thumbnail d); simpl; rewrite <- ?app_assoc; reflexivity.
Qed.

(** A part with a content type other than that of the report is the capture
    or its thumbnail, and is there only for a checked box and a capture. *)
Lemma multiPart_typed (d : CrashDialog) (part : QHttpPart) (type : string) :
  part ∈ multiPart d -> ContentTypeHeader part = Some type ->
  type <> "application/zip" ->
  captureUpload_checked (ui d) = true /\ isEmpty (m_CaptureFilename d) = false
  /\ (part = capture_part (m_CaptureFilename d)
      \/ exists thumbnail, m_Thumbnail d = Some thumbnail /\ part = thumb_part thumbnail).
Proof.
  rewrite multiPart_eq, !elem_of_app. intros Hin Htype Hzip.
  destruct Hin as [Hin | [Hin | [Hin | [Hin | Hin]]]].
  - apply list_elem_of_fmap in Hin as (key & -> & _). discriminate.
  - destruct (isEmpty (email_text (ui d))); [inversion Hin|].
    apply list_elem_of_singleton in Hin as ->. discriminate.
  - destruct (isEmpty (description_text (ui d))); [inversion Hin|].
    apply list_elem_of_singleton in Hin as ->. discriminate.
  - destruct (isEmpty (m_CaptureFilename d)); [inversion Hin|].
    destruct (captureUpload_checked (ui d)); [|inversion Hin]. simpl in Hin.
    split; [reflexivity|]. split; [reflexivity|].
    apply elem_of_cons in Hin as [-> | Hin]; [now left|]. right.
    destruct (m_Thumbnail d) as [thumbnail|]; [|inversion Hin].
    apply list_elem_of_singleton in Hin as ->. now exists thumbnail.
  - apply list_elem_of_singleton in Hin as ->. simpl in Htype. congruence.
Qed.

(** The parts depend on the form and the attachments alone. *)
Lemma multiPart_ext (d1 d2 : CrashDialog) :
  email_text (ui d1) = email_text (ui d2) ->
  description_text (ui d1) = description_text (ui d2) ->
  captureUpload_checked (ui d1) = captureUpload_checked (ui d2) ->
  attachments d1 = attachments d2 ->
  multiPart d1 = multiPart d2.
Proof.
  intros He Hd Hc Ha. unfold attachments in Ha. injection Ha as Hp Hm Hf Ht.
  rewrite !multiPart_eq. now rewrite He, Hd, Hc, Hp, Hm, Hf, Ht.
Qed.

Lemma request_setStage (stage : ReportStage) (d : CrashDialog) :
  m_Request (setStage stage d) = m_Request d.
Proof. now destruct stage. Qed.

Lemma request_sendReport (d : CrashDialog) :
  m_Request (sendReport d)
  = Some {| request_url := BUGREPORT_URL; request_multiPart := multiPart d;
            reply_running := true |}.
Proof.
  unfold sendReport. cbn [m_Request set_m_Request set_m_UploadTimer on_ui set_ui].
  now rewrite (multiPart_ext (set_m_Request None d) d) by reflexivity.
Qed.

(** The three ways a click on send can end: the capture question declined,
    the email question answered Yes, or the report sent from a dialog that
    differs from the one clicked in its configuration and save log only. *)
Lemma on_send_clicked_cases (captureAnswer emailAnswer : StandardButton)
    (d : CrashDialog) :
  (captureUpload_checked (ui d) = true /\ captureAnswer <> Yes
   /\ on_send_clicked captureAnswer emailAnswer d
      = on_ui (set_captureUpload_checked false) d)
  \/ (emailAnswer = Yes
      /\ on_send_clicked captureAnswer emailAnswer d
         = on_ui (set_email_focus true)
             (Save (on_config (set_CrashReport_EmailNagged true) d)))
  \/ exists d0,
       on_send_clicked captureAnswer emailAnswer d = setStage Uploading (sendReport d0)
       /\ ui d0 = ui d /\ attachments d0 = attachments d
       /\ m_Stage d0 = m_Stage d
       /\ (captureUpload_checked (ui d) = false \/ captureAnswer = Yes).
Proof.
  unfold on_send_clicked.
  destruct (captureUpload_checked (ui d)) eqn:Hbox;
    destruct captureAnswer; cbn [is_Yes negb andb];
    try (left; repeat split; (reflexivity || discriminate));
    (destruct (negb (CrashReport_EmailNagged (m_Config d))
               && isEmpty (email_text (ui d)));
     cbn [andb];
     [destruct emailAnswer; cbn [is_Yes];
      try (right; left; split; reflexivity)|];
     right; right; eexists; (split; [reflexivity|]);
     cbn [ui Save on_config set_m_Config set_saved m_Config];
     destruct (rememberEmail_checked (ui d) && negb (isEmpty (email_text (ui d))));
     repeat split; auto).
Qed.

(** X5. A capture leaves the machine only with consent. When a click on
    send posts a request, a part of it with the content type of a capture or
    of a JPEG image is there only if the capture-upload box was checked, the
    question about uploading the capture was answered Yes and the dialog has
    a capture; and it is then the capture file or the thumbnail kept by the
    constructor. *)
Theorem capture_needs_consent
    (captureAnswer emailAnswer : StandardButton) (d : CrashDialog)
    (r : QNetworkReply) (part : QHttpPart)
    (Hidle : m_Request d = None)
    (Hposted : m_Request (on_send_clicked captureAnswer emailAnswer d) = Some r)
    (Hpart : part ∈ request_multiPart r)
    (Htype : ContentTypeHeader part = Some "application/x-renderdoc-capture"
             \/ ContentTypeHeader part = Some "image/jpeg") :
  captureUpload_checked (ui d) = true
  /\ captureAnswer = Yes
  /\ isEmpty (m_CaptureFilename d) = false
  /\ (part = capture_part (m_CaptureFilename d)
      \/ exists thumbnail, m_Thumbnail d = Some thumbnail /\ part = thumb_part thumbnail).
Proof.
  assert (Htyped : exists type, ContentTypeHeader part = Some type
                                /\ type <> "application/zip").
  { destruct Htype as [Ht | Ht]; eexists; (split; [exact Ht | discriminate]). }
  destruct Htyped as (type & Ht & Hzip).
  destruct (on_send_clicked_cases captureAnswer emailAnswer d)
    as [(_ & _ & Hd') | [(_ & Hd') | (d0 & Hd' & Hui & Ha & _ & Hgate)]];
    rewrite Hd' in Hposted.
  - cbn [m_Request on_ui set_ui] in Hposted. congruence.
  - cbn [m_Request on_ui set_ui Save set_saved on_config set_m_Config] in Hposted.
    congruence.
  - rewrite request_setStage, request_sendReport in Hposted.
    injection Hposted as <-.
    cbn [request_multiPart] in Hpart.
    destruct (multiPart_typed _ _ _ Hpart Ht Hzip) as (Hchecked & Hcap & Hwhich).
    unfold attachments in Ha. injection Ha as _ _ Hfile Hthumb.
    rewrite Hui in Hchecked. rewrite Hfile in Hcap, Hwhich. rewrite Hthumb in Hwhich.
    split; [exact Hchecked|]. split; [|split; assumption].
    destruct Hgate as [Hoff | Hyes]; [congruence | exact Hyes].
Qed.

(** ** Retrying and cancelling an upload *)

Lemma request_on_uploadRetry_clicked (d : CrashDialog) :
  m_Request (on_uploadRetry_clicked d) = m_Request (sendReport d).
Proof. reflexivity. Qed.

(** An error, the finished signal after it, a retry and the end of the
    second upload, from any dialog. *)
Lemma retry_after_error (errorString : string) (body body' : QByteArray)
    (sent : CrashDialog) :
  let failed := reply_finished body (reply_error errorString sent) in
  let d' := on_uploadRetry_clicked failed in
  m_Stage failed = m_Stage sent
  /\ uploadRetry_enabled (ui failed) = true
  /\ m_Request d'
     = Some {| request_url := BUGREPORT_URL; request_multiPart := multiPart sent;
               reply_running := true |}
  /\ uploadRetry_enabled (ui d') = false
  /\ progressBar_value (ui d') = 0
  /\ progressText_text (ui d')
     = "Uploading report..." ++ newline ++ "Calculating time remaining"
  /\ m_Stage d' = m_Stage sent
  /\ m_Stage (reply_finished body' d') = Reported
  /\ m_ReportID (reply_finished body' d') = body'.
Proof.
  intros failed d'.
  assert (Hfailed : failed = reply_error errorString sent) by reflexivity.
  split; [reflexivity|]. split; [reflexivity|]. split.
  { unfold d'. rewrite request_on_uploadRetry_clicked, request_sendReport, Hfailed.
    now rewrite (multiPart_ext (reply_error errorString sent) sent) by reflexivity. }
  repeat split.
Qed.

(** X6. After a network error the upload can be taken up again: the
    finished signal that follows the error changes nothing, and a click on
    retry posts a request to the same address with the same parts as the one
    that failed, disables the retry button, puts the bar at 0 and shows the
    first status text, in the same stage. When that upload finishes the
    dialog reaches the Reported stage with the response as report ID. *)
Theorem retry_resends_request
    (captureAnswer emailAnswer : StandardButton) (errorString : string)
    (body body' : QByteArray) (d : CrashDialog) (r : QNetworkReply)
    (Hposted : m_Request (on_send_clicked captureAnswer emailAnswer d) = Some r)
    (Hfirst : m_Request d = None) :
  let failed :=
    reply_finished body
      (reply_error errorString (on_send_clicked captureAnswer emailAnswer d)) in
  let d' := on_uploadRetry_clicked failed in
  m_Stage failed = Uploading
  /\ uploadRetry_enabled (ui failed) = true
  /\ m_Request d'
     = Some {| request_url := request_url r;
               request_multiPart := request_multiPart r;
               reply_running := true |}
  /\ uploadRetry_enabled (ui d') = false
  /\ progressBar_value (ui d') = 0
  /\ progressText_text (ui d')
     = "Uploading report..." ++ newline ++ "Calculating time remaining"
  /\ m_Stage d' = Uploading
  /\ m_Stage (reply_finished body' d') = Reported
  /\ m_ReportID (reply_finished body' d') = body'.
Proof.
  intros failed d'.
  destruct (on_send_clicked_cases captureAnswer emailAnswer d)
    as [(_ & _ & Hd) | [(_ & Hd) | (d0 & Hd & _)]].
  - rewrite Hd in Hposted. cbn [m_Request on_ui set_ui] in Hposted. congruence.
  - rewrite Hd in Hposted.
    cbn [m_Request on_ui set_ui Save set_saved on_config set_m_Config] in Hposted.
    congruence.
  - assert (Hr : r = {| request_url := BUGREPORT_URL;
                        request_multiPart := multiPart d0;
                        reply_running := true |}).
    { rewrite Hd, request_setStage, request_sendReport in Hposted. congruence. }
    subst d' failed. rewrite Hd, Hr. clear Hd Hr Hposted.
    pose proof (retry_after_error errorString body body'
                  (setStage Uploading (sendReport d0))) as Hretry.
    cbv zeta in Hretry.
    destruct Hretry as (Hstage & Hon & Hrequest & Hoff & Hbar & Htext & Hstage'
                        & Hreported & Hid).
    split; [exact Hstage|]. split; [exact Hon|]. split.
    { rewrite Hrequest. cbn [request_url request_multiPart].
      now rewrite (multiPart_ext (setStage Uploading (sendReport d0)) d0)
        by reflexivity. }
    split; [exact Hoff|]. split; [exact Hbar|]. split; [exact Htext|].
    split; [exact Hstage'|]. split; [exact Hreported | exact Hid].
Qed.

(** X7. Cancelling an upload: any answer but Yes to the question leaves
    the dialog as it is. On Yes the dialog is rejected and its request
    deleted; the signals the aborted reply sends on the way do not move the
    dialog to the Reported stage or give it a report ID, and nothing is
    stored in the configuration or saved. *)
Theorem uploadCancel_rejects (answer : StandardButton) (errorString : string)
    (d : CrashDialog) :
  let d' := on_uploadCancel_clicked answer errorString d in
  match answer with
  | Yes =>
      result d' = Some Rejected
      /\ m_Request d' = None
      /\ m_Stage d' = m_Stage d
      /\ m_ReportID d' = m_ReportID d
      /\ finishedText_text (ui d') = finishedText_text (ui d)
      /\ reportedGroup_visible (ui d') = reportedGroup_visible (ui d)
      /\ m_Config d' = m_Config d
      /\ saved d' = saved d
      /\ (if reply_live d
          then progressText_text (ui d')
               = "Network error uploading:" ++ newline ++ errorString
          else ui d' = ui d)
  | _ => d' = d
  end.
Proof.
  intros d'. subst d'. destruct answer; try reflexivity.
  unfold on_uploadCancel_clicked, abort, reply_live.
  destruct (m_Request d) as [r|]; [|repeat split].
  destruct (reply_running r); [|repeat split].
  unfold reply_finished. simpl. repeat split.
  change (arg errorString (tr ("Network error uploading:" ++ newline ++ "%1")))
    with ("Network error uploading:" ++ newline ++ errorString ++ "").
  now rewrite append_empty_r.
Qed.

(** ** From the response to the list of reported bugs *)

(** X8. What acceptance stores comes from the response of the server.
    After an upload that finished with the retry button off, accepting the
    dialog always ends it with the accepted code. With an empty response, or
    with the check-for-updates box unchecked, the configuration is left as it
    was and nothing is saved; otherwise the last reported bug is the record
    with the response as ID and the two clock readings as dates, and the
    configuration holding it is the one saved. *)
Theorem finished_then_accepted (body : QByteArray) (now1 now2 : Z) (d : CrashDialog)
    (Hretry : uploadRetry_enabled (ui d) = false) :
  let d' := on_buttonBox_accepted now1 now2 (reply_finished body d) in
  result d' = Some Accepted
  /\ m_Stage d' = Reported
  /\ (if negb (isEmpty body) && checkUpdates_checked (ui d)
      then last (CrashReport_ReportedBugs (m_Config d'))
           = Some {| ID := body; SubmitDate := Some now1; CheckDate := Some now2 |}
           /\ saved d' = m_Config d' :: saved d
      else m_Config d' = m_Config d /\ saved d' = saved d).
Proof.
  intros d'. subst d'. unfold reply_finished. rewrite Hretry.
  unfold on_buttonBox_accepted. simpl.
  destruct (negb (isEmpty body) && checkUpdates_checked (ui d)); [|repeat split].
  match goal with |- context [20 <? ?x] => destruct (20 <? x) eqn:E end;
    simpl; (split; [reflexivity|]); (split; [reflexivity|]);
    (split; [|reflexivity]).
  - unfold erase, push_back.
    destruct (CrashReport_ReportedBugs (m_Config d)) as [|b l]; simpl;
      [discriminate E | apply last_snoc].
  - apply last_snoc.
Qed.


(** ** The progress callback at its edges *)

(** X9. The progress callback touches nothing but the value of the bar
    and the status text, and it does nothing at all when the total is not
    positive or the bytes sent have reached it: the signal that reports the
    whole upload as sent leaves the bar and the text where they were. *)
Theorem uploadProgress_frame (sent total nsecsElapsed : Z) (d d' : CrashDialog)
    (Hprogress : reply_uploadProgress sent total nsecsElapsed d = Some d') :
  d' = on_ui (set_progressText_text (progressText_text (ui d')))
         (on_ui (set_progressBar_value (progressBar_value (ui d'))) d)
  /\ (total <= 0 \/ total <= sent -> d' = d).
Proof.
  revert Hprogress. unfold reply_uploadProgress.
  destruct (Z.ltb_spec 0 total) as [Htotal | Htotal];
    [destruct (Z.ltb_spec sent total) as [Hsent | Hsent]|]; simpl.
  - destruct (Double.to_int _) as [value|]; [|discriminate]. simpl.
    destruct (Double.to_qulonglong _) as [remaining|]; [|discriminate]. simpl.
    destruct (Double.gt _ _); intros [= <-];
      (split; [destruct d as [[] ? ? ? ? ? ? ? ? ? ? ?]; reflexivity | lia]).
  - intros [= <-].
    split; [destruct d as [[] ? ? ? ? ? ? ? ? ? ? ?]; reflexivity | reflexivity].
  - intros [= <-].
    split; [destruct d as [[] ? ? ? ? ? ? ? ? ? ? ?]; reflexivity | reflexivity].
Qed.

(** With nothing sent the speed is zero (or not a number), and the
    remaining time, the megabytes left divided by it, is infinite or not a
    number. *)
Lemma remaining_of_nothing (totalMB secondsElapsed d1000000 : Double.double) :
  Double.to_qulonglong
    (Double.div (Double.sub totalMB (Double.div (Double.of_int 0) d1000000))
       (Double.div (Double.div (Double.of_int 0) d1000000) secondsElapsed))
  = None.
Proof.
  change (Double.of_int 0) with (S754_zero false).
  destruct d1000000 as [s | s | | s m e];
    destruct totalMB as [s1 | s1 | | s1 m1 e1];
    destruct secondsElapsed as [s2 | s2 | | s2 m2 e2];
    try reflexivity;
    try (destruct s; reflexivity);
    try (destruct s1; reflexivity);
    try (destruct s, s1; reflexivity);
    try (destruct s, s1, s2; reflexivity).
Qed.

(** X10. A progress signal that reports a positive total and no byte sent
    yet has no defined outcome: the remaining time is then infinite or not a
    number, and its conversion to an unsigned integer, which the callback
    makes whatever the time elapsed, is not defined. *)
Theorem uploadProgress_nothing_sent (total nsecsElapsed : Z) (d : CrashDialog)
    (Htotal : 0 < total) :
  reply_uploadProgress 0 total nsecsElapsed d = None.
Proof.
  unfold reply_uploadProgress.
  assert ((0 <? total) = true) as -> by now apply Z.ltb_lt.
  cbn [andb]. destruct (Double.to_int _) as [value|]; [|reflexivity].
  cbn [mbind option_bind]. now rewrite remaining_of_nothing.
Qed.

Lemma progress_touches_ui (sent total nsecsElapsed : Z) (d d' : CrashDialog) :
  reply_uploadProgress sent total nsecsElapsed d = Some d' ->
  d' = on_ui (set_progressText_text (progressText_text (ui d')))
         (on_ui (set_progressBar_value (progressBar_value (ui d'))) d).
Proof.
  unfold reply_uploadProgress.
  destruct (_ && _);
    [|intros [= <-]; destruct d as [[] ? ? ? ? ? ? ? ? ? ? ?]; reflexivity].
  destruct (Double.to_int _) as [value|]; [|discriminate]. simpl.
  destruct (Double.to_qulonglong _) as [remaining|]; [|discriminate]. simpl.
  destruct (Double.gt _ _); intros [= <-];
    destruct d as [[] ? ? ? ? ? ? ? ? ? ? ?]; reflexivity.
Qed.

(** ** Along a session *)

Lemma step_dialog (s s' : Session) (ev : Event) :
  step s ev = Some s' ->
  is_open (dialog s) = true
  /\ match ev with
     | Edited e =>
         edit_visible e (ui (dialog s)) = true
         /\ dialog s' = apply_edit e (dialog s)
     | SendClicked a1 a2 =>
         reportGroup_visible (ui (dialog s)) = true
         /\ dialog s' = on_send_clicked a1 a2 (dialog s)
     | CancelClicked =>
         reportGroup_visible (ui (dialog s)) = true
         /\ dialog s' = on_cancel_clicked (dialog s)
     | UploadCancelClicked => dialog s' = dialog s
     | UploadCancelAnswered answer errorString =>
         dialog s' = on_uploadCancel_clicked answer errorString (dialog s)
     | UploadRetryClicked =>
         uploadingGroup_visible (ui (dialog s)) = true
         /\ uploadRetry_enabled (ui (dialog s)) = true
         /\ dialog s' = on_uploadRetry_clicked (dialog s)
     | ReplyError errorString =>
         reply_live (dialog s) = true
         /\ dialog s' = reply_error errorString (dialog s)
     | ReplyUploadProgress sent total nsecsElapsed =>
         reply_live (dialog s) = true
         /\ reply_uploadProgress sent total nsecsElapsed (dialog s) = Some (dialog s')
     | ReplyFinished readAll =>
         reply_live (dialog s) = true
         /\ dialog s' = reply_finished readAll (mark_finished (dialog s))
     | ButtonBoxAccepted now1 now2 =>
         reportedGroup_visible (ui (dialog s)) = true
         /\ dialog s' = on_buttonBox_accepted now1 now2 (dialog s)
     end.
Proof.
  destruct s as [d q]. cbn [dialog cancelQuestion].
  destruct ev; cbn [step dialog cancelQuestion]; intros Hstep;
    try (apply user_Some in Hstep as (Hopen & Hguard & ->); cbn [dialog] in *;
         split; [exact Hopen|]; try (split; [exact Hguard | reflexivity]));
    try (apply network_Some in Hstep as (Hopen & Hlive & d' & Hd' & <-);
         cbn [dialog] in *; split; [exact Hopen|]; split; [exact Hlive|];
         congruence).
  - destruct (is_open d); [|discriminate]. destruct q; [discriminate|].
    destruct (uploadingGroup_visible (ui d)); [|discriminate].
    injection Hstep as <-. split; reflexivity.
  - destruct (is_open d); [|discriminate]. destruct q; [|discriminate].
    injection Hstep as <-. split; reflexivity.
  - apply andb_true_iff in Hguard as [Hu Hr]. repeat split; assumption.
Qed.

Lemma run_invariant (I : Session -> Prop) (P : Session * Event * Session -> Prop) :
  (forall s ev s', I s -> step s ev = Some s' -> I s' /\ P (s, ev, s')) ->
  forall evs s, I s -> Forall P (run s evs).
Proof.
  intros Hstep evs. induction evs as [|ev evs IH]; intros s Hs; simpl.
  - constructor.
  - destruct (step s ev) as [s'|] eqn:E; [|constructor].
    destruct (Hstep s ev s' Hs E) as (Hs' & HP).
    constructor; [exact HP | apply IH, Hs'].
Qed.

(** X11. At every moment of every session exactly the group of the
    current stage is shown, and no request exists before the first send: the
    dialog starts so, and every step keeps it so. *)
Theorem groups_follow_stage (w : World) (setupUi : Ui) (cfg : PersistantConfig)
    (crashReportJSON : gmap string QVariant) (evs : list Event) :
  consistent (dialog (start w setupUi cfg crashReportJSON))
  /\ Forall (fun t : Session * Event * Session => consistent (dialog t.2))
       (run (start w setupUi cfg crashReportJSON) evs).
Proof.
  destruct (consistent_start w setupUi cfg crashReportJSON) as (Hcons & _).
  split; [exact Hcons|].
  apply (run_invariant (fun s => consistent (dialog s))); [|exact Hcons].
  intros s ev s' Hs Hstep. split; [|exact (proj1 (step_sound s s' ev Hs Hstep))].
  exact (proj1 (step_sound s s' ev Hs Hstep)).
Qed.

Lemma attachments_step (s s' : Session) (ev : Event) :
  step s ev = Some s' ->
  attachments (dialog s') = attachments (dialog s)
  /\ CrashReport_LastOpenedCapture (m_Config (dialog s'))
     = CrashReport_LastOpenedCapture (m_Config (dialog s)).
Proof.
  intros Hstep. apply step_dialog in Hstep as (_ & Hev).
  destruct ev.
  - destruct Hev as (_ & ->). destruct e; split; reflexivity.
  - destruct Hev as (_ & ->). unfold on_send_clicked.
    destruct (_ && negb _); [split; reflexivity|].
    destruct (negb _ && isEmpty _); simpl;
      destruct (is_Yes emailAnswer); simpl; try (split; reflexivity);
      destruct (rememberEmail_checked (ui (dialog s)) && _); split; reflexivity.
  - destruct Hev as (_ & ->). split; reflexivity.
  - rewrite Hev. split; reflexivity.
  - rewrite Hev. unfold on_uploadCancel_clicked, abort.
    destruct answer; try (split; reflexivity).
    destruct (m_Request (dialog s)) as [r|]; [|split; reflexivity].
    destruct (reply_running r); [|split; reflexivity].
    unfold reply_finished. simpl. split; reflexivity.
  - destruct Hev as (_ & _ & ->). split; reflexivity.
  - destruct Hev as (_ & ->). split; reflexivity.
  - destruct Hev as (_ & Hp). apply progress_touches_ui in Hp as ->.
    split; reflexivity.
  - destruct Hev as (_ & ->). unfold reply_finished, mark_finished.
    destruct (m_Request (dialog s)); simpl;
      destruct (uploadRetry_enabled (ui (dialog s))); split; reflexivity.
  - destruct Hev as (_ & ->). unfold on_buttonBox_accepted.
    destruct (negb _ && _); [|split; reflexivity].
    match goal with |- context [20 <? ?x] => destruct (20 <? x) end;
      split; reflexivity.
Qed.

(** X12. What a report consists of is settled by the constructor: along
    every session the report path, the metadata, the capture filename and the
    thumbnail stay what the constructor made them, and so does the last
    opened capture in the configuration. No event makes the dialog upload
    another file than the one it showed. *)
Theorem attachments_fixed (w : World) (setupUi : Ui) (cfg : PersistantConfig)
    (crashReportJSON : gmap string QVariant) (evs : list Event) :
  Forall (fun t : Session * Event * Session =>
            attachments (dialog t.2)
            = attachments (CrashDialog_new w setupUi cfg crashReportJSON)
            /\ CrashReport_LastOpenedCapture (m_Config (dialog t.2))
               = CrashReport_LastOpenedCapture cfg)
    (run (start w setupUi cfg crashReportJSON) evs).
Proof.
  destruct (constructor_members w setupUi cfg crashReportJSON)
    as (_ & _ & Hcfg & _).
  apply (run_invariant
           (fun s => attachments (dialog s)
                     = attachments (CrashDialog_new w setupUi cfg crashReportJSON)
                     /\ CrashReport_LastOpenedCapture (m_Config (dialog s))
                        = CrashReport_LastOpenedCapture cfg)).
  - intros s ev s' (Ha & Hc) Hstep.
    destruct (attachments_step s s' ev Hstep) as (Ha' & Hc').
    cbn [snd]. rewrite Ha', Hc'. repeat split; assumption.
  - unfold start. cbn [dialog]. rewrite Hcfg. split; reflexivity.
Qed.


Lemma saved_step (s s' : Session) (ev : Event) :
  step s ev = Some s' ->
  (m_Config (dialog s') = m_Config (dialog s)
   /\ saved (dialog s') = saved (dialog s))
  \/ exists later,
       saved (dialog s') = (m_Config (dialog s') :: later ++ saved (dialog s))%list.
Proof.
  intros Hstep. apply step_dialog in Hstep as (_ & Hev).
  destruct ev.
  - destruct Hev as (_ & ->). left. destruct e; split; reflexivity.
  - destruct Hev as (_ & ->). unfold on_send_clicked.
    destruct (_ && negb _); [left; split; reflexivity|].
    destruct (negb _ && isEmpty _); simpl;
      destruct (is_Yes emailAnswer); simpl;
      try (right; exists []; reflexivity);
      destruct (rememberEmail_checked (ui (dialog s)) && _);
      right; first [exists []; reflexivity | eexists [_]; reflexivity].
  - destruct Hev as (_ & ->). left. split; reflexivity.
  - rewrite Hev. left. split; reflexivity.
  - rewrite Hev. left. unfold on_uploadCancel_clicked, abort.
    destruct answer; try (split; reflexivity).
    destruct (m_Request (dialog s)) as [r|]; [|split; reflexivity].
    destruct (reply_running r); [|split; reflexivity].
    unfold reply_finished. simpl. split; reflexivity.
  - destruct Hev as (_ & _ & ->). left. split; reflexivity.
  - destruct Hev as (_ & ->). left. split; reflexivity.
  - destruct Hev as (_ & Hp). apply progress_touches_ui in Hp as ->.
    left. split; reflexivity.
  - destruct Hev as (_ & ->). left. unfold reply_finished, mark_finished.
    destruct (m_Request (dialog s)); simpl;
      destruct (uploadRetry_enabled (ui (dialog s))); split; reflexivity.
  - destruct Hev as (_ & ->). unfold on_buttonBox_accepted.
    destruct (negb _ && _); [|left; split; reflexivity].
    match goal with |- context [20 <? ?x] => destruct (20 <? x) end;
      right; exists []; reflexivity.
Qed.

(** X13. No change of the configuration stays unsaved: at every moment
    of every session the configuration in memory is the one last saved, or,
    as long as nothing has been saved, the one the dialog was given; and a
    step never drops what was saved before it. *)
Theorem config_in_step_with_disk (w : World) (setupUi : Ui) (cfg : PersistantConfig)
    (crashReportJSON : gmap string QVariant) (evs : list Event) :
  in_step_with_disk cfg (dialog (start w setupUi cfg crashReportJSON))
  /\ Forall (fun t : Session * Event * Session =>
               in_step_with_disk cfg (dialog t.2)
               /\ saved (dialog t.1.1) `suffix_of` saved (dialog t.2))
       (run (start w setupUi cfg crashReportJSON) evs).
Proof.
  destruct (constructor_members w setupUi cfg crashReportJSON)
    as (_ & _ & Hcfg & Hsaved & _).
  assert (Hstart : in_step_with_disk cfg (dialog (start w setupUi cfg crashReportJSON))).
  { unfold in_step_with_disk, start. cbn [dialog]. now rewrite Hsaved. }
  split; [exact Hstart|].
  apply (run_invariant (fun s => in_step_with_disk cfg (dialog s))); [|exact Hstart].
  intros s ev s' Hs Hstep. cbn [fst snd].
  destruct (saved_step s s' ev Hstep) as [(Hc & Hsv) | (later & Hsv)].
  - assert (Hs' : in_step_with_disk cfg (dialog s')).
    { unfold in_step_with_disk in *. now rewrite Hsv, Hc. }
    repeat split; try exact Hs'. now rewrite Hsv.
  - assert (Hs' : in_step_with_disk cfg (dialog s')).
    { unfold in_step_with_disk. now rewrite Hsv. }
    repeat split; try exact Hs'. rewrite Hsv.
    exists (m_Config (dialog s') :: later). reflexivity.
Qed.

(** ** Attachments along a session *)

Lemma attached_metadata (m : gmap string QVariant) (l : list string) :
  List.filter is_attachment (map (metadata_part m) l) = [].
Proof. induction l as [|key l IH]; [reflexivity | exact IH]. Qed.

Lemma attached_multiPart (d : CrashDialog) :
  List.filter is_attachment (multiPart d)
  = if negb (isEmpty (m_CaptureFilename d)) && captureUpload_checked (ui d)
    then capture_part (m_CaptureFilename d)
           :: match m_Thumbnail d with
              | Some thumbnail => [thumb_part thumbnail]
              | None => []
              end
    else [].
Proof.
  rewrite multiPart_eq, !List.filter_app, attached_metadata.
  destruct (isEmpty (email_text (ui d))), (isEmpty (description_text (ui d))),
    (negb (isEmpty (m_CaptureFilename d)) && captureUpload_checked (ui d)),
    (m_Thumbnail d); reflexivity.
Qed.

(** The request after a step is the one before it, with the same address
    and parts, or a new one to the address of the bug reporter, built from a
    dialog with the same attachments and the same state of the
    capture-upload box. *)
Lemma request_step (s s' : Session) (ev : Event) (r' : QNetworkReply) :
  step s ev = Some s' -> m_Request (dialog s') = Some r' ->
  (exists r, m_Request (dialog s) = Some r
             /\ request_url r' = request_url r
             /\ request_multiPart r' = request_multiPart r)
  \/ (exists d, request_url r' = BUGREPORT_URL
                /\ request_multiPart r' = multiPart d
                /\ attachments d = attachments (dialog s)
                /\ captureUpload_checked (ui d) = captureUpload_checked (ui (dialog s))).
Proof.
  intros Hstep. apply step_dialog in Hstep as (_ & Hev).
  assert (Hsame : m_Request (dialog s) = Some r' ->
                  (exists r, m_Request (dialog s) = Some r
                             /\ request_url r' = request_url r
                             /\ request_multiPart r' = request_multiPart r)
                  \/ (exists d, request_url r' = BUGREPORT_URL
                                /\ request_multiPart r' = multiPart d
                                /\ attachments d = attachments (dialog s)
                                /\ captureUpload_checked (ui d)
                                   = captureUpload_checked (ui (dialog s))))
    by (intros Hr; left; exists r'; repeat split; exact Hr).
  destruct ev.
  - destruct Hev as (_ & ->). intros Hr. apply Hsame. destruct e; exact Hr.
  - destruct Hev as (_ & Hd').
    destruct (on_send_clicked_cases captureAnswer emailAnswer (dialog s))
      as [(_ & _ & Hd) | [(_ & Hd) | (d0 & Hd & Hui & Ha & _)]];
      rewrite Hd', Hd.
    + exact Hsame.
    + exact Hsame.
    + rewrite request_setStage, request_sendReport. intros [= <-].
      right. exists d0. cbn [request_url request_multiPart].
      split; [reflexivity|]. split; [reflexivity|]. split; [exact Ha|].
      now rewrite Hui.
  - destruct Hev as (_ & ->). exact Hsame.
  - rewrite Hev. exact Hsame.
  - rewrite Hev. unfold on_uploadCancel_clicked.
    destruct answer; try exact Hsame. discriminate.
  - destruct Hev as (_ & _ & ->).
    rewrite request_on_uploadRetry_clicked, request_sendReport. intros [= <-].
    right. exists (dialog s). repeat split.
  - destruct Hev as (_ & ->). exact Hsame.
  - destruct Hev as (_ & Hp). apply progress_touches_ui in Hp as ->. exact Hsame.
  - destruct Hev as (_ & ->).
    assert (Hq : m_Request (reply_finished readAll (mark_finished (dialog s)))
                 = m_Request (mark_finished (dialog s))).
    { unfold reply_finished. now destruct (uploadRetry_enabled _). }
    rewrite Hq. unfold mark_finished.
    destruct (m_Request (dialog s)) as [r|] eqn:E.
    + intros [= <-]. left. exists r. repeat split.
    + rewrite E. discriminate.
  - destruct Hev as (_ & ->). intros Hr. apply Hsame.
    revert Hr. unfold on_buttonBox_accepted.
    destruct (negb _ && _); [|exact id].
    match goal with |- context [20 <? ?x] => destruct (20 <? x) end; exact id.
Qed.

(** X14. For a crash outside the replay, or one whose last capture is no
    longer on disk, no request of the session carries a capture or a
    thumbnail, whatever the user clicks and types: every request the dialog
    holds has the zipped report as its only part with a content type. *)
Theorem no_capture_without_replay_crash
    (w : World) (setupUi : Ui) (cfg : PersistantConfig)
    (crashReportJSON : gmap string QVariant) (evs : list Event)
    (Hnone : toUInt (value_at crashReportJSON "replaycrash") = 0
             \/ QFileInfo_exists w (CrashReport_LastOpenedCapture cfg) = false) :
  Forall (fun t : Session * Event * Session =>
            forall r, m_Request (dialog t.2) = Some r -> attached r = [])
    (run (start w setupUi cfg crashReportJSON) evs).
Proof.
  assert (Hnew : m_CaptureFilename (CrashDialog_new w setupUi cfg crashReportJSON) = ""
                 /\ m_Request (CrashDialog_new w setupUi cfg crashReportJSON) = None).
  { split; [|apply (constructor_members w setupUi cfg crashReportJSON)].
    unfold CrashDialog_new.
    assert (Hkey : value_at (<["report" := value_at crashReportJSON "report"]>
                               crashReportJSON) "replaycrash"
                   = value_at crashReportJSON "replaycrash").
    { unfold value_at at 1 3. now rewrite lookup_insert_ne. }
    rewrite Hkey. simpl.
    assert ((negb (toUInt (value_at crashReportJSON "replaycrash") =? 0)
             && QFileInfo_exists w (CrashReport_LastOpenedCapture cfg)) = false) as ->.
    { destruct Hnone as [-> | ->]; [reflexivity | apply andb_false_r]. }
    reflexivity. }
  destruct Hnew as (Hcap & Hreq).
  apply (run_invariant
           (fun s => m_CaptureFilename (dialog s) = ""
                     /\ forall r, m_Request (dialog s) = Some r -> attached r = [])).
  - intros s ev s' (Hc & Hr) Hstep. cbn [snd].
    assert (Hc' : m_CaptureFilename (dialog s') = "").
    { destruct (attachments_step s s' ev Hstep) as (Ha & _).
      unfold attachments in Ha. congruence. }
    assert (Hr' : forall r, m_Request (dialog s') = Some r -> attached r = []).
    { intros r' Hr'.
      destruct (request_step s s' ev r' Hstep Hr')
        as [(r & Hbefore & _ & Hparts) | (d & _ & Hparts & Ha & _)].
      - unfold attached. rewrite Hparts. exact (Hr r Hbefore).
      - unfold attached. rewrite Hparts, attached_multiPart.
        unfold attachments in Ha.
        assert (m_CaptureFilename d = "") as -> by congruence. reflexivity. }
    repeat split; assumption.
  - unfold start. cbn [dialog]. split; [exact Hcap|]. rewrite Hreq. discriminate.
Qed.

(** X15. A session adds at most one report to the list of reported bugs,
    and only by its last step: every step starts from an open dialog whose
    list is still the one the session began with, and a step changes the list
    only if it is an acceptance, which closes the dialog and appends the
    record of the report ID shown. *)
Theorem reported_bugs_change_last (s0 : Session) (evs : list Event) :
  Forall (fun t : Session * Event * Session =>
            let '(s, ev, s') := t in
            let before := CrashReport_ReportedBugs (m_Config (dialog s)) in
            let after := CrashReport_ReportedBugs (m_Config (dialog s')) in
            is_open (dialog s) = true
            /\ before = CrashReport_ReportedBugs (m_Config (dialog s0))
            /\ (after = before
                \/ exists now1 now2,
                     ev = ButtonBoxAccepted now1 now2
                     /\ is_open (dialog s') = false
                     /\ after
                        = ((if (20 <=? length before)%nat then drop 1 before else before)
                           ++ [{| ID := m_ReportID (dialog s);
                                  SubmitDate := Some now1;
                                  CheckDate := Some now2 |}])%list))
    (run s0 evs).
Proof.
  apply (run_invariant
           (fun s => is_open (dialog s) = true ->
                     CrashReport_ReportedBugs (m_Config (dialog s))
                     = CrashReport_ReportedBugs (m_Config (dialog s0)))).
  2: { intros _. reflexivity. }
  intros s ev s' Hs Hstep. cbv zeta.
  pose proof Hstep as Hev. apply step_dialog in Hev as (Hopen & Hev).
  specialize (Hs Hopen).
  assert (Hkeep : CrashReport_ReportedBugs (m_Config (dialog s'))
                  = CrashReport_ReportedBugs (m_Config (dialog s)) ->
                  (is_open (dialog s') = true ->
                   CrashReport_ReportedBugs (m_Config (dialog s'))
                   = CrashReport_ReportedBugs (m_Config (dialog s0)))
                  /\ is_open (dialog s) = true
                  /\ CrashReport_ReportedBugs (m_Config (dialog s))
                     = CrashReport_ReportedBugs (m_Config (dialog s0))
                  /\ (CrashReport_ReportedBugs (m_Config (dialog s'))
                      = CrashReport_ReportedBugs (m_Config (dialog s))
                      \/ exists now1 now2,
                           ev = ButtonBoxAccepted now1 now2
                           /\ is_open (dialog s') = false
                           /\ CrashReport_ReportedBugs (m_Config (dialog s'))
                              = ((if (20 <=? length (CrashReport_ReportedBugs
                                                       (m_Config (dialog s))))%nat
                                  then drop 1 (CrashReport_ReportedBugs
                                                 (m_Config (dialog s)))
                                  else CrashReport_ReportedBugs (m_Config (dialog s)))
                                 ++ [{| ID := m_ReportID (dialog s);
                                        SubmitDate := Some now1;
                                        CheckDate := Some now2 |}])%list)).
  { intros Hsame. split; [intros _; congruence|]. split; [exact Hopen|].
    split; [exact Hs | now left]. }
  destruct ev.
  - apply Hkeep. destruct Hev as (_ & ->). now destruct e.
  - apply Hkeep. destruct Hev as (_ & ->). unfold on_send_clicked.
    destruct (_ && negb _); [reflexivity|].
    destruct (negb _ && isEmpty _); simpl;
      destruct (is_Yes emailAnswer); simpl; try reflexivity;
      destruct (rememberEmail_checked (ui (dialog s)) && _); reflexivity.
  - apply Hkeep. destruct Hev as (_ & ->). reflexivity.
  - apply Hkeep. now rewrite Hev.
  - apply Hkeep. rewrite Hev. unfold on_uploadCancel_clicked, abort.
    destruct answer; try reflexivity.
    destruct (m_Request (dialog s)) as [r|]; [|reflexivity].
    destruct (reply_running r); [|reflexivity].
    unfold reply_finished. reflexivity.
  - apply Hkeep. destruct Hev as (_ & _ & ->). reflexivity.
  - apply Hkeep. destruct Hev as (_ & ->). reflexivity.
  - apply Hkeep. destruct Hev as (_ & Hp).
    apply progress_touches_ui in Hp as ->. reflexivity.
  - apply Hkeep. destruct Hev as (_ & ->). unfold reply_finished, mark_finished.
    destruct (m_Request (dialog s)); simpl;
      destruct (uploadRetry_enabled (ui (dialog s))); reflexivity.
  - destruct Hev as (_ & Hd').
    assert (Hclosed : is_open (dialog s') = false).
    { rewrite Hd'. unfold on_buttonBox_accepted.
      destruct (negb _ && _); [|reflexivity].
      match goal with |- context [20 <? ?x] => destruct (20 <? x) end; reflexivity. }
    split; [rewrite Hclosed; discriminate|]. split; [exact Hopen|].
    split; [exact Hs|].
    destruct (negb (isEmpty (m_ReportID (dialog s)))
              && checkUpdates_checked (ui (dialog s))) eqn:Hrec.
    + right. exists now1, now2. split; [reflexivity|]. split; [exact Hclosed|].
      etransitivity; [|apply capped_push_back].
      rewrite Hd'. unfold on_buttonBox_accepted. rewrite Hrec.
      match goal with |- context [20 <? ?x] => destruct (20 <? x) eqn:E end;
        simpl in E; rewrite E; reflexivity.
    + left. rewrite Hd'. unfold on_buttonBox_accepted. now rewrite Hrec.
Qed.


(** ** The bar while uploading *)

(** What the progress callback can do to the bar, for a count of bytes
    that is not negative and a total below 2^53. *)
Lemma uploadProgress_bar (sent total nsecsElapsed : Z) (d d' : CrashDialog) :
  0 <= sent -> total < 2 ^ 53 ->
  reply_uploadProgress sent total nsecsElapsed d = Some d' ->
  (progressBar_value (ui d') = progressBar_value (ui d)
   \/ 0 <= progressBar_value (ui d') <= 9999)
  /\ (0 < total -> sent < total -> 0 <= progressBar_value (ui d') <= 9999).
Proof.
  intros Hsent Htotal Hprogress.
  destruct (Z.ltb_spec 0 total) as [Hpos | Hneg];
    [destruct (Z.ltb_spec sent total) as [Hlt | Hge]|].
  - assert (Hs : 0 < sent).
    { destruct (Z.eq_dec sent 0) as [-> | Hne]; [|lia]. exfalso.
      revert Hprogress. unfold reply_uploadProgress.
      assert ((0 <? total) = true) as -> by now apply Z.ltb_lt.
      cbn [andb]. destruct (Double.to_int _) as [value|]; [|discriminate].
      cbn [mbind option_bind]. now rewrite remaining_of_nothing. }
    destruct (BarFacts.bar_value_below_full sent total Hs Hlt Htotal)
      as (value & Hvalue & Hrange).
    assert (Hbar : progressBar_value (ui d') = value).
    { revert Hprogress. unfold reply_uploadProgress.
      assert ((0 <? total) && (sent <? total) = true) as ->
          by (apply andb_true_intro; split; apply Z.ltb_lt; lia).
      rewrite Hvalue. cbn [mbind option_bind].
      destruct (Double.to_qulonglong _) as [remaining|]; [|discriminate].
      cbn [mbind option_bind].
      destruct (Double.gt _ _); intros [= <-]; reflexivity. }
    rewrite Hbar. split; [right; exact Hrange | intros _ _; exact Hrange].
  - split; [left | lia]. revert Hprogress. unfold reply_uploadProgress.
    assert ((sent <? total) = false) as -> by (apply Z.ltb_ge; lia).
    rewrite andb_false_r. now intros [= <-].
  - split; [left | lia]. revert Hprogress. unfold reply_uploadProgress.
    assert ((0 <? total) = false) as -> by (apply Z.ltb_ge; lia).
    now intros [= <-].
Qed.

(** X16. The progress callback never fills the bar. For a count of bytes
    sent that is not negative and a total below 2^53, the value it gives the
    bar lies between 0 and 9999 of the maximum of 10000 whenever it sets one:
    rounding the quotient and the product to doubles cannot bring an
    incomplete upload up to 10000, and the complete one is not shown. The
    maximum itself is left alone. *)
Theorem uploadProgress_below_full (sent total nsecsElapsed : Z) (d d' : CrashDialog)
    (Hsent : 0 <= sent) (Htotal : total < 2 ^ 53)
    (Hprogress : reply_uploadProgress sent total nsecsElapsed d = Some d') :
  progressBar_maximum (ui d') = progressBar_maximum (ui d)
  /\ (progressBar_value (ui d') = progressBar_value (ui d)
      \/ 0 <= progressBar_value (ui d') <= 9999)
  /\ (0 < total -> sent < total -> 0 <= progressBar_value (ui d') <= 9999)
  /\ (progressBar_value (ui d) < 10000 -> progressBar_value (ui d') < 10000).
Proof.
  destruct (uploadProgress_bar _ _ _ _ _ Hsent Htotal Hprogress) as (Hany & Hset).
  split; [|split; [exact Hany|split; [exact Hset|]]].
  - rewrite (progress_touches_ui _ _ _ _ _ Hprogress). reflexivity.
  - destruct Hany as [-> | Hrange]; lia.
Qed.

Lemma bar_step (s s' : Session) (ev : Event) :
  plausible ev -> step s ev = Some s' -> consistent (dialog s) ->
  (m_Stage (dialog s) <> FillingDetails ->
   0 <= progressBar_value (ui (dialog s)) <= 9999) ->
  m_Stage (dialog s') <> FillingDetails ->
  0 <= progressBar_value (ui (dialog s')) <= 9999.
Proof.
  intros Hev Hstep (_ & _ & _ & Hidle) Hs.
  apply step_dialog in Hstep as (_ & Hd).
  destruct ev.
  - destruct Hd as (_ & ->). destruct e; exact Hs.
  - destruct Hd as (_ & ->). unfold on_send_clicked.
    destruct (_ && negb _); [exact Hs|].
    destruct (negb _ && isEmpty _); simpl;
      destruct (is_Yes emailAnswer); simpl; try exact Hs; lia.
  - destruct Hd as (_ & ->). exact Hs.
  - rewrite Hd. exact Hs.
  - rewrite Hd. unfold on_uploadCancel_clicked, abort.
    destruct answer; try exact Hs.
    destruct (m_Request (dialog s)) as [r|]; [|exact Hs].
    destruct (reply_running r); [|exact Hs].
    unfold reply_finished. simpl. lia.
  - destruct Hd as (_ & _ & ->). simpl. lia.
  - destruct Hd as (_ & ->). simpl. lia.
  - destruct Hd as (_ & Hp). destruct Hev as (Hsent & Htotal).
    destruct (uploadProgress_bar _ _ _ _ _ Hsent Htotal Hp)
      as ([Hsame | Hrange] & _); [|intros _; exact Hrange].
    rewrite Hsame.
    assert (Hstage : m_Stage (dialog s') = m_Stage (dialog s)).
    { rewrite (progress_touches_ui _ _ _ _ _ Hp). reflexivity. }
    rewrite Hstage. exact Hs.
  - destruct Hd as (Hlive & ->). apply reply_live_Some in Hlive.
    assert (Hup : m_Stage (dialog s) <> FillingDetails)
      by (intros Hfill; apply Hlive, Hidle, Hfill).
    intros _. unfold reply_finished, mark_finished.
    destruct (m_Request (dialog s)) as [r|]; simpl;
      destruct (uploadRetry_enabled (ui (dialog s))); simpl; exact (Hs Hup).
  - destruct Hd as (_ & ->). unfold on_buttonBox_accepted.
    destruct (negb _ && _); [|exact Hs].
    match goal with |- context [20 <? ?x] => destruct (20 <? x) end; exact Hs.
Qed.


Lemma maximum_step (s s' : Session) (ev : Event) :
  step s ev = Some s' -> consistent (dialog s) ->
  (m_Stage (dialog s) <> FillingDetails ->
   progressBar_maximum (ui (dialog s)) = 10000) ->
  m_Stage (dialog s') <> FillingDetails ->
  progressBar_maximum (ui (dialog s')) = 10000.
Proof.
  intros Hstep (_ & _ & _ & Hidle) Hs.
  apply step_dialog in Hstep as (_ & Hd).
  destruct ev.
  - destruct Hd as (_ & ->). destruct e; exact Hs.
  - destruct Hd as (_ & ->). unfold on_send_clicked.
    destruct (_ && negb _); [exact Hs|].
    destruct (negb _ && isEmpty _); simpl;
      destruct (is_Yes emailAnswer); simpl; try exact Hs; reflexivity.
  - destruct Hd as (_ & ->). exact Hs.
  - rewrite Hd. exact Hs.
  - rewrite Hd. unfold on_uploadCancel_clicked, abort.
    destruct answer; try exact Hs.
    destruct (m_Request (dialog s)) as [r|]; [|exact Hs].
    destruct (reply_running r); [|exact Hs].
    unfold reply_finished. simpl. exact Hs.
  - destruct Hd as (_ & _ & ->). reflexivity.
  - destruct Hd as (_ & ->). exact Hs.
  - destruct Hd as (_ & Hp).
    rewrite (progress_touches_ui _ _ _ _ _ Hp). exact Hs.
  - destruct Hd as (Hlive & ->). apply reply_live_Some in Hlive.
    assert (Hup : m_Stage (dialog s) <> FillingDetails)
      by (intros Hfill; apply Hlive, Hidle, Hfill).
    intros _. unfold reply_finished, mark_finished.
    destruct (m_Request (dialog s)) as [r|]; simpl;
      destruct (uploadRetry_enabled (ui (dialog s))); simpl; exact (Hs Hup).
  - destruct Hd as (_ & ->). unfold on_buttonBox_accepted.
    destruct (negb _ && _); [|exact Hs].
    match goal with |- context [20 <? ?x] => destruct (20 <? x) end; exact Hs.
Qed.

(** X17. While a report is uploading, and after it, the bar never shows
    the upload as complete: along every session whose progress signals carry
    plausible counts, once the stage has left FillingDetails the value of the
    bar is between 0 and 9999, below the maximum of 10000 that the send gave
    it. *)
Theorem bar_never_full (w : World) (setupUi : Ui) (cfg : PersistantConfig)
    (crashReportJSON : gmap string QVariant) (evs : list Event)
    (Hevs : Forall plausible evs) :
  Forall (fun t : Session * Event * Session =>
            m_Stage (dialog t.2) <> FillingDetails ->
            0 <= progressBar_value (ui (dialog t.2)) <= 9999
            /\ progressBar_maximum (ui (dialog t.2)) = 10000)
    (run (start w setupUi cfg crashReportJSON) evs).
Proof.
  destruct (consistent_start w setupUi cfg crashReportJSON) as (Hcons & Hstage).
  assert (Hbar : m_Stage (dialog (start w setupUi cfg crashReportJSON)) <> FillingDetails ->
                 0 <= progressBar_value
                        (ui (dialog (start w setupUi cfg crashReportJSON))) <= 9999
                 /\ progressBar_maximum
                      (ui (dialog (start w setupUi cfg crashReportJSON))) = 10000)
    by (intros Hne; contradiction).
  revert Hcons Hbar. clear Hstage.
  generalize (start w setupUi cfg crashReportJSON) as s.
  induction Hevs as [|ev evs Hev Hevs IH]; intros s Hcons Hbar; simpl.
  - constructor.
  - destruct (step s ev) as [s'|] eqn:Hstep; [|constructor].
    destruct (step_sound s s' ev Hcons Hstep) as (Hcons' & _).
    assert (Hbar' : m_Stage (dialog s') <> FillingDetails ->
                    0 <= progressBar_value (ui (dialog s')) <= 9999
                    /\ progressBar_maximum (ui (dialog s')) = 10000).
    { intros Hne. split.
      - apply (bar_step s s' ev Hev Hstep Hcons); [|exact Hne].
        intros Hs. apply Hbar, Hs.
      - apply (maximum_step s s' ev Hstep Hcons); [|exact Hne].
        intros Hs. apply Hbar, Hs. }
    constructor; [exact Hbar' | apply IH; assumption].
Qed.


(** ** The texts shown *)

(** X18. The report text of the constructor is rich text made of three
    paragraphs: the request to send the form, the link to the zipped report
    at the URL of the local file named by the report path, and the links to
    the bug reporter and its privacy statement. The URL of the report is put
    in as it is, whatever characters it holds. *)
Theorem constructor_report_text (w : World) (setupUi : Ui) (cfg : PersistantConfig)
    (crashReportJSON : gmap string QVariant) :
  let d := CrashDialog_new w setupUi cfg crashReportJSON in
  let url := QUrl_fromLocalFile (toString (value_at crashReportJSON "report")) in
  reportText_format (ui d) = RichText
  /\ reportText_text (ui d)
     = "<p>RenderDoc encountered a serious problem. Please take a moment to look over this "
       ++ "form and send it off so that RenderDoc can get better!</p>"
       ++ "<p>The contents of the report can be found <a href=" ++ dquote ++ url
       ++ dquote ++ ">in this zip</a> which you can edit/censor if you wish.</p>"
       ++ "<p>More information about <a href=" ++ dquote ++ BUGREPORT_URL ++ dquote
       ++ ">the bug reporter</a> and <a href=" ++ dquote ++ BUGREPORT_URL
       ++ "/privacy" ++ dquote ++ ">privacy statement</a> for submissions."
  /\ contains url (reportText_text (ui d)) = true.
Proof.
  intros d url.
  assert (Hshown : reportText_format (ui d) = RichText
                   /\ reportText_text (ui d)
                      = reportText_html (toString (value_at crashReportJSON "report"))).
  { unfold d, CrashDialog_new. simpl.
    destruct (negb _ && _); [|split; reflexivity].
    destruct (OpenFile w _); [|split; reflexivity].
    destruct (negb _); split; reflexivity. }
  destruct Hshown as (Hformat & Htext).
  assert (Hhtml : reportText_html (toString (value_at crashReportJSON "report"))
     = "<p>RenderDoc encountered a serious problem. Please take a moment to look over this "
       ++ "form and send it off so that RenderDoc can get better!</p>"
       ++ "<p>The contents of the report can be found <a href=" ++ dquote ++ url
       ++ dquote ++ ">in this zip</a> which you can edit/censor if you wish.</p>"
       ++ "<p>More information about <a href=" ++ dquote ++ BUGREPORT_URL ++ dquote
       ++ ">the bug reporter</a> and <a href=" ++ dquote ++ BUGREPORT_URL
       ++ "/privacy" ++ dquote ++ ">privacy statement</a> for submissions.").
  { unfold reportText_html, tr. fold url.
    change (arg url ("<p>The contents of the report can be found <a href=" ++ dquote
                     ++ "%1" ++ dquote ++ ">in this zip</a> which "
                     ++ "you can edit/censor if you wish.</p>"))
      with (("<p>The contents of the report can be found <a href=" ++ dquote)
            ++ url ++ dquote
            ++ ">in this zip</a> which you can edit/censor if you wish.</p>").
    rewrite !append_assoc. reflexivity. }
  split; [exact Hformat|]. rewrite Htext, Hhtml. split; [reflexivity|].
  exact (contains_app url
           ("<p>RenderDoc encountered a serious problem. Please take a moment to look over this "
            ++ "form and send it off so that RenderDoc can get better!</p>"
            ++ "<p>The contents of the report can be found <a href=" ++ dquote)
           (dquote ++ ">in this zip</a> which you can edit/censor if you wish.</p>"
            ++ "<p>More information about <a href=" ++ dquote ++ BUGREPORT_URL ++ dquote
            ++ ">the bug reporter</a> and <a href=" ++ dquote ++ BUGREPORT_URL
            ++ "/privacy" ++ dquote ++ ">privacy statement</a> for submissions.")).
Qed.

Lemma remainString_no_percent (r : Z) : no_percent (remainString r) = true.
Proof.
  unfold remainString.
  destruct (0 <? r / 3600); [|destruct (0 <? (r / 60) mod 60)].
  - rewrite arg_hms, !no_percent_app, !no_percent_field. reflexivity.
  - rewrite arg_ms, !no_percent_app, !no_percent_field. reflexivity.
  - rewrite arg_seconds, no_percent_app, no_percent_number. reflexivity.
Qed.

(** The four place markers of the status text, filled one after the
    other. *)
Lemma progressText_filled (sent total remain speed : string) :
  no_percent sent = true -> no_percent total = true -> no_percent remain = true ->
  arg speed (arg remain (arg total (arg sent (tr progressText_template))))
  = "Uploading report..." ++ newline ++ sent ++ " MB / " ++ total ++ " MB. "
    ++ remain ++ " remaining (" ++ speed ++ " MB/s)".
Proof.
  intros Hs Ht Hr. unfold tr, progressText_template.
  pose (head := "Uploading report..." ++ newline).
  assert (Hhead : no_percent head = true) by reflexivity.
  change (arg sent ("Uploading report..." ++ newline
                    ++ "%1 MB / %2 MB. %3 remaining (%4 MB/s)"))
    with (head ++ sent ++ " MB / %2 MB. %3 remaining (%4 MB/s)").
  rewrite (arg_app total head), (arg_app total sent) by assumption.
  change (arg total " MB / %2 MB. %3 remaining (%4 MB/s)")
    with (" MB / " ++ total ++ " MB. %3 remaining (%4 MB/s)").
  rewrite (arg_app remain head), (arg_app remain sent),
    (arg_app remain " MB / "), (arg_app remain total) by (assumption || reflexivity).
  change (arg remain " MB. %3 remaining (%4 MB/s)")
    with (" MB. " ++ remain ++ " remaining (%4 MB/s)").
  rewrite (arg_app speed head), (arg_app speed sent),
    (arg_app speed " MB / "), (arg_app speed total),
    (arg_app speed " MB. "), (arg_app speed remain) by (assumption || reflexivity).
  change (arg speed " remaining (%4 MB/s)")
    with (" remaining (" ++ speed ++ " MB/s)").
  unfold head. rewrite !append_assoc. reflexivity.
Qed.

(** X19. Once more than a second has elapsed, the status text of an
    upload in progress reads, after the line "Uploading report...", the
    megabytes sent, " MB / ", the megabytes in total, " MB. ", the remaining
    time, " remaining (", the speed and " MB/s)": each of the four values
    lands in its own place, given that a number printed in fixed notation
    holds no percent sign. *)
Theorem uploadProgress_text (sent total nsecsElapsed : Z) (d d' : CrashDialog)
    (Hformat : forall x, no_percent (number_f x 2) = true)
    (Htotal : 0 < total) (Hsent : sent < total)
    (Hprogress : reply_uploadProgress sent total nsecsElapsed d = Some d') :
  let sentMB := Double.div (Double.of_int sent) Double.d1000000 in
  let totalMB := Double.div (Double.of_int total) Double.d1000000 in
  let secondsElapsed := Double.mul (Double.of_int nsecsElapsed) Double.d1e_9 in
  let speedMBS := Double.div sentMB secondsElapsed in
  Double.gt secondsElapsed Double.d1 = true ->
  exists secondsRemaining,
    Double.to_qulonglong (Double.div (Double.sub totalMB sentMB) speedMBS)
    = Some secondsRemaining
    /\ progressText_text (ui d')
       = "Uploading report..." ++ newline ++ number_f sentMB 2 ++ " MB / "
         ++ number_f totalMB 2 ++ " MB. " ++ remainString secondsRemaining
         ++ " remaining (" ++ number_f speedMBS 2 ++ " MB/s)".
Proof.
  intros sentMB totalMB secondsElapsed speedMBS Hwarm.
  revert Hprogress. unfold reply_uploadProgress.
  assert ((0 <? total) && (sent <? total) = true) as ->
      by (apply andb_true_intro; split; apply Z.ltb_lt; lia).
  destruct (Double.to_int _) as [value|]; [|discriminate].
  cbn [mbind option_bind]. fold sentMB totalMB secondsElapsed speedMBS.
  destruct (Double.to_qulonglong _) as [remaining|]; [|discriminate].
  cbn [mbind option_bind]. rewrite Hwarm. intros [= <-].
  exists remaining. split; [reflexivity|].
  unfold arg_double. simpl.
  apply progressText_filled; auto using remainString_no_percent.
Qed.


(** ** What every request carries *)

Lemma last_multiPart (d : CrashDialog) :
  last (multiPart d) = Some (report_part (m_ReportPath d)).
Proof. rewrite multiPart_eq, !app_assoc. apply last_snoc. Qed.

(** X20. Every request of a session goes to the address of the bug
    reporter and ends with the zipped report of the crash the dialog was
    opened for: along every sequence of events, the request the dialog holds
    has the report named by the descriptor as its last part. *)
Theorem every_request_carries_report
    (w : World) (setupUi : Ui) (cfg : PersistantConfig)
    (crashReportJSON : gmap string QVariant) (evs : list Event) :
  Forall (fun t : Session * Event * Session =>
            forall r, m_Request (dialog t.2) = Some r ->
                      request_url r = BUGREPORT_URL
                      /\ last (request_multiPart r)
                         = Some (report_part
                                   (toString (value_at crashReportJSON "report"))))
    (run (start w setupUi cfg crashReportJSON) evs).
Proof.
  destruct (constructor_members w setupUi cfg crashReportJSON)
    as (Hpath & _ & _ & _ & Hreq & _).
  set (path := toString (value_at crashReportJSON "report")) in *.
  apply (run_invariant
           (fun s => m_ReportPath (dialog s) = path
                     /\ forall r, m_Request (dialog s) = Some r ->
                                  request_url r = BUGREPORT_URL
                                  /\ last (request_multiPart r)
                                     = Some (report_part path))).
  - intros s ev s' (Hp & Hr) Hstep. cbn [snd].
    assert (Hp' : m_ReportPath (dialog s') = path).
    { destruct (attachments_step s s' ev Hstep) as (Ha & _).
      unfold attachments in Ha. congruence. }
    assert (Hr' : forall r, m_Request (dialog s') = Some r ->
                            request_url r = BUGREPORT_URL
                            /\ last (request_multiPart r) = Some (report_part path)).
    { intros r' Hr'.
      destruct (request_step s s' ev r' Hstep Hr')
        as [(r & Hbefore & Hurl & Hparts) | (d & Hurl & Hparts & Ha & _)].
      - rewrite Hurl, Hparts. exact (Hr r Hbefore).
      - split; [exact Hurl|]. rewrite Hparts, last_multiPart.
        unfold attachments in Ha.
        assert (m_ReportPath d = path) as -> by congruence. reflexivity. }
    repeat split; solve [assumption | apply Hr'; assumption].
  - unfold start. cbn [dialog]. split; [exact Hpath|]. rewrite Hreq. discriminate.
Qed.

(** X21. Declining the capture question settles the matter for the next
    click: the box is then unchecked, so the click that follows is not held
    up by the question, whatever would be answered to it, and a request it
    posts carries neither the capture nor its thumbnail. *)
Theorem declined_capture_not_sent
    (captureAnswer emailAnswer nextCapture nextEmail : StandardButton)
    (d : CrashDialog) (r : QNetworkReply)
    (Hchecked : captureUpload_checked (ui d) = true)
    (Hanswer : captureAnswer <> Yes)
    (Hidle : m_Request d = None)
    (Hposted : m_Request (on_send_clicked nextCapture nextEmail
                            (on_send_clicked captureAnswer emailAnswer d)) = Some r) :
  attached r = []
  /\ forall other,
       on_send_clicked other nextEmail (on_send_clicked captureAnswer emailAnswer d)
       = on_send_clicked nextCapture nextEmail
           (on_send_clicked captureAnswer emailAnswer d).
Proof.
  assert (Hd : on_send_clicked captureAnswer emailAnswer d
               = on_ui (set_captureUpload_checked false) d).
  { unfold on_send_clicked. rewrite Hchecked.
    destruct captureAnswer; [contradiction | reflexivity | reflexivity]. }
  rewrite Hd in *. set (d1 := on_ui (set_captureUpload_checked false) d) in *.
  split.
  - destruct (on_send_clicked_cases nextCapture nextEmail d1)
      as [(Hbox & _) | [(_ & Hd') | (d0 & Hd' & Hui & Ha & _)]].
    + discriminate Hbox.
    + rewrite Hd' in Hposted.
      cbn [m_Request on_ui set_ui Save set_saved on_config set_m_Config d1] in Hposted.
      congruence.
    + rewrite Hd', request_setStage, request_sendReport in Hposted.
      injection Hposted as <-. unfold attached. cbn [request_multiPart].
      rewrite attached_multiPart, Hui. cbn [captureUpload_checked ui d1 on_ui set_ui
                                              set_captureUpload_checked].
      now rewrite andb_false_r.
  - intros other. unfold on_send_clicked.
    assert (Hoff : captureUpload_checked (ui d1) = false) by reflexivity.
    rewrite Hoff. cbn [andb]. reflexivity.
Qed.

End MoreProperties.

(** ** The further theorems at concrete inputs *)

Lemma fixed_no_percent (x : Double.double) (digits : nat) :
  no_percent (Double.fixed x digits) = true.
Proof.
  destruct x as [s | s | | s m e]; unfold Double.fixed.
  - rewrite !no_percent_app, no_percent_fill by reflexivity. now destruct s.
  - now destruct s.
  - reflexivity.
  - cbv zeta. rewrite !no_percent_app, no_percent_number.
    rewrite no_percent_padLeft by (reflexivity || apply no_percent_number).
    now destruct s.
Qed.

Lemma constructor_with_capture_witness :
  let broken := @CrashDialog_new Sample.externals Sample.brokenWorld Sample.setupUi
                  Sample.config Sample.replayCrashJSON in
  toUInt (value_at Sample.replayCrashJSON "replaycrash") <> 0
  /\ m_CaptureFilename Sample.fresh = "/captures/last.rdc"
  /\ captureFilename_text (ui Sample.fresh) = "last.rdc"
  /\ capturePreviewFrame_visible (ui Sample.fresh) = true
  /\ m_Thumbnail Sample.fresh = Some Sample.thumbnail
  /\ m_CaptureFilename broken = "/captures/last.rdc"
  /\ captureUpload_visible (ui broken) = true
  /\ capturePreviewFrame_visible (ui broken) = false
  /\ m_Thumbnail broken = None.
Proof.
  assert (Hreplay : toUInt (value_at Sample.replayCrashJSON "replaycrash") <> 0)
    by (vm_compute; discriminate).
  pose proof (@constructor_with_capture Sample.externals Sample.world
                Sample.setupUi Sample.config Sample.replayCrashJSON Hreplay eq_refl)
    as (Hname & Hlabel & _ & _ & _ & _ & Hframe & Hthumb & _).
  pose proof (@constructor_with_capture Sample.externals Sample.brokenWorld
                Sample.setupUi Sample.config Sample.replayCrashJSON Hreplay eq_refl)
    as (Hname' & _ & _ & Hbox' & _ & _ & Hframe' & Hthumb' & _).
  split; [exact Hreplay|]. split; [exact Hname|]. split; [exact Hlabel|].
  split; [exact Hframe|]. split; [exact Hthumb|]. split; [exact Hname'|].
  split; [exact Hbox'|]. split; [exact Hframe' | exact Hthumb'].
Defined.

Lemma remembered_email_round_trip_witness :
  let d := on_ui (set_email_text "new@example.org") Sample.fresh in
  rememberEmail_checked (ui d) = false
  /\ exists cfg,
       head (saved (@on_send_clicked Sample.externals Yes No d)) = Some cfg
       /\ email_text (ui (@CrashDialog_new Sample.externals Sample.world
                            Sample.setupUi cfg Sample.otherCrashJSON))
          = "old@example.org".
Proof.
  split; [reflexivity|].
  destruct (@remembered_email_round_trip Sample.externals Yes No
              (on_ui (set_email_text "new@example.org") Sample.fresh)
              Sample.world Sample.setupUi Sample.otherCrashJSON
              (or_introl eq_refl) (or_introl eq_refl))
    as (cfg & Hsaved & _ & _ & Hkept).
  exists cfg. split; [exact Hsaved | exact (Hkept eq_refl)].
Defined.

Lemma email_nag_once_witness :
  let asked := @on_send_clicked Sample.externals Yes Yes Sample.firstTime in
  CrashReport_EmailNagged (m_Config Sample.firstTime) = false
  /\ CrashReport_EmailNagged (m_Config asked) = true
  /\ m_Stage asked = FillingDetails
  /\ m_Request asked = None
  /\ m_Stage (@on_send_clicked Sample.externals Yes Yes asked) = Uploading.
Proof.
  pose proof (@email_nag_once Sample.externals Yes Yes Sample.firstTime
                (or_introl eq_refl) eq_refl eq_refl)
    as (Hnagged & _ & Hyes & _).
  destruct (Hyes eq_refl) as (_ & Hrequest & Hstage & _ & _ & Hsecond).
  split; [reflexivity|]. split; [exact Hnagged|]. split; [exact Hstage|].
  split; [exact Hrequest | exact (proj1 (Hsecond Yes))].
Defined.

Lemma capture_needs_consent_witness :
  m_Request Sample.withCapture = None
  /\ capture_part "/captures/last.rdc"
       ∈ multiPart (@on_send_clicked Sample.externals Yes No Sample.withCapture)
  /\ captureUpload_checked (ui Sample.withCapture) = true
  /\ isEmpty (m_CaptureFilename Sample.withCapture) = false.
Proof.
  assert (Hpart : capture_part "/captures/last.rdc"
                    ∈ multiPart (@on_send_clicked Sample.externals Yes No
                                   Sample.withCapture)).
  { apply (list_elem_of_lookup_2 _ 2%nat). vm_compute. reflexivity. }
  pose proof (@capture_needs_consent Sample.externals Yes No Sample.withCapture
                {| request_url := @BUGREPORT_URL Sample.externals;
                   request_multiPart :=
                     multiPart (@on_send_clicked Sample.externals Yes No
                                  Sample.withCapture);
                   reply_running := true |}
                (capture_part "/captures/last.rdc")
                eq_refl ltac:(vm_compute; reflexivity) Hpart (or_introl eq_refl))
    as (Hbox & _ & Hcap & _).
  split; [reflexivity|]. split; [exact Hpart|]. split; [exact Hbox | exact Hcap].
Defined.

Lemma retry_resends_request_witness :
  let failed :=
    @reply_finished Sample.externals ""
      (reply_error "Connection closed" Sample.uploading) in
  let again := @on_uploadRetry_clicked Sample.externals failed in
  m_Request Sample.fresh = None
  /\ uploadRetry_enabled (ui failed) = true
  /\ uploadRetry_enabled (ui again) = false
  /\ m_Stage (@reply_finished Sample.externals "abc123" again) = Reported.
Proof.
  pose proof (@retry_resends_request Sample.externals Yes No "Connection closed"
                "" "abc123" Sample.fresh
                {| request_url := @BUGREPORT_URL Sample.externals;
                   request_multiPart := multiPart Sample.uploading;
                   reply_running := true |}
                ltac:(vm_compute; reflexivity) eq_refl)
    as (_ & Hon & _ & Hoff & _ & _ & _ & Hreported & _).
  split; [reflexivity|]. split; [exact Hon|]. split; [exact Hoff | exact Hreported].
Defined.

Lemma finished_then_accepted_witness :
  let d := on_buttonBox_accepted 1 2
             (@reply_finished Sample.externals "abc123" Sample.uploading) in
  uploadRetry_enabled (ui Sample.uploading) = false
  /\ result d = Some Accepted
  /\ CrashReport_ReportedBugs (m_Config d)
     = [{| ID := "abc123"; SubmitDate := Some 1; CheckDate := Some 2 |}]
  /\ m_Config (on_buttonBox_accepted 1 2
                 (@reply_finished Sample.externals "" Sample.uploading))
     = m_Config Sample.uploading.
Proof.
  pose proof (@finished_then_accepted Sample.externals "abc123" 1 2
                Sample.uploading eq_refl) as (Hresult & _ & _).
  pose proof (@finished_then_accepted Sample.externals "" 1 2
                Sample.uploading eq_refl) as (_ & _ & Hempty).
  split; [reflexivity|]. split; [exact Hresult|]. split; [reflexivity|].
  exact (proj1 Hempty).
Defined.

Lemma uploadProgress_frame_witness :
  exists d',
    @reply_uploadProgress Sample.externals 1500000 10000000 2000000000
      Sample.uploading = Some d'
    /\ d' = on_ui (set_progressText_text (progressText_text (ui d')))
              (on_ui (set_progressBar_value (progressBar_value (ui d')))
                 Sample.uploading)
    /\ @reply_uploadProgress Sample.externals 10000000 10000000 2000000000
         Sample.uploading = Some Sample.uploading.
Proof.
  destruct (@reply_uploadProgress Sample.externals 1500000 10000000 2000000000
              Sample.uploading) as [d'|] eqn:Hprogress;
    [|vm_compute in Hprogress; discriminate].
  exists d'. split; [reflexivity|].
  pose proof (@uploadProgress_frame Sample.externals 1500000 10000000 2000000000
                Sample.uploading d' Hprogress) as (Hframe & _).
  split; [exact Hframe | reflexivity].
Defined.

Lemma uploadProgress_nothing_sent_witness :
  0 < 10000000
  /\ @reply_uploadProgress Sample.externals 0 10000000 2000000000 Sample.uploading
     = None.
Proof.
  split; [lia|].
  exact (@uploadProgress_nothing_sent Sample.externals 10000000 2000000000
           Sample.uploading ltac:(lia)).
Defined.

Lemma no_capture_without_replay_crash_witness :
  toUInt (value_at Sample.otherCrashJSON "replaycrash") = 0
  /\ Forall (fun t : Session * Event * Session =>
               forall r, m_Request (dialog t.2) = Some r -> attached r = [])
       (@run Sample.externals
          (@start Sample.externals Sample.world Sample.setupUi Sample.config
             Sample.otherCrashJSON)
          Sample.events).
Proof.
  split; [reflexivity|].
  exact (@no_capture_without_replay_crash Sample.externals Sample.world
           Sample.setupUi Sample.config Sample.otherCrashJSON Sample.events
           (or_introl eq_refl)).
Defined.

Lemma uploadProgress_below_full_witness :
  0 <= 9007199254740990 /\ 9007199254740991 < 2 ^ 53
  /\ exists d',
       @reply_uploadProgress Sample.externals 9007199254740990 9007199254740991
         2000000000 Sample.uploading = Some d'
       /\ 0 <= progressBar_value (ui d') <= 9999.
Proof.
  split; [lia|]. split; [lia|].
  destruct (@reply_uploadProgress Sample.externals 9007199254740990
              9007199254740991 2000000000 Sample.uploading)
    as [d'|] eqn:Hprogress; [|vm_compute in Hprogress; discriminate].
  exists d'. split; [reflexivity|].
  exact (proj1 (proj2 (proj2
           (@uploadProgress_below_full Sample.externals 9007199254740990
              9007199254740991 2000000000 Sample.uploading d'
              ltac:(lia) ltac:(lia) Hprogress)))
           ltac:(lia) ltac:(lia)).
Defined.

Lemma bar_never_full_witness :
  Forall plausible Sample.events
  /\ Forall (fun t : Session * Event * Session =>
               m_Stage (dialog t.2) <> FillingDetails ->
               0 <= progressBar_value (ui (dialog t.2)) <= 9999
               /\ progressBar_maximum (ui (dialog t.2)) = 10000)
       (@run Sample.externals
          (@start Sample.externals Sample.world Sample.setupUi Sample.config
             Sample.replayCrashJSON)
          Sample.events).
Proof.
  assert (Hevs : Forall plausible Sample.events)
    by (repeat constructor; simpl; lia).
  split; [exact Hevs|].
  exact (@bar_never_full Sample.externals Sample.world Sample.setupUi
           Sample.config Sample.replayCrashJSON Sample.events Hevs).
Defined.

Lemma uploadProgress_text_witness :
  exists d',
    @reply_uploadProgress Sample.externals 1000000 63500000 2000000000
      Sample.uploading = Some d'
    /\ progressText_text (ui d')
       = "Uploading report..." ++ newline
         ++ "1.00 MB / 63.50 MB. 02:05 remaining (0.50 MB/s)".
Proof.
  destruct (@reply_uploadProgress Sample.externals 1000000 63500000 2000000000
              Sample.uploading) as [d'|] eqn:Hprogress;
    [|vm_compute in Hprogress; discriminate].
  exists d'. split; [reflexivity|].
  destruct (@uploadProgress_text Sample.externals 1000000 63500000 2000000000
              Sample.uploading d' (fun x => fixed_no_percent x 2)
              ltac:(lia) ltac:(lia) Hprogress ltac:(vm_compute; reflexivity))
    as (remaining & Hremaining & ->).
  assert (remaining = 125) as ->
      by (vm_compute in Hremaining; congruence).
  vm_compute. reflexivity.
Defined.

Lemma declined_capture_not_sent_witness :
  captureUpload_checked (ui Sample.withCapture) = true
  /\ No <> Yes
  /\ map ContentTypeHeader
       (multiPart (@on_send_clicked Sample.externals Yes No
                     (@on_send_clicked Sample.externals No No Sample.withCapture)))
     = [None; None; Some "application/zip"]
  /\ attached
       {| request_url := @BUGREPORT_URL Sample.externals;
          request_multiPart :=
            multiPart (@on_send_clicked Sample.externals Yes No
                         (@on_send_clicked Sample.externals No No Sample.withCapture));
          reply_running := true |} = [].
Proof.
  assert (Hno : No <> Yes) by discriminate.
  pose proof (@declined_capture_not_sent Sample.externals No No Yes No
                Sample.withCapture
                {| request_url := @BUGREPORT_URL Sample.externals;
                   request_multiPart :=
                     multiPart (@on_send_clicked Sample.externals Yes No
                                  (@on_send_clicked Sample.externals No No
                                     Sample.withCapture));
                   reply_running := true |}
                eq_refl Hno eq_refl ltac:(vm_compute; reflexivity))
    as (Hnone & _).
  split; [reflexivity|]. split; [exact Hno|].
  split; [vm_compute; reflexivity | exact Hnone].
Defined.
